(** * The interactive map synchronisation layer of the geospatial dashboard

    A shallow embedding of
    - [frontend-new/src/services/api/geographical.ts] (the data access client),
    - [frontend-new/src/hooks/useGeographic.ts] (the cached query hooks),
    - [frontend-new/src/components/Features/GeographicView.tsx] (the map
      instance controller),
    and the properties of the specification that concern them. *)

From Stdlib Require Import QArith Qcanon ZArith Lia Lqa.
From stdpp Require Import base option list strings pretty gmap.

Open Scope string_scope.
Open Scope list_scope.
Open Scope nat_scope.
Set Warnings "-register-all,-abstract-large-number".

(** ** JavaScript values

    The payload of a response is whatever [JSON.parse] produced, so the data
    access client works on untyped values.  Numbers are IEEE doubles in the
    source; they are modelled as exact rationals (the code under study only
    asks for their [typeof] and their truthiness, and adds small offsets to
    literals).  An object is the list of its own enumerable properties in
    enumeration order, with distinct keys. *)
Module Js.

Inductive JsVal : Type :=
| JUndef
| JNull
| JBool (b : bool)
| JNum (q : Q)
| JStr (s : string)
| JArr (l : list JsVal)
| JObj (kvs : list (string * JsVal)).

Inductive JsType := TUndefined | TObject | TBoolean | TNumber | TString.

#[global] Instance JsType_eq_dec : EqDecision JsType.
Proof. solve_decision. Defined.

(** [typeof v] *)
Definition typeof (v : JsVal) : JsType :=
  match v with
  | JUndef => TUndefined
  | JNull | JArr _ | JObj _ => TObject
  | JBool _ => TBoolean
  | JNum _ => TNumber
  | JStr _ => TString
  end.

(** ToBoolean: [undefined], [null], [false], [0] and the empty string are
    falsy. *)
Definition truthy (v : JsVal) : bool :=
  match v with
  | JUndef | JNull => false
  | JBool b => b
  | JNum q => negb (Qeq_bool q 0)
  | JStr s => negb (bool_decide (s = ""))
  | JArr _ | JObj _ => true
  end.

(** [Array.isArray(v)] *)
Definition isArray (v : JsVal) : bool :=
  match v with JArr _ => true | _ => false end.

(** The elements of an array (no elements for anything else). *)
Definition elements (v : JsVal) : list JsVal :=
  match v with JArr l => l | _ => [] end.

(** [a || b] *)
Definition or_else (a b : JsVal) : JsVal := if truthy a then a else b.

(** *** Exceptions *)

Record JsError := mkError { err_name : string; err_message : string }.

Inductive Exc (A : Type) : Type :=
| Ok (a : A)
| Throw (e : JsError).
Arguments Ok {A} a.
Arguments Throw {A} e.

Definition bind {A B} (m : Exc A) (f : A → Exc B) : Exc B :=
  match m with Ok a => f a | Throw e => Throw e end.

(** [try { body } catch (e) { handler(e) }] *)
Definition try_catch {A} (body : Exc A) (handler : JsError → Exc A) : Exc A :=
  match body with Ok a => Ok a | Throw e => handler e end.

(** [try { return body } catch (e) { return null }], as in the callbacks of
    [data.map]. *)
Definition catch_null {A} (body : Exc A) : option A :=
  match body with Ok a => Some a | Throw _ => None end.

Definition TypeError (msg : string) : JsError := mkError "TypeError" msg.
Definition NewError (msg : string) : JsError := mkError "Error" msg.

(** *** Property access *)

(** The index an array-index key denotes, if it is below [n]. *)
Definition index_of_key (k : string) (n : nat) : option nat :=
  List.find (λ i, bool_decide (pretty i = k)) (seq 0 n).

Fixpoint assoc (k : string) (kvs : list (string * JsVal)) : option JsVal :=
  match kvs with
  | [] => None
  | (k', v) :: rest => if bool_decide (k' = k) then Some v else assoc k rest
  end.

Definition char_at (s : string) (i : nat) : JsVal :=
  match String.get i s with
  | Some c => JStr (String c EmptyString)
  | None => JUndef
  end.

(** [v[k]] (and [v.k]): reading a property of [undefined] or [null] throws a
    TypeError; a missing property reads as [undefined].  Only own properties
    are modelled: none of the names the source reads is inherited from a
    prototype. *)
Definition get (v : JsVal) (k : string) : Exc JsVal :=
  match v with
  | JUndef | JNull =>
      Throw (TypeError ("Cannot read properties of null or undefined: " +:+ k))
  | JBool _ | JNum _ => Ok JUndef
  | JStr s =>
      if bool_decide (k = "length") then Ok (JNum (inject_Z (Z.of_nat (String.length s))))
      else Ok (from_option (char_at s) JUndef (index_of_key k (String.length s)))
  | JArr l =>
      if bool_decide (k = "length") then Ok (JNum (inject_Z (Z.of_nat (length l))))
      else Ok (default JUndef (i ← index_of_key k (length l); l !! i))
  | JObj kvs => Ok (default JUndef (assoc k kvs))
  end.

(** [undefined] and [null], the values whose properties cannot be read. *)
Definition is_nullish (v : JsVal) : bool :=
  match v with JUndef | JNull => true | _ => false end.

(** The property read off a value (it is [get] where [get] does not throw). *)
Definition prop (v : JsVal) (k : string) : JsVal :=
  match get v k with Ok x => x | Throw _ => JUndef end.

(** ToPrimitive, which the arithmetic operators and the template literals
    apply to their operands, throws a TypeError on a value that has no
    primitive value.  Among the values of a parsed JSON text these are the
    objects with an own property [toString] (no JSON value is callable, and
    the inherited [valueOf] returns the object itself), and the arrays with an
    element that has no primitive value (the inherited [toString] of an array
    joins the strings of its elements; [null] is joined as the empty
    string). *)
Fixpoint coercible (v : JsVal) : bool :=
  match v with
  | JObj kvs => negb (bool_decide (is_Some (assoc "toString" kvs)))
  | JArr l => forallb coercible l
  | JUndef | JNull | JBool _ | JNum _ | JStr _ => true
  end.

(** The TypeError of an operand without a primitive value. *)
Definition notCoercible : JsError :=
  TypeError "Cannot convert object to primitive value".

(** [Object.keys(v)] *)
Definition keys (v : JsVal) : Exc (list string) :=
  match v with
  | JUndef | JNull => Throw (TypeError "Cannot convert undefined or null to object")
  | JBool _ | JNum _ => Ok []
  | JStr s => Ok (pretty <$> seq 0 (String.length s))
  | JArr l => Ok (pretty <$> seq 0 (length l))
  | JObj kvs => Ok (kvs.*1)
  end.

(** [xs[i]] on an array built by the code itself. *)
Definition nth_or_undef (xs : list JsVal) (i : nat) : JsVal :=
  default JUndef (xs !! i).

(** [ks.map(k => v[k])] *)
Fixpoint get_all (v : JsVal) (ks : list string) : Exc (list JsVal) :=
  match ks with
  | [] => Ok []
  | k :: rest =>
      bind (get v k) (λ x, bind (get_all v rest) (λ xs, Ok (x :: xs)))
  end.

Definition is_number (v : JsVal) : bool := bool_decide (typeof v = TNumber).
Definition is_string (v : JsVal) : bool := bool_decide (typeof v = TString).

(** A number other than zero, or no number at all. *)
Definition non_zero (v : JsVal) : Prop := ∀ q, v = JNum q → ¬ (q == 0)%Q.

(** An array of exactly two numbers. *)
Definition is_number_pair (v : JsVal) : bool :=
  match v with JArr [JNum _; JNum _] => true | _ => false end.

(** [String.prototype.includes] *)
Definition includes (needle hay : string) : bool :=
  match String.index 0 needle hay with Some _ => true | None => false end.

End Js.

Import Js.

Notation "x ←! m ; f" := (bind m (λ x, f))
  (at level 20, m at level 100, f at level 200, only parsing, right associativity).

(** ** The data access client ([services/api/geographical.ts]) *)
Module Geographical.

(** The three endpoints under [API_BASE_URL/geo]. *)
Inductive Endpoint := DensityGridEP | BusinessClustersEP | NeighborhoodMetricsEP.

(** What [fetch] resolves to: the [ok] flag, the status code, and what
    [response.json()] gives (a value, or the SyntaxError of a body that does
    not parse). *)
Record Response := mkResponse {
  resp_ok : bool;
  resp_status : Z;
  resp_json : Exc JsVal
}.

(** The network and the server: for an endpoint and the value of its query
    parameter, [fetch] either rejects (an AbortError when the 10 s timer
    aborts the request, a TypeError when the server is unreachable) or
    resolves to a response. *)
Definition Api := Endpoint → Q → Exc Response.

Definition safeFetch (fetched : Exc Response) : Exc JsVal :=
  try_catch
    (response ←! fetched;
     if negb (resp_ok response) then
       if bool_decide (resp_status response = 0%Z) then
         Throw (NewError "Network error - CORS issue detected")
       else if bool_decide (500 ≤ resp_status response)%Z then
         Throw (NewError ("Server error: " +:+ pretty (resp_status response)))
       else
         Throw (NewError ("HTTP error: " +:+ pretty (resp_status response)))
     else resp_json response)
    (λ error,
       if bool_decide (err_name error = "AbortError") then
         Throw (NewError "Request timed out")
       else if includes "NetworkError" (err_message error) then
         Throw (NewError "Network error - check API connection")
       else Throw error).

(** [!data || !Array.isArray(data) || data.length === 0] *)
Definition no_data (data : JsVal) : bool :=
  negb (truthy data) || negb (isArray data) || bool_decide (length (elements data) = 0).

(** [data.map(f).filter(feature => feature !== null)] where [f] returns
    [null] from its [catch]. *)
Definition map_features {F} (f : JsVal → nat → option F) (data : JsVal) : list F :=
  omap id (imap (λ index item, f item index) (elements data)).

(** The index of a record as a number. *)
Definition idx (index : nat) : Q := inject_Z (Z.of_nat index).

(** *** Density grid *)

Record DensityGridFeature := mkDensity {
  dg_coordinates : JsVal;          (* geometry: { type: 'Polygon', coordinates } *)
  dg_id : JsVal;
  dg_business_count : JsVal;
  dg_avg_rating : JsVal;
  dg_service_diversity : JsVal;
  dg_service_types : JsVal
}.

(** [a && b] with [b] evaluated only when [a] is truthy. *)
Definition and_then (a : JsVal) (b : Exc JsVal) : Exc JsVal :=
  if truthy a then b else Ok a.

Definition densityHasExpectedStructure (item : JsVal) : Exc JsVal :=
  and_then item (
    coordinates ←! get item "coordinates";
    and_then coordinates (
      inner ←! get coordinates "coordinates";
      and_then inner (
        and_then (JBool (isArray inner)) (get item "metrics")))).

Definition pt (x y : Q) : JsVal := JArr [JNum x; JNum y].

(** The fallback structure centered in Tampa. *)
Definition densityPlaceholder (index : nat) : DensityGridFeature :=
  let x := (-82.45 + idx index * 0.001)%Q in
  let y := (27.95 + idx index * 0.001)%Q in
  {| dg_coordinates :=
       JArr [JArr [pt x y;
                   pt (x + 0.01) y;
                   pt (x + 0.01) (y + 0.01);
                   pt x (y + 0.01);
                   pt x y]];
     dg_id := JStr ("grid-" +:+ pretty index);
     dg_business_count := JNum 0;
     dg_avg_rating := JNum 0;
     dg_service_diversity := JNum 0;
     dg_service_types := JArr [] |}.

(** [item.metrics?.name || dflt] *)
Definition metric (item : JsVal) (name : string) (dflt : JsVal) : Exc JsVal :=
  metrics ←! get item "metrics";
  match metrics with
  | JUndef | JNull => Ok (or_else JUndef dflt)
  | _ => v ←! get metrics name; Ok (or_else v dflt)
  end.

Definition densityFeatureBody (item : JsVal) (index : nat) : Exc DensityGridFeature :=
  hasExpectedStructure ←! densityHasExpectedStructure item;
  if negb (truthy hasExpectedStructure) then Ok (densityPlaceholder index)
  else
    coordinates ←! get item "coordinates";
    inner ←! get coordinates "coordinates";
    grid_id ←! get item "grid_id";
    business_count ←! metric item "business_count" (JNum 0);
    avg_rating ←! metric item "avg_rating" (JNum 0);
    service_diversity ←! metric item "service_diversity" (JNum 0);
    service_types ←! metric item "service_types" (JArr []);
    Ok {| dg_coordinates := inner;
          dg_id := or_else grid_id (JStr ("grid-" +:+ pretty index));
          dg_business_count := business_count;
          dg_avg_rating := avg_rating;
          dg_service_diversity := service_diversity;
          dg_service_types := service_types |}.

(** A record that fails the structure check ([!hasExpectedStructure]). *)
Definition density_malformed (item : JsVal) : bool :=
  match densityHasExpectedStructure item with
  | Ok h => negb (truthy h)
  | Throw _ => false
  end.

(** What the structure check of a density cell asks of a record:
    [item && item.coordinates && item.coordinates.coordinates &&
     Array.isArray(item.coordinates.coordinates) && item.metrics]. *)
Record density_accepted (item : JsVal) : Prop := {
  da_truthy : truthy item = true;
  da_coordinates : truthy (prop item "coordinates") = true;
  da_ring : isArray (prop (prop item "coordinates") "coordinates") = true;
  da_metrics : truthy (prop item "metrics") = true
}.

Definition densityFeature (item : JsVal) (index : nat) : option DensityGridFeature :=
  catch_null (densityFeatureBody item index).

Definition getDensityGrid (api : Api) (minRating : Q) : Exc (list DensityGridFeature) :=
  try_catch
    (data ←! safeFetch (api DensityGridEP minRating);
     if no_data data then Ok []
     else Ok (map_features densityFeature data))
    (λ _, Ok []).

(** *** Business clusters *)

Record BusinessClusterFeature := mkCluster {
  bc_coordinates : JsVal;          (* geometry: { type: 'Point', coordinates } *)
  bc_id : JsVal;
  bc_size : JsVal;
  bc_rating : JsVal;
  bc_categories : JsVal
}.

Definition clusterHasExpectedStructure (cluster : JsVal) : Exc JsVal :=
  and_then cluster (
    cluster_id ←! get cluster "cluster_id";
    and_then (JBool (is_string cluster_id)) (
      size ←! get cluster "size";
      and_then (JBool (is_number size)) (
        avg_rating ←! get cluster "avg_rating";
        and_then (JBool (is_number avg_rating)) (
          categories ←! get cluster "categories";
          and_then (JBool (isArray categories)) (get cluster "center"))))).

(** The fallback structure around Tampa. *)
Definition clusterPlaceholder (index : nat) : BusinessClusterFeature :=
  {| bc_coordinates := pt (-82.45 + idx index * 0.01) (27.95 + idx index * 0.01);
     bc_id := JStr ("cluster-" +:+ pretty index);
     bc_size := JNum 5;
     bc_rating := JNum 3;
     bc_categories := JArr [JStr "Restaurant"] |}.

(** Default coordinates if they cannot be extracted. *)
Definition defaultCoordinates : JsVal := pt (-82.45) 27.95.

(** The different coordinate formats of [cluster.center]. *)
Definition clusterCoordinates (center : JsVal) : Exc JsVal :=
  coordinates ←! get center "coordinates";
  if truthy coordinates && isArray coordinates then
    Ok coordinates
  else
    x ←! get center "x";
    y ←! (if is_number x then get center "y" else Ok JUndef);
    if is_number x && is_number y then Ok (JArr [x; y])
    else
      longitude ←! get center "longitude";
      latitude ←! (if is_number longitude then get center "latitude" else Ok JUndef);
      if is_number longitude && is_number latitude then Ok (JArr [longitude; latitude])
      else if bool_decide (typeof center = TObject) then
        ks ←! keys center;
        if bool_decide (length ks = 2) then
          values ←! get_all center ks;
          if is_number (nth_or_undef values 0) && is_number (nth_or_undef values 1)
          then Ok (JArr [nth_or_undef values 0; nth_or_undef values 1])
          else Ok defaultCoordinates
        else Ok defaultCoordinates
      else Ok defaultCoordinates.

Definition clusterFeatureBody (cluster : JsVal) (index : nat) : Exc BusinessClusterFeature :=
  hasExpectedStructure ←! clusterHasExpectedStructure cluster;
  if negb (truthy hasExpectedStructure) then Ok (clusterPlaceholder index)
  else
    center ←! get cluster "center";
    coordinates ←! clusterCoordinates center;
    cluster_id ←! get cluster "cluster_id";
    size ←! get cluster "size";
    avg_rating ←! get cluster "avg_rating";
    categories ←! get cluster "categories";
    Ok {| bc_coordinates := coordinates;
          bc_id := or_else cluster_id (JStr ("cluster-" +:+ pretty index));
          bc_size := or_else size (JNum 5);
          bc_rating := or_else avg_rating (JNum 3);
          bc_categories := or_else categories (JArr []) |}.

(** A record accepted as well-formed by the structure check. *)
Definition cluster_wellformed (cluster : JsVal) : bool :=
  match clusterHasExpectedStructure cluster with
  | Ok h => truthy h
  | Throw _ => false
  end.

(** What the structure check of a cluster establishes. *)
Record cluster_accepted (cluster : JsVal) : Prop := {
  ca_truthy : truthy cluster = true;
  ca_id : is_string (prop cluster "cluster_id") = true;
  ca_size : is_number (prop cluster "size") = true;
  ca_rating : is_number (prop cluster "avg_rating") = true;
  ca_categories : isArray (prop cluster "categories") = true;
  ca_center : truthy (prop cluster "center") = true
}.

Definition clusterFeature (cluster : JsVal) (index : nat) : option BusinessClusterFeature :=
  catch_null (clusterFeatureBody cluster index).

Definition getBusinessClusters (api : Api) (minSize : Q) : Exc (list BusinessClusterFeature) :=
  try_catch
    (data ←! safeFetch (api BusinessClustersEP minSize);
     if no_data data then Ok []
     else Ok (map_features clusterFeature data))
    (λ _, Ok []).

(** *** Neighborhood metrics *)

(** The polygon of a neighborhood feature, by the branch that built it.
    [GeomSquareAround cx cy] is the ring
    [[cx - size, cy - size], [cx + size, cy - size], [cx + size, cy + size],
     [cx - size, cy + size], [cx - size, cy - size]] with [size = 0.01],
    where [cx] and [cy] are [centerPoint[0]] and [centerPoint[1]]: the source
    does not check that these are numbers, so the arithmetic, which coerces
    its operands, is kept unevaluated on operands that have a primitive value
    (on the others it throws).  [GeomFallbackSquare lng lat] is the
    ring [[lng, lat], [lng + 0.02, lat], [lng + 0.02, lat + 0.02],
    [lng, lat + 0.02], [lng, lat]]. *)
Inductive NeighborhoodGeometry :=
| GeomProvided (coordinates : JsVal)
| GeomSquareAround (cx cy : JsVal)
| GeomFallbackSquare (lng lat : Q).

(** The ring of a polygon whose corners are numbers. *)
Definition ring (g : NeighborhoodGeometry) : option JsVal :=
  match g with
  | GeomProvided coordinates => Some coordinates
  | GeomSquareAround (JNum cx) (JNum cy) =>
      let size := 0.01%Q in
      Some (JArr [JArr [pt (cx - size) (cy - size);
                        pt (cx + size) (cy - size);
                        pt (cx + size) (cy + size);
                        pt (cx - size) (cy + size);
                        pt (cx - size) (cy - size)]])
  | GeomSquareAround _ _ => None
  | GeomFallbackSquare lng lat =>
      Some (JArr [JArr [pt lng lat;
                        pt (lng + 0.02) lat;
                        pt (lng + 0.02) (lat + 0.02);
                        pt lng (lat + 0.02);
                        pt lng lat]])
  end.

(** [score]: a value of the record, or
    [Math.round((density + accessibility + distribution) / 3)] of the three
    component scores (each already defaulted to 0), unevaluated for the same
    reason: the sum concatenates when a component is a string, and it is
    taken over floating-point numbers otherwise. *)
Inductive Score :=
| ScoreGiven (v : JsVal)
| ScoreAverage (density accessibility distribution : JsVal).

Record NeighborhoodFeature := mkNeighborhood {
  nb_geometry : NeighborhoodGeometry;    (* geometry: { type: 'Polygon', ... } *)
  nb_name : JsVal;
  nb_businesses : JsVal;
  nb_rating : JsVal;
  nb_diversity : JsVal;
  nb_score : Score
}.

(** The position derived from the index of a record. *)
Definition fallbackLat (index : nat) : Q := (27.94 + idx (index mod 5) * 0.02)%Q.
Definition fallbackLng (index : nat) : Q := (-82.48 + idx (index / 5) * 0.03)%Q.

(** [try { ... Object.keys(center) ... throw ... }] of the last branch. *)
Definition centerFromKeys (center : JsVal) : Exc JsVal :=
  ks ←! keys center;
  if bool_decide (length ks = 2) then
    v0 ←! get center (default "undefined" (ks !! 0));
    if is_number v0 then
      v1 ←! get center (default "undefined" (ks !! 1));
      if is_number v1 then Ok (JArr [v0; v1])
      else Throw (NewError "Could not extract center coordinates")
    else Throw (NewError "Could not extract center coordinates")
  else Throw (NewError "Could not extract center coordinates").

Definition centerPoint (center : JsVal) (index : nat) : Exc JsVal :=
  if isArray center then Ok center
  else
    coordinates ←! get center "coordinates";
    if truthy coordinates && isArray coordinates then Ok coordinates
    else
      x ←! get center "x";
      y ←! (if is_number x then get center "y" else Ok JUndef);
      if is_number x && is_number y then Ok (JArr [x; y])
      else
        longitude ←! get center "longitude";
        latitude ←! (if is_number longitude then get center "latitude" else Ok JUndef);
        if is_number longitude && is_number latitude then Ok (JArr [longitude; latitude])
        else
          try_catch (centerFromKeys center)
            (λ _, Ok (pt (fallbackLng index) (fallbackLat index))).

(** [o.outer && o.outer.inner] *)
Definition nested (o : JsVal) (outer inner : string) : Exc JsVal :=
  v ←! get o outer; and_then v (get v inner).

Definition neighborhoodGeometry (neighborhood : JsVal) (index : nat)
  : Exc NeighborhoodGeometry :=
  provided ←! nested neighborhood "geometry" "coordinates";
  if truthy provided then Ok (GeomProvided provided)
  else
    boundary ←! nested neighborhood "area_boundary" "coordinates";
    if truthy boundary then Ok (GeomProvided boundary)
    else
      neighborhood_center ←! get neighborhood "neighborhood_center";
      center ←! (if truthy neighborhood_center then Ok neighborhood_center
                 else get neighborhood "center");
      if truthy center then
        point ←! centerPoint center index;
        let cx := nth_or_undef (elements point) 0 in
        let cy := nth_or_undef (elements point) 1 in
        (* [centerPoint[0] - size], [centerPoint[1] - size], ... *)
        if coercible cx && coercible cy then Ok (GeomSquareAround cx cy)
        else Throw notCoercible
      else Ok (GeomFallbackSquare (fallbackLng index) (fallbackLat index)).

(** [o.a || o.b || ... || dflt] *)
Fixpoint first_truthy (o : JsVal) (names : list string) (dflt : JsVal) : Exc JsVal :=
  match names with
  | [] => Ok dflt
  | name :: rest =>
      v ←! get o name;
      if truthy v then Ok v else first_truthy o rest dflt
  end.

Definition neighborhoodScore (neighborhood : JsVal) : Exc Score :=
  given ←! first_truthy neighborhood ["score"; "neighborhood_score"] JUndef;
  if truthy given then Ok (ScoreGiven given)
  else
    density ←! first_truthy neighborhood ["density_score"] (JNum 0);
    accessibility ←! first_truthy neighborhood ["accessibility_score"] (JNum 0);
    distribution ←! first_truthy neighborhood ["service_distribution_score"] (JNum 0);
    (* [(density + accessibility + distribution) / 3] *)
    if coercible density && coercible accessibility && coercible distribution
    then Ok (ScoreAverage density accessibility distribution)
    else Throw notCoercible.

(** The body of the callback.  Its first statement logs
    [JSON.stringify(neighborhood)], which does not throw on a parsed JSON
    value; the first read of a property does, on [null], and so does the
    arithmetic of the polygon and of the score on an operand without a
    primitive value. *)
Definition neighborhoodFeatureBody (neighborhood : JsVal) (index : nat)
  : Exc NeighborhoodFeature :=
  geometry ←! neighborhoodGeometry neighborhood index;
  name ←! first_truthy neighborhood ["name"; "area_name"; "neighborhood_name"]
            (JStr ("Area " +:+ pretty (index + 1)));
  businesses ←! first_truthy neighborhood
            ["total_businesses"; "businesses"; "business_count"] (JNum 0);
  rating ←! first_truthy neighborhood ["avg_rating"; "rating"] (JNum 0);
  diversity ←! first_truthy neighborhood ["service_diversity"; "diversity"] (JNum 0);
  score ←! neighborhoodScore neighborhood;
  Ok {| nb_geometry := geometry;
        nb_name := name;
        nb_businesses := businesses;
        nb_rating := rating;
        nb_diversity := diversity;
        nb_score := score |}.

Definition neighborhoodFeature (neighborhood : JsVal) (index : nat)
  : option NeighborhoodFeature :=
  catch_null (neighborhoodFeatureBody neighborhood index).

(** The literal table of [createFallbackNeighborhoods]:
    name, businesses, rating, diversity, score, lng, lat. *)
Definition fallbackTable : list (string * Q * Q * Q * Q * Q * Q) :=
  [ ("Hyde Park", 87, 4.3, 12, 78, -82.4633, 27.9380);
    ("Downtown Tampa", 156, 3.9, 18, 82, -82.4572, 27.9506);
    ("Ybor City", 104, 4.1, 15, 76, -82.4370, 27.9600);
    ("Westshore", 121, 3.8, 14, 70, -82.5250, 27.9530);
    ("Channelside", 65, 4.2, 10, 75, -82.4450, 27.9420);
    ("Seminole Heights", 79, 4.5, 11, 73, -82.4600, 27.9950);
    ("SoHo", 93, 4.4, 13, 80, -82.4820, 27.9310);
    ("Palma Ceia", 58, 4.2, 9, 74, -82.4910, 27.9210);
    ("Carrollwood", 88, 3.9, 12, 69, -82.5050, 28.0480);
    ("Brandon", 110, 3.7, 14, 65, -82.2860, 27.9370) ]%Q.

Definition createFallbackNeighborhoods : list NeighborhoodFeature :=
  (λ '(name, businesses, rating, diversity, score, lng, lat),
     {| nb_geometry := GeomSquareAround (JNum lng) (JNum lat);
        nb_name := JStr name;
        nb_businesses := JNum businesses;
        nb_rating := JNum rating;
        nb_diversity := JNum diversity;
        nb_score := ScoreGiven (JNum score) |}) <$> fallbackTable.

Definition getNeighborhoodMetrics (api : Api) (minScore : Q)
  : Exc (list NeighborhoodFeature) :=
  try_catch
    (data ←! safeFetch (api NeighborhoodMetricsEP minScore);
     if no_data data then Ok createFallbackNeighborhoods
     else
       let features := map_features neighborhoodFeature data in
       Ok (if bool_decide (0 < length features) then features
           else createFallbackNeighborhoods))
    (λ _, Ok createFallbackNeighborhoods).

(** *** The records the neighborhood callback throws on *)

(** [neighborhood.neighborhood_center || neighborhood.center] *)
Definition recordCenter (r : JsVal) : JsVal :=
  or_else (prop r "neighborhood_center") (prop r "center").

(** The operands of the subtractions and additions that compute the polygon
    of a record from its center: [centerPoint[0]] and [centerPoint[1]] when
    the center, or its [coordinates], is an array, which is then taken as the
    center point unchecked.  There is no such operand when the record brings
    coordinates of its own ([geometry] or [area_boundary]) or has no center,
    and the operands are numbers when the center point is extracted from
    numeric properties or derived from the index. *)
Definition polygonOperands (r : JsVal) : list JsVal :=
  if truthy (prop (prop r "geometry") "coordinates")
     || truthy (prop (prop r "area_boundary") "coordinates")
     || negb (truthy (recordCenter r))
  then []
  else
    let center := recordCenter r in
    if isArray center then
      [nth_or_undef (elements center) 0; nth_or_undef (elements center) 1]
    else if isArray (prop center "coordinates") then
      [nth_or_undef (elements (prop center "coordinates")) 0;
       nth_or_undef (elements (prop center "coordinates")) 1]
    else [].

(** The operands of the sum that computes the score of a record: the three
    component scores, each defaulted to 0, when neither [score] nor
    [neighborhood_score] is truthy. *)
Definition scoreOperands (r : JsVal) : list JsVal :=
  if truthy (or_else (prop r "score") (prop r "neighborhood_score")) then []
  else [ or_else (prop r "density_score") (JNum 0);
         or_else (prop r "accessibility_score") (JNum 0);
         or_else (prop r "service_distribution_score") (JNum 0) ].

(** A record that cannot be processed: [null], whose properties cannot be
    read, or a record with an operand of the arithmetic of the polygon or of
    the score that has no primitive value. *)
Definition unprocessable (r : JsVal) : bool :=
  is_nullish r || negb (forallb coercible (polygonOperands r ++ scoreOperands r)).

(** *** Failed requests and malformed records *)

(** A request that gives nothing to show: [fetch] rejects (the server is
    unreachable, or the timeout aborted the request), the status is not a
    success, the body does not parse as JSON, or the parsed payload is not a
    non-empty array. *)
Definition unusable (fetched : Exc Response) : bool :=
  match fetched with
  | Throw _ => true
  | Ok response =>
      negb (resp_ok response) ||
      match resp_json response with
      | Throw _ => true
      | Ok data => no_data data
      end
  end.

(** Whether a field is present in a record. *)
Definition has_field (r : JsVal) (name : string) : bool :=
  match r with
  | JObj kvs => bool_decide (is_Some (assoc name kvs))
  | _ => false
  end.

(** A neighborhood record as the specification describes the payload of
    [/geo/neighborhood-metrics]: an object with a name ([name] or
    [area_name]), a shape ([geometry], [area_boundary] or [center]), a
    business count ([total_businesses] or [businesses]), a rating
    ([avg_rating] or [rating]) and a diversity ([service_diversity] or
    [diversity]).  A record that misses one of them is malformed. *)
Definition neighborhood_malformed_spec (r : JsVal) : bool :=
  negb (forallb (existsb (has_field r))
          [ ["name"; "area_name"];
            ["geometry"; "area_boundary"; "center"];
            ["total_businesses"; "businesses"];
            ["avg_rating"; "rating"];
            ["service_diversity"; "diversity"] ]).

End Geographical.

(** ** The map instance controller ([components/Features/GeographicView.tsx])

    The component is modelled as a state machine: its state holds the
    [useState] values, the [map] ref and the pending timers; an event runs a
    handler or a timer callback and then the effects of which a dependency
    changed.  Of the three effects that push data to the map, the state
    machine runs the one for the density grid; those for clusters and
    neighborhoods, which write only the source of their own kind, are
    functions of the state in [GeographicEffects] below. *)
Module GeographicView.
Import Geographical.

(** [MapLayerType] of [components/Maps/MapLayerControls.tsx] *)
Inductive MapLayerType := density | clusters | neighborhoods.

#[global] Instance MapLayerType_eq_dec : EqDecision MapLayerType.
Proof. solve_decision. Defined.

(** The six visual layers added on load. *)
Inductive LayerId :=
| density_grid_layer
| clusters_circle
| cluster_labels
| neighborhoods_layer
| neighborhoods_outline
| neighborhoods_labels.

Definition layer_kind (l : LayerId) : MapLayerType :=
  match l with
  | density_grid_layer => density
  | clusters_circle | cluster_labels => clusters
  | neighborhoods_layer | neighborhoods_outline | neighborhoods_labels => neighborhoods
  end.

(** The [visibility] layout property of each layer ([true] for ['visible'],
    [false] for ['none']). *)
Record Layout := mkLayout {
  vis_density_grid_layer : bool;
  vis_clusters_circle : bool;
  vis_cluster_labels : bool;
  vis_neighborhoods_layer : bool;
  vis_neighborhoods_outline : bool;
  vis_neighborhoods_labels : bool
}.

Definition getVisibility (l : LayerId) (y : Layout) : bool :=
  match l with
  | density_grid_layer => vis_density_grid_layer y
  | clusters_circle => vis_clusters_circle y
  | cluster_labels => vis_cluster_labels y
  | neighborhoods_layer => vis_neighborhoods_layer y
  | neighborhoods_outline => vis_neighborhoods_outline y
  | neighborhoods_labels => vis_neighborhoods_labels y
  end.

Definition setVisibility (l : LayerId) (v : bool) (y : Layout) : Layout :=
  let '(mkLayout d cc cl n no nl) := y in
  match l with
  | density_grid_layer => mkLayout v cc cl n no nl
  | clusters_circle => mkLayout d v cl n no nl
  | cluster_labels => mkLayout d cc v n no nl
  | neighborhoods_layer => mkLayout d cc cl v no nl
  | neighborhoods_outline => mkLayout d cc cl n v nl
  | neighborhoods_labels => mkLayout d cc cl n no v
  end.

(** What a source holds. *)
Inductive GeoFeature :=
| DensityF (f : DensityGridFeature)
| ClusterF (f : BusinessClusterFeature)
| NeighborhoodF (f : NeighborhoodFeature).

Abbreviation FeatureCollection := (list GeoFeature).

(** The [mapboxgl.Map] instance: the layout of its layers and the data of its
    GeoJSON sources, by name. *)
Record MapboxMap := mkMap {
  layout : Layout;
  sources : gmap string FeatureCollection
}.

(** [map.setLayoutProperty(l, 'visibility', v)] *)
Definition setLayoutProperty (l : LayerId) (v : bool) (m : MapboxMap) : MapboxMap :=
  mkMap (setVisibility l v (layout m)) (sources m).

(** [map.getSource(name).setData(data)] on a registered source *)
Definition setData (name : string) (data : FeatureCollection) (m : MapboxMap) : MapboxMap :=
  mkMap (layout m) (<[name := data]> (sources m)).

(** The map when the [load] callback has added the three empty sources and
    the six layers: only the density layer is visible. *)
Definition loadedMap : MapboxMap :=
  mkMap (mkLayout true false false false false false)
        (<["neighborhoods" := []]> (<["business-clusters" := []]> (<["density-grid" := []]> ∅))).

(** *** Timers *)

(** The callbacks given to [setTimeout] and [setInterval], each with the
    values its closure captured from the render that created it. *)
Inductive Task :=
| ShowMapTimeout
    (* () => setShowMap(true) *)
| TransitionTimeout (loaded : bool) (active : MapLayerType)
    (* () => { forceRefreshSources(); setIsLayerTransitioning(false) } *)
| RefreshRetry (loaded : bool) (active : MapLayerType)
    (* forceRefreshSources *)
| RetryInterval (loaded ready transitioning : bool) (sourceName : string)
                (data : FeatureCollection)
    (* the retry of a source update *)
| RetryGiveUp (interval : nat).
    (* () => clearInterval(retryInterval) *)

Record Timer := mkTimer { tm_id : nat; tm_due : nat; tm_task : Task }.

(** *** The state of the mounted component

    The [useState] values, the [map] ref, the result of [useDensityGrid], the
    pending timers, and the clock (in milliseconds). *)
Record View := mkView {
  map_current : option MapboxMap;
  isMapLoaded : bool;
  mapSourcesReady : bool;
  showMap : bool;
  isLayerTransitioning : bool;
  activeLayer : MapLayerType;
  isDensityLoading : bool;
  densityData : option (list DensityGridFeature);
  timers : list Timer;
  next_timer : nat;
  now : nat
}.

Definition with_map (m : option MapboxMap) (s : View) : View :=
  mkView m (isMapLoaded s) (mapSourcesReady s) (showMap s) (isLayerTransitioning s)
         (activeLayer s) (isDensityLoading s) (densityData s) (timers s)
         (next_timer s) (now s).

Definition setIsMapLoaded (b : bool) (s : View) : View :=
  mkView (map_current s) b (mapSourcesReady s) (showMap s) (isLayerTransitioning s)
         (activeLayer s) (isDensityLoading s) (densityData s) (timers s)
         (next_timer s) (now s).

Definition setMapSourcesReady (b : bool) (s : View) : View :=
  mkView (map_current s) (isMapLoaded s) b (showMap s) (isLayerTransitioning s)
         (activeLayer s) (isDensityLoading s) (densityData s) (timers s)
         (next_timer s) (now s).

Definition setShowMap (b : bool) (s : View) : View :=
  mkView (map_current s) (isMapLoaded s) (mapSourcesReady s) b (isLayerTransitioning s)
         (activeLayer s) (isDensityLoading s) (densityData s) (timers s)
         (next_timer s) (now s).

Definition setIsLayerTransitioning (b : bool) (s : View) : View :=
  mkView (map_current s) (isMapLoaded s) (mapSourcesReady s) (showMap s) b
         (activeLayer s) (isDensityLoading s) (densityData s) (timers s)
         (next_timer s) (now s).

Definition setActiveLayer (k : MapLayerType) (s : View) : View :=
  mkView (map_current s) (isMapLoaded s) (mapSourcesReady s) (showMap s)
         (isLayerTransitioning s) k (isDensityLoading s) (densityData s) (timers s)
         (next_timer s) (now s).

Definition with_density (loading : bool) (data : option (list DensityGridFeature))
    (s : View) : View :=
  mkView (map_current s) (isMapLoaded s) (mapSourcesReady s) (showMap s)
         (isLayerTransitioning s) (activeLayer s) loading data (timers s)
         (next_timer s) (now s).

Definition with_timers (ts : list Timer) (s : View) : View :=
  mkView (map_current s) (isMapLoaded s) (mapSourcesReady s) (showMap s)
         (isLayerTransitioning s) (activeLayer s) (isDensityLoading s) (densityData s)
         ts (next_timer s) (now s).

Definition with_now (t : nat) (s : View) : View :=
  mkView (map_current s) (isMapLoaded s) (mapSourcesReady s) (showMap s)
         (isLayerTransitioning s) (activeLayer s) (isDensityLoading s) (densityData s)
         (timers s) (next_timer s) t.

(** [setTimeout(task, delay)] and [setInterval(task, delay)]: a fresh id, due
    [delay] ms from now. *)
Definition setTimer (task : Task) (delay : nat) (s : View) : View :=
  mkView (map_current s) (isMapLoaded s) (mapSourcesReady s) (showMap s)
         (isLayerTransitioning s) (activeLayer s) (isDensityLoading s) (densityData s)
         (timers s ++ [mkTimer (next_timer s) (now s + delay) task])
         (S (next_timer s)) (now s).

(** [clearInterval(id)] *)
Definition clearTimer (id : nat) (s : View) : View :=
  with_timers (List.filter (λ t, negb (Nat.eqb (tm_id t) id)) (timers s)) s.

(** The period of a retry interval, and the time after which it is
    cleared. *)
Definition retryPeriod : nat := 500.
Definition retryWindow : nat := 5000.

(** *** Source updates *)

(** [safelyUpdateMapSource], with the [isMapLoaded] and [mapSourcesReady] its
    closure captured: the success flag and the state after the call. *)
Definition safelyUpdateMapSource (loaded ready : bool)
    (sourceName : string) (data : FeatureCollection) (s : View) : bool * View :=
  match map_current s with
  | Some m =>
      if negb loaded || negb ready then (false, s)
      else
        match sources m !! sourceName with
        | Some _ => (true, with_map (Some (setData sourceName data m)) s)
        | None => (false, s)
        end
  | None => (false, s)
  end.

(** The structure check of the density effect on a feature: the feature and
    its geometry are objects, [geometry.coordinates] must be a truthy
    array. *)
Definition validDensityFeature (f : DensityGridFeature) : bool :=
  truthy (dg_coordinates f) && isArray (dg_coordinates f).

(** The effect that handles density data updates. *)
Definition densityEffect (s : View) : View :=
  if negb (isMapLoaded s) || negb (mapSourcesReady s) || isLayerTransitioning s
     || isDensityLoading s
  then s
  else
    match densityData s with
    | None | Some [] =>
        (safelyUpdateMapSource (isMapLoaded s) (mapSourcesReady s) "density-grid" [] s).2
    | Some data =>
        let validFeatures := List.filter validDensityFeature data in
        if bool_decide (length validFeatures = 0) then s
        else
          let featureCollection := DensityF <$> validFeatures in
          let '(updated, s1) :=
            safelyUpdateMapSource (isMapLoaded s) (mapSourcesReady s)
                                  "density-grid" featureCollection s in
          if updated then s1
          else
            let retryInterval := next_timer s1 in
            let s2 := setTimer (RetryInterval (isMapLoaded s) (mapSourcesReady s)
                                  (isLayerTransitioning s) "density-grid" featureCollection)
                               retryPeriod s1 in
            setTimer (RetryGiveUp retryInterval) retryWindow s2
    end.

(** *** Layer visibility *)

(** The six [setLayoutProperty] calls that make the layers of [active]
    visible and all others hidden, in the order of the source. *)
Definition refreshVisibility (active : MapLayerType) (m : MapboxMap) : MapboxMap :=
  let m := setLayoutProperty density_grid_layer (bool_decide (active = density)) m in
  let m := setLayoutProperty clusters_circle (bool_decide (active = clusters)) m in
  let m := setLayoutProperty cluster_labels (bool_decide (active = clusters)) m in
  let m := setLayoutProperty neighborhoods_layer (bool_decide (active = neighborhoods)) m in
  let m := setLayoutProperty neighborhoods_outline (bool_decide (active = neighborhoods)) m in
  setLayoutProperty neighborhoods_labels (bool_decide (active = neighborhoods)) m.

(** [forceRefreshSources], with the [isMapLoaded] and [activeLayer] its
    closure captured. *)
Definition forceRefreshSources (loaded : bool) (active : MapLayerType) (s : View) : View :=
  match map_current s with
  | None => s
  | Some m =>
      if negb loaded then s
      else
        match sources m !! "density-grid", sources m !! "business-clusters",
              sources m !! "neighborhoods" with
        | Some _, Some _, Some _ => with_map (Some (refreshVisibility active m)) s
        | _, _, _ => setTimer (RefreshRetry loaded active) 200 s
        end
  end.

(** The effect that updates layer visibility when the active layer changes
    or the map loads. *)
Definition visibilityEffect (s : View) : View :=
  match map_current s with
  | None => s
  | Some m =>
      if negb (isMapLoaded s) || negb (showMap s) || isLayerTransitioning s then s
      else with_map (Some (refreshVisibility (activeLayer s) m)) s
  end.

(** Hiding the layers of the current layer kind. *)
Definition hideLayer (current : MapLayerType) (m : MapboxMap) : MapboxMap :=
  match current with
  | density => setLayoutProperty density_grid_layer false m
  | clusters =>
      setLayoutProperty cluster_labels false (setLayoutProperty clusters_circle false m)
  | neighborhoods =>
      setLayoutProperty neighborhoods_labels false
        (setLayoutProperty neighborhoods_outline false
           (setLayoutProperty neighborhoods_layer false m))
  end.

(** The [onChange] handler given to [MapLayerControls]: the
    [setActiveLayer(kind)] operation of the specification. *)
Definition onChange (layer : MapLayerType) (s : View) : View :=
  if bool_decide (layer = activeLayer s) then s
  else
    let s1 := setIsLayerTransitioning true s in
    let s2 := with_map (hideLayer (activeLayer s) <$> map_current s1) s1 in
    let s3 := setActiveLayer layer s2 in
    setTimer (TransitionTimeout (isMapLoaded s) (activeLayer s)) 300 s3.

(** *** Rendering: the effects whose dependencies changed *)

Definition densityDepsChanged (before after : View) : bool :=
  negb (bool_decide (isMapLoaded before = isMapLoaded after))
  || negb (bool_decide (mapSourcesReady before = mapSourcesReady after))
  || negb (bool_decide (isLayerTransitioning before = isLayerTransitioning after))
  || negb (bool_decide (isDensityLoading before = isDensityLoading after)).

Definition visibilityDepsChanged (before after : View) : bool :=
  negb (bool_decide (isMapLoaded before = isMapLoaded after))
  || negb (bool_decide (showMap before = showMap after))
  || negb (bool_decide (activeLayer before = activeLayer after))
  || negb (bool_decide (isLayerTransitioning before = isLayerTransitioning after)).

(** After a handler or a timer callback has run, React renders again and
    runs, in the order of their declaration, the effects of which a
    dependency changed.  [dataChanged] tells that the result of the density
    query is a new one. *)
Definition commit (before after : View) (dataChanged : bool) : View :=
  let s1 := if dataChanged || densityDepsChanged before after
            then densityEffect after else after in
  if visibilityDepsChanged before after then visibilityEffect s1 else s1.

(** *** Events *)

(** The callback of a timer. *)
Definition runTask (t : Timer) (s : View) : View :=
  match tm_task t with
  | ShowMapTimeout => setShowMap true s
  | TransitionTimeout loaded active =>
      setIsLayerTransitioning false (forceRefreshSources loaded active s)
  | RefreshRetry loaded active => forceRefreshSources loaded active s
  | RetryInterval loaded ready transitioning sourceName data =>
      (* the interval is armed again before its callback runs *)
      let s := with_timers (timers s ++ [mkTimer (tm_id t) (now s + retryPeriod) (tm_task t)]) s in
      if bool_decide (is_Some (map_current s)) && loaded && ready && negb transitioning then
        let '(retrySuccess, s1) := safelyUpdateMapSource loaded ready sourceName data s in
        if retrySuccess then clearTimer (tm_id t) s1 else s1
      else s
  | RetryGiveUp interval => clearTimer interval s
  end.

(** Firing the timer [id], if it is still pending and due. *)
Definition fireTimer (id : nat) (s : View) : View :=
  match List.find (λ t, Nat.eqb (tm_id t) id && Nat.leb (tm_due t) (now s)) (timers s) with
  | Some t => let s1 := clearTimer id s in commit s1 (runTask t s1) false
  | None => s
  end.

(** One millisecond passes: the timers that are due fire in the order in
    which they were set, unless a callback before them cleared them. *)
Definition tick (s : View) : View :=
  let s1 := with_now (S (now s)) s in
  let due := tm_id <$> List.filter (λ t, Nat.leb (tm_due t) (now s1)) (timers s1) in
  foldl (λ s id, fireTimer id s) s1 due.

(** The [load] callback of the map: sources and layers are added, the map is
    stored in the ref, and the map is shown 500 ms later. *)
Definition onLoad (s : View) : View :=
  if isMapLoaded s then s
  else
    let s1 := with_map (Some loadedMap) s in
    let s2 := setIsMapLoaded true s1 in
    let s3 := setMapSourcesReady true s2 in
    setTimer ShowMapTimeout 500 s3.

Inductive Event :=
| MapLoad                                   (* the map emits [load] *)
| LayerClick (layer : MapLayerType)         (* a button of [MapLayerControls] *)
| RefreshClick                              (* the "Refresh map data" button *)
| DensityQuery (loading : bool) (data : option (list DensityGridFeature))
                                            (* [useDensityGrid] gives a new result *)
| Tick.                                     (* one millisecond passes *)

Definition step (e : Event) (s : View) : View :=
  match e with
  | MapLoad => commit s (onLoad s) false
  | LayerClick layer =>
      (* the controls are rendered when [isMapLoaded && showMap] *)
      if isMapLoaded s && showMap s then commit s (onChange layer s) false else s
  | RefreshClick =>
      if isMapLoaded s && showMap s
      then commit s (forceRefreshSources (isMapLoaded s) (activeLayer s) s) false
      else s
  | DensityQuery loading data => commit s (with_density loading data s) true
  | Tick => tick s
  end.

Definition run (events : list Event) (s : View) : View :=
  foldl (λ s e, step e s) s events.

(** [n] milliseconds pass. *)
Definition wait (n : nat) : list Event := replicate n Tick.

(** The component once mounted: the map is being created, nothing is loaded
    yet. *)
Definition mounted : View :=
  mkView None false false false false density true None [] 0 0.

(** *** Which layer kinds are visible *)

Definition layerKinds : list MapLayerType := [density; clusters; neighborhoods].

Definition layerIds : list LayerId :=
  [density_grid_layer; clusters_circle; cluster_labels;
   neighborhoods_layer; neighborhoods_outline; neighborhoods_labels].

(** A layer kind is visible when one of its layers is. *)
Definition kindVisible (m : MapboxMap) (k : MapLayerType) : bool :=
  existsb (λ l, bool_decide (layer_kind l = k) && getVisibility l (layout m)) layerIds.

Definition visibleKinds (m : MapboxMap) : list MapLayerType :=
  List.filter (kindVisible m) layerKinds.

(** The layout in which exactly the layers of [k] are visible. *)
Definition only (k : MapLayerType) : Layout :=
  mkLayout (bool_decide (k = density))
           (bool_decide (k = clusters)) (bool_decide (k = clusters))
           (bool_decide (k = neighborhoods)) (bool_decide (k = neighborhoods))
           (bool_decide (k = neighborhoods)).

Definition hidden : Layout := mkLayout false false false false false false.

(** No transition is pending. *)
Definition isTransitionTask (t : Task) : bool :=
  match t with TransitionTimeout _ _ | RefreshRetry _ _ => true | _ => false end.

Definition settled (s : View) : bool :=
  forallb (λ t, negb (isTransitionTask (tm_task t))) (timers s).

(** *** What the controller maintains *)

(** The three sources are registered. *)
Definition sourcesRegistered (m : MapboxMap) : Prop :=
  is_Some (sources m !! "density-grid") ∧
  is_Some (sources m !! "business-clusters") ∧
  is_Some (sources m !! "neighborhoods").

(** Either nothing is visible, or exactly the layers of one kind. *)
Definition layoutOk (y : Layout) : Prop := y = hidden ∨ ∃ k, y = only k.

(** A pending timer: its id was given out and it is not overdue; it is the
    timeout that shows the map, or a transition timeout set by a click on the
    rendered controls (so its closure holds [isMapLoaded = true]) at most
    300 ms ago. *)
Definition timerOk (s : View) (t : Timer) : Prop :=
  tm_id t < next_timer s ∧ now s ≤ tm_due t ∧
  match tm_task t with
  | ShowMapTimeout => True
  | TransitionTimeout loaded _ => loaded = true ∧ tm_due t ≤ now s + 300
  | _ => False
  end.

Record timersOk (s : View) : Prop := {
  to_each : Forall (timerOk s) (timers s);
  to_ids : NoDup (tm_id <$> timers s)
}.

Record mapOk (s : View) : Prop := {
  mo_loaded : isMapLoaded s = true → is_Some (map_current s);
  mo_map : ∀ m, map_current s = Some m →
           sourcesRegistered m ∧ layoutOk (layout m)
}.

(** Unless a transition is pending, exactly one kind is visible. *)
Definition progress (s : View) : Prop :=
  ∀ m, map_current s = Some m → (∃ k, layout m = only k) ∨ settled s = false.

(** No timer is due. *)
Definition quiet (s : View) : Prop := Forall (λ t, now s < tm_due t) (timers s).

Definition inv (s : View) : Prop := timersOk s ∧ mapOk s ∧ progress s.

(** [s'] differs from [s] at most in the map and in flags other than
    [isMapLoaded]: the timers and the clock are the same. *)
Definition frame (s s' : View) : Prop :=
  timers s' = timers s ∧ next_timer s' = next_timer s ∧ now s' = now s ∧
  isMapLoaded s' = isMapLoaded s.

(** The tasks set on the way from the mounted component, with their
    delays. *)
Definition admitted (task : Task) (delay : nat) : Prop :=
  match task with
  | ShowMapTimeout => True
  | TransitionTimeout loaded _ => loaded = true ∧ delay ≤ 300
  | _ => False
  end.

(** What the invariant looks at: the map, the loaded flag, the timers and
    the clock. *)
Definition core (s : View) :=
  (map_current s, isMapLoaded s, timers s, next_timer s, now s).

End GeographicView.

(** ** The cached query hooks ([hooks/useGeographic.ts]) *)
Module UseGeographic.

(** The first component of the three query keys. *)
Inductive QueryName := density_grid | business_clusters | neighborhood_metrics.

#[global] Instance QueryName_eq_dec : EqDecision QueryName.
Proof. solve_decision. Defined.

#[global] Instance QueryName_countable : Countable QueryName.
Proof.
  refine (inj_countable'
    (λ n, match n with density_grid => 0 | business_clusters => 1
                     | neighborhood_metrics => 2 end)
    (λ i, match i with 0 => density_grid | 1 => business_clusters
                     | _ => neighborhood_metrics end) _).
  by intros [].
Defined.

(** A layer query: the layer kind and the tuple of its filter parameter
    values.  The parameters are numbers, compared by value. *)
Abbreviation LayerQuery := (QueryName * list Qc)%type.

(** [queryKey: ['density-grid', minRating]] and its two siblings. *)
Definition queryKey (name : QueryName) (param : Q) : LayerQuery := (name, [Q2Qc param]).

(** The options the three hooks give to [useQuery]. *)
Definition staleTime : nat := 2 * 60 * 1000.
Definition retry : nat := 1.
Definition retryDelay : nat := 1000.

(** [placeholderData: (previousData) => previousData] *)
Definition placeholderData {A} (previousData : option A) : option A := previousData.

(** *** The layer data cache

    Modelled from the spec: the query cache behind [useQuery] (the
    @tanstack/react-query package) is not among the sources; the hooks only
    configure it.  The model follows sections 3, 4.2 and 5 of the
    specification: an entry per layer query with its data, status and fetch
    time; a fetch is issued when a query is first requested or requested
    again; a request for a query whose fetch is pending attaches to it;
    completion makes the entry Ready, or Failed with the previous data
    retained, after the configured number of retries (the backoff before a
    retry is not modelled: the retry is issued when the failure arrives); a
    resolution that is not that of a fetch in flight is ignored. *)
Section Cache.

Variable Data : Type.

Inductive Status := Pending | Ready | Failed.

Record CacheEntry := mkEntry {
  data : option Data;
  status : Status;
  fetchedAt : nat;
  failureCount : nat;
  invalidated : bool
}.

(** An underlying fetch: the query it is for and its sequence number. *)
Record Fetch := mkFetch { f_query : LayerQuery; f_seq : nat }.

Record Cache := mkCache {
  entries : gmap LayerQuery CacheEntry;
  inflight : list Fetch;        (* the fetches issued and not yet resolved *)
  issued : nat;                 (* how many fetches were issued so far *)
  clock : nat
}.

Definition emptyCache : Cache := mkCache ∅ [] 0 0.

Definition with_entry (q : LayerQuery) (e : CacheEntry) (c : Cache) : Cache :=
  mkCache (<[q := e]> (entries c)) (inflight c) (issued c) (clock c).

(** Issuing an underlying fetch for [q]. *)
Definition issue (q : LayerQuery) (c : Cache) : Cache :=
  mkCache (entries c) (inflight c ++ [mkFetch q (issued c)]) (S (issued c)) (clock c).

Definition pending (e : CacheEntry) : CacheEntry :=
  mkEntry (data e) Pending (fetchedAt e) (failureCount e) (invalidated e).

(** An entry is stale when it was invalidated or its staleness window has
    passed. *)
Definition isStale (e : CacheEntry) (now : nat) : bool :=
  invalidated e || bool_decide (fetchedAt e + staleTime ≤ now)%nat.

(** Requesting [q] again: the entry becomes Pending and keeps its data. *)
Definition refetch (q : LayerQuery) (c : Cache) : Cache :=
  match entries c !! q with
  | None => issue q (with_entry q (mkEntry None Pending (clock c) 0 false) c)
  | Some e =>
      match status e with
      | Pending => c
      | _ => issue q (with_entry q (pending e) c)
      end
  end.

(** [get(query)]: a first request creates a Pending entry and issues a fetch;
    a request for a Pending query attaches to the fetch in flight; a Ready
    entry is served, and fetched again in the background when it is stale; a
    Failed entry is requested again. *)
Definition get (q : LayerQuery) (c : Cache) : Cache :=
  match entries c !! q with
  | None => refetch q c
  | Some e =>
      match status e with
      | Pending => c
      | Ready => if isStale e (clock c) then refetch q c else c
      | Failed => refetch q c
      end
  end.

(** [invalidate(query)].  The specification names the operation without
    describing it; it is taken to mark the entry stale. *)
Definition invalidate (q : LayerQuery) (c : Cache) : Cache :=
  mkCache (alter (λ e, mkEntry (data e) (status e) (fetchedAt e) (failureCount e) true)
                 q (entries c))
          (inflight c) (issued c) (clock c).

#[global] Instance Fetch_eq_dec : EqDecision Fetch.
Proof. solve_decision. Defined.

(** The completion of the fetch [f], with its data or with a failure. *)
Definition resolve (f : Fetch) (outcome : option Data) (c : Cache) : Cache :=
  if bool_decide (f ∈ inflight c) then
    let c1 := mkCache (entries c) (filter (λ g, g ≠ f) (inflight c)) (issued c) (clock c) in
    match entries c1 !! f_query f with
    | None => c1
    | Some e =>
        match outcome with
        | Some d => with_entry (f_query f) (mkEntry (Some d) Ready (clock c1) 0 false) c1
        | None =>
            if bool_decide (failureCount e < retry)%nat then
              issue (f_query f)
                (with_entry (f_query f)
                   (mkEntry (data e) Pending (fetchedAt e) (S (failureCount e)) (invalidated e))
                   c1)
            else
              with_entry (f_query f)
                (mkEntry (data e) Failed (fetchedAt e) (failureCount e) (invalidated e)) c1
        end
    end
  else c.

(** What a consumer reads for [q]. *)
Definition read (q : LayerQuery) (c : Cache) : option Data :=
  entries c !! q ≫= data.

(** The [data] a hook returns: the data of the entry, or else the
    placeholder computed from the data the hook returned before. *)
Definition hookData (q : LayerQuery) (previousData : option Data) (c : Cache) : option Data :=
  match read q c with
  | Some d => Some d
  | None => placeholderData previousData
  end.

Inductive CacheEvent :=
| Get (q : LayerQuery)
| Refetch (q : LayerQuery)
| Invalidate (q : LayerQuery)
| Resolve (f : Fetch) (outcome : option Data)
| Elapse (ms : nat).

Definition cacheStep (e : CacheEvent) (c : Cache) : Cache :=
  match e with
  | Get q => get q c
  | Refetch q => refetch q c
  | Invalidate q => invalidate q c
  | Resolve f outcome => resolve f outcome c
  | Elapse ms => mkCache (entries c) (inflight c) (issued c) (clock c + ms)
  end.

Definition cacheRun (events : list CacheEvent) (c : Cache) : Cache :=
  foldl (λ c e, cacheStep e c) c events.

(** The fetches in flight for [q]. *)
Definition inflightFor (q : LayerQuery) (c : Cache) : list Fetch :=
  filter (λ f, f_query f = q) (inflight c).

(** The event is the completion of a fetch for [q]. *)
Definition resolves (q : LayerQuery) (e : CacheEvent) : bool :=
  match e with
  | Resolve f _ => bool_decide (f_query f = q)
  | _ => false
  end.

End Cache.

Arguments mkEntry {Data}.
Arguments data {Data}.
Arguments status {Data}.
Arguments emptyCache {Data}.
Arguments with_entry {Data}.
Arguments issue {Data}.
Arguments pending {Data}.
Arguments isStale {Data}.
Arguments entries {Data}.
Arguments inflight {Data}.
Arguments issued {Data}.
Arguments clock {Data}.
Arguments refetch {Data}.
Arguments get {Data}.
Arguments invalidate {Data}.
Arguments resolve {Data}.
Arguments read {Data}.
Arguments hookData {Data}.
Arguments cacheStep {Data}.
Arguments cacheRun {Data}.
Arguments inflightFor {Data}.
Arguments resolves {Data}.
Arguments Get {Data}.
Arguments Refetch {Data}.
Arguments Invalidate {Data}.
Arguments Resolve {Data}.
Arguments Elapse {Data}.

(** *** What the cache maintains *)

Section CacheInvariants.

Context {Data : Type}.

(** The entry of [q] holds [d] while a fetch for it is pending. *)
Definition retained (q : LayerQuery) (d : Data) (c : Cache Data) : Prop :=
  ∃ e, entries c !! q = Some e ∧ data e = Some d ∧ status e = Pending.

(** Every fetch in flight belongs to a Pending entry, and no query has two
    fetches in flight. *)
Record dedup (c : Cache Data) : Prop := {
  dd_pending : ∀ f, f ∈ inflight c →
               ∃ e, entries c !! f_query f = Some e ∧ status e = Pending;
  dd_single : ∀ q, length (inflightFor q c) ≤ 1
}.

End CacheInvariants.

Arguments dd_pending {Data c}.
Arguments dd_single {Data c}.

End UseGeographic.

(** ** The query functions of the hooks ([hooks/useGeographic.ts])

    What the [queryFn] of each hook resolves to.  The value awaited is an
    array, which is truthy: [data || []] is [data], and [!data] is false. *)
Module QueryFunctions.
Import Geographical.

Definition densityQueryFn (api : Api) (minRating : Q) : Exc (list DensityGridFeature) :=
  try_catch (data ←! getDensityGrid api minRating; Ok data) (λ _, Ok []).

Definition clusterQueryFn (api : Api) (minSize : Q) : Exc (list BusinessClusterFeature) :=
  try_catch (data ←! getBusinessClusters api minSize; Ok data) (λ _, Ok []).

(** [None] is the [null] that triggers the fallback in the component. *)
Definition neighborhoodQueryFn (api : Api) (minScore : Q)
  : Exc (option (list NeighborhoodFeature)) :=
  try_catch (data ←! getNeighborhoodMetrics api minScore; Ok (Some data)) (λ _, Ok None).

End QueryFunctions.

(** ** The data effects of the controller ([components/Features/GeographicView.tsx])

    The effects that read the results of the hooks and are not part of the
    state machine above: each is a function of the state and of the values its
    render captured, given as arguments.  With them, the bounding box test of
    the module. *)
Module GeographicEffects.
Import Geographical GeographicView.

(** [try { return body } catch (e) { return dflt }] *)
Definition catch_return {A} (body : Exc A) (dflt : A) : A :=
  match body with Ok a => a | Throw _ => dflt end.

(** [l.some(callback)]: the callback runs on the elements in order until it
    returns true, or throws. *)
Fixpoint some {A} (callback : A → Exc bool) (l : list A) : Exc bool :=
  match l with
  | [] => Ok false
  | x :: rest => b ←! callback x; if b then Ok true else some callback rest
  end.

(** [l.forEach(callback)] *)
Fixpoint forEach {A} (callback : A → Exc ()) (l : list A) : Exc () :=
  match l with
  | [] => Ok ()
  | x :: rest => _ ←! callback x; forEach callback rest
  end.

(** Arrays and strings: of the values [JSON.parse] gives, those that can be
    iterated (and so destructured as [[lon, lat]]), and those that have a
    [slice] method. *)
Definition iterable (v : JsVal) : bool :=
  match v with JArr _ | JStr _ => true | _ => false end.

(** *** The bounding box of the Tampa area *)

Record Bounds := mkBounds { west : Q; east : Q; south : Q; north : Q }.

Definition TAMPA_BOUNDS : Bounds := mkBounds (-83.0) (-82.0) 27.5 28.2.

(** The parameter pattern [([lon, lat])]: the first two elements of an array
    (or [undefined]), the first two characters of a string; destructuring
    anything else throws a TypeError. *)
Definition destructurePair (point : JsVal) : Exc (JsVal * JsVal) :=
  match point with
  | JArr l => Ok (nth_or_undef l 0, nth_or_undef l 1)
  | JStr s => Ok (char_at s 0, char_at s 1)
  | _ => Throw (TypeError "point is not iterable")
  end.

(** The body of the callback of [ring.some]. *)
Definition withinBounds (b : Bounds) (lon lat : JsVal) : bool :=
  match lon, lat with
  | JNum lon, JNum lat =>
      Qle_bool (west b) lon && Qle_bool lon (east b) &&
      Qle_bool (south b) lat && Qle_bool lat (north b)
  | _, _ => false
  end.

Definition isInTampaBounds (coordinates : JsVal) : bool :=
  if negb (truthy coordinates) || negb (isArray coordinates)
     || bool_decide (length (elements coordinates) = 0)
  then false
  else
    catch_return
      (let ring := nth_or_undef (elements coordinates) 0 in
       if negb (isArray ring) || bool_decide (length (elements ring) = 0) then Ok false
       else some (λ point, lonlat ←! destructurePair point;
                           Ok (withinBounds TAMPA_BOUNDS lonlat.1 lonlat.2))
                 (elements ring))
      false.

(** *** The debug log of the data *)

(** [v?.slice(0, 5)]: [undefined] on [undefined] and [null], a slice of an
    array or a string, and a TypeError on any other value, which has no
    [slice] method. *)
Definition optionalSlice (v : JsVal) : Exc () :=
  if is_nullish v || iterable v then Ok ()
  else Throw (TypeError "slice is not a function").

(** The effect that logs the structure of the data.  Of what it evaluates
    only [clusterData[0].properties?.categories?.slice(0, 5)] can throw; the
    log of the neighborhood data reads properties of objects only. *)
Definition debugEffect (clusterData : option (list BusinessClusterFeature))
    (neighborhoodData : option (list NeighborhoodFeature)) : Exc () :=
  match clusterData with
  | Some (firstCluster :: _) => optionalSlice (bc_categories firstCluster)
  | _ => Ok ()
  end.

(** *** The error state *)

(** [!data || data.length === 0] on the [data] of a hook ([None] for
    [undefined] and [null]). *)
Definition nothing {F} (data : option (list F)) : bool :=
  match data with
  | None => true
  | Some l => bool_decide (length l = 0)
  end.

(** The effect that sets the error state if there is no data: the value of
    [apiError] after it ran. *)
Definition apiErrorEffect (isDensityLoading isClusterLoading isNeighborhoodLoading : bool)
    (densityData : option (list DensityGridFeature))
    (clusterData : option (list BusinessClusterFeature))
    (neighborhoodData : option (list NeighborhoodFeature))
    (apiError : bool) : bool :=
  let isLoading := isDensityLoading || isClusterLoading || isNeighborhoodLoading in
  if negb isLoading then
    if nothing densityData && nothing clusterData && nothing neighborhoodData
    then true else false
  else apiError.

(** *** Pushing features to a source *)

(** The end of a data effect: the update, and when it did not succeed the
    retry interval and the timeout that clears it. *)
Definition updateWithRetry (sourceName : string) (featureCollection : FeatureCollection)
    (s : View) : View :=
  let '(updated, s1) :=
    safelyUpdateMapSource (isMapLoaded s) (mapSourcesReady s)
                          sourceName featureCollection s in
  if updated then s1
  else
    let retryInterval := next_timer s1 in
    let s2 := setTimer (RetryInterval (isMapLoaded s) (mapSourcesReady s)
                          (isLayerTransitioning s) sourceName featureCollection)
                       retryPeriod s1 in
    setTimer (RetryGiveUp retryInterval) retryWindow s2.

(** Updating with empty data to clear the layer. *)
Definition clearSource (sourceName : string) (s : View) : View :=
  (safelyUpdateMapSource (isMapLoaded s) (mapSourcesReady s) sourceName [] s).2.

(** *** Business clusters *)

(** [categories.includes(clusterCategory)]: an element is found when it is
    the same string. *)
Definition includesString (l : list JsVal) (s : string) : bool :=
  existsb (λ v, match v with JStr s' => bool_decide (s' = s) | _ => false end) l.

(** The callback of the category filter. *)
Definition hasCategory (clusterCategory : string) (cluster : BusinessClusterFeature) : bool :=
  isArray (bc_categories cluster) &&
  includesString (elements (bc_categories cluster)) clusterCategory.

(** The structure check of the cluster effect on a feature. *)
Definition validClusterFeature (f : BusinessClusterFeature) : bool :=
  truthy (bc_coordinates f) && isArray (bc_coordinates f).

(** The effect that handles cluster data updates, with the result of
    [useBusinessClusters] and the selected category. *)
Definition clusterEffect (isClusterLoading : bool)
    (clusterData : option (list BusinessClusterFeature)) (clusterCategory : string)
    (s : View) : View :=
  if negb (isMapLoaded s) || negb (mapSourcesReady s) || isLayerTransitioning s
     || isClusterLoading
  then s
  else
    match clusterData with
    | None | Some [] => clearSource "business-clusters" s
    | Some data =>
        let filteredClusters :=
          if negb (bool_decide (clusterCategory = ""))
          then List.filter (hasCategory clusterCategory) data
          else data in
        let validFeatures := List.filter validClusterFeature filteredClusters in
        if bool_decide (length validFeatures = 0) then clearSource "business-clusters" s
        else updateWithRetry "business-clusters" (ClusterF <$> validFeatures) s
    end.

(** *** Neighborhoods *)

(** The coordinates of a polygon of one ring, the rectangle between two
    corners, written as the literals of the effect are. *)
Definition square (x0 y0 x1 y1 : Q) : JsVal :=
  JArr [JArr [pt x0 y0; pt x1 y0; pt x1 y1; pt x0 y1; pt x0 y0]].

(** The fallback data of the effect: five neighborhoods of Tampa. *)
Definition fallbackNeighborhoods : list NeighborhoodFeature :=
  [ mkNeighborhood (GeomProvided (square (-82.4733) 27.9280 (-82.4533) 27.9480))
      (JStr "Hyde Park") (JNum 87) (JNum 4.3) (JNum 12) (ScoreGiven (JNum 78));
    mkNeighborhood (GeomProvided (square (-82.4672) 27.9406 (-82.4472) 27.9606))
      (JStr "Downtown Tampa") (JNum 156) (JNum 3.9) (JNum 18) (ScoreGiven (JNum 82));
    mkNeighborhood (GeomProvided (square (-82.4470) 27.9500 (-82.4270) 27.9700))
      (JStr "Ybor City") (JNum 104) (JNum 4.1) (JNum 15) (ScoreGiven (JNum 76));
    mkNeighborhood (GeomProvided (square (-82.5350) 27.9430 (-82.5150) 27.9630))
      (JStr "Westshore") (JNum 121) (JNum 3.8) (JNum 14) (ScoreGiven (JNum 70));
    mkNeighborhood (GeomProvided (square (-82.4700) 27.9850 (-82.4500) 28.0050))
      (JStr "Seminole Heights") (JNum 79) (JNum 4.5) (JNum 11) (ScoreGiven (JNum 73)) ]%Q.

(** The debug log of one of the first three neighborhoods.  Its first
    argument is the template literal
    [`Neighborhood ${i} (${n.properties.name}) coordinates:`], which converts
    the name to a string and throws a TypeError on a name without a primitive
    value.  Its second argument is
    [n.geometry?.coordinates ? JSON.stringify(n.geometry.coordinates[0].slice(0, 2)) : ...].
    Only arrays and strings have a [slice] method; on any other first element
    the call throws a TypeError.  The polygons the client computes itself are
    arrays of one ring. *)
Definition logCoordinates (n : NeighborhoodFeature) : Exc () :=
  if negb (coercible (nb_name n)) then Throw notCoercible
  else
    match nb_geometry n with
    | GeomProvided coordinates =>
        if truthy coordinates then
          first ←! get coordinates "0";
          if iterable first then Ok ()
          else Throw (TypeError "coordinates[0].slice is not a function")
        else Ok ()
    | GeomSquareAround _ _ | GeomFallbackSquare _ _ => Ok ()
    end.

(** The log does not throw: the name has a primitive value, and the first
    element of truthy provided coordinates has a [slice] method. *)
Definition loggable (n : NeighborhoodFeature) : bool :=
  match logCoordinates n with Ok _ => true | Throw _ => false end.

(** A point of two numbers:
    [Array.isArray(point) && point.length >= 2 && typeof point[0] === 'number'
     && typeof point[1] === 'number' && !isNaN(point[0]) && !isNaN(point[1])]. *)
Definition validPoint (point : JsVal) : bool :=
  match point with
  | JArr (JNum _ :: JNum _ :: _) => true
  | _ => false
  end.

(** The values [c] for which [c - 0.01] and [c + 0.01] are both numbers other
    than NaN: [+] concatenates when [c] is a string, an array or an object,
    and [undefined] converts to NaN, while [null] and booleans convert to 0
    and 1. *)
Definition numericOperand (c : JsVal) : bool :=
  match c with
  | JNull | JBool _ | JNum _ => true
  | JUndef | JStr _ | JArr _ | JObj _ => false
  end.

(** The structure check of the neighborhood effect on a feature.  The
    feature, its geometry and its properties are objects; the check is on
    [geometry.coordinates], its first ring, and the first three points of the
    ring. *)
Definition validNeighborhoodFeature (f : NeighborhoodFeature) : bool :=
  match nb_geometry f with
  | GeomProvided coords =>
      truthy coords && isArray coords &&
      (let first := nth_or_undef (elements coords) 0 in
       truthy first && isArray first && forallb validPoint (take 3 (elements first)))
  | GeomSquareAround cx cy => numericOperand cx && numericOperand cy
  | GeomFallbackSquare _ _ => true
  end.

(** The effect that handles neighborhood data updates, with the result of
    [useNeighborhoodMetrics]. *)
Definition neighborhoodEffect (isNeighborhoodLoading : bool)
    (neighborhoodData : option (list NeighborhoodFeature)) (s : View) : View :=
  if negb (isMapLoaded s) || negb (mapSourcesReady s) || isLayerTransitioning s
     || isNeighborhoodLoading
  then s
  else
    catch_return
      (dataToUse ←! match neighborhoodData with
                    | None | Some [] => Ok fallbackNeighborhoods
                    | Some data => _ ←! forEach logCoordinates (take 3 data); Ok data
                    end;
       let validFeatures := List.filter validNeighborhoodFeature dataToUse in
       if bool_decide (length validFeatures = 0) then Ok (clearSource "neighborhoods" s)
       else Ok (updateWithRetry "neighborhoods" (NeighborhoodF <$> validFeatures) s))
      s.

(** *** What a data effect leaves alone *)

(** [s'] is [s] but for the data of the source [name] and for timers: the
    layout of the map, the sources registered and the data of every other
    source are the same, and so are the flags and the active layer. *)
Definition touchesOnly (name : string) (s s' : View) : Prop :=
  match map_current s, map_current s' with
  | None, None => True
  | Some m, Some m' =>
      layout m' = layout m ∧
      (∀ k, is_Some (sources m' !! k) ↔ is_Some (sources m !! k)) ∧
      (∀ k, k ≠ name → sources m' !! k = sources m !! k)
  | _, _ => False
  end ∧
  isMapLoaded s' = isMapLoaded s ∧ mapSourcesReady s' = mapSourcesReady s ∧
  showMap s' = showMap s ∧ isLayerTransitioning s' = isLayerTransitioning s ∧
  activeLayer s' = activeLayer s.

End GeographicEffects.

Import Geographical.

(** * Properties of the data access client *)

(** ** Reading properties never throws on a value that is not nullish *)

Lemma get_ok v k : is_nullish v = false → get v k = Ok (prop v k).
Proof.
  unfold prop. destruct v; simpl; try discriminate; intros _;
    try reflexivity; case_bool_decide; reflexivity.
Qed.

Lemma truthy_not_nullish v : truthy v = true → is_nullish v = false.
Proof. destruct v; simpl; congruence. Qed.

Lemma get_truthy v k : truthy v = true → get v k = Ok (prop v k).
Proof. intros H. apply get_ok, truthy_not_nullish, H. Qed.

Lemma get_nullish v k : is_nullish v = true → ∃ e, get v k = Throw e.
Proof. destruct v; simpl; try discriminate; eauto. Qed.

Lemma keys_ok v : is_nullish v = false → ∃ ks, keys v = Ok ks.
Proof. destruct v; simpl; try discriminate; eauto. Qed.

Lemma get_all_ok v ks : is_nullish v = false → ∃ xs, get_all v ks = Ok xs.
Proof.
  intros Hv. induction ks as [|k ks [xs IH]]; simpl; [eauto|].
  rewrite (get_ok _ _ Hv). simpl. rewrite IH. simpl. eauto.
Qed.

(** Following every branch of a normalisation whose reads cannot throw,
    down to the value it returns. *)
Ltac follow_branches :=
  repeat first
    [ match goal with |- ∃ c, Ok _ = Ok c => eexists; reflexivity end
    | match goal with
      | |- ∃ c, try_catch ?b _ = Ok c => destruct b; simpl; eexists; reflexivity
      end
    | rewrite get_ok by done; simpl
    | match goal with |- context [if ?b then _ else _] => destruct b; simpl end ].

Lemma and_then_falsy a b : truthy a = false → and_then a b = Ok a.
Proof. unfold and_then. intros ->. reflexivity. Qed.

Lemma and_then_truthy a b : truthy a = true → and_then a b = b.
Proof. unfold and_then. intros ->. reflexivity. Qed.

(** ** The callbacks of [data.map] *)

Lemma densityHasExpectedStructure_ok item :
  ∃ h, densityHasExpectedStructure item = Ok h.
Proof.
  unfold densityHasExpectedStructure.
  destruct (truthy item) eqn:Hi; [|rewrite and_then_falsy; eauto].
  rewrite and_then_truthy, !(get_truthy item) by done. simpl.
  destruct (truthy (prop item "coordinates")) eqn:Hc; [|rewrite and_then_falsy; eauto].
  rewrite and_then_truthy, get_truthy by done. simpl.
  set (inner := prop (prop item "coordinates") "coordinates").
  destruct (truthy inner) eqn:Hn; [|rewrite and_then_falsy; eauto].
  rewrite and_then_truthy by done.
  unfold and_then. destruct (truthy (JBool (isArray inner))); eauto.
Qed.

Lemma density_accepted_inv item h :
  densityHasExpectedStructure item = Ok h → truthy h = true →
  truthy item = true ∧ truthy (prop item "coordinates") = true.
Proof.
  unfold densityHasExpectedStructure.
  destruct (truthy item) eqn:Hi; [|rewrite and_then_falsy by done; congruence].
  rewrite and_then_truthy, !(get_truthy item) by done. simpl.
  destruct (truthy (prop item "coordinates")) eqn:Hc;
    [|rewrite and_then_falsy by done; congruence].
  done.
Qed.

Lemma density_accepted_full item h :
  densityHasExpectedStructure item = Ok h → truthy h = true →
  truthy item = true ∧ truthy (prop item "coordinates") = true ∧
  truthy (prop (prop item "coordinates") "coordinates") = true ∧
  isArray (prop (prop item "coordinates") "coordinates") = true ∧
  h = prop item "metrics".
Proof.
  unfold densityHasExpectedStructure.
  destruct (truthy item) eqn:Hi; [|rewrite and_then_falsy by done; congruence].
  rewrite and_then_truthy, !(get_truthy item) by done. simpl.
  destruct (truthy (prop item "coordinates")) eqn:Hc;
    [|rewrite and_then_falsy by done; congruence].
  rewrite and_then_truthy, get_truthy by done. simpl.
  destruct (truthy (prop (prop item "coordinates") "coordinates")) eqn:Hn;
    [|rewrite and_then_falsy by done; congruence].
  rewrite and_then_truthy by done.
  destruct (isArray (prop (prop item "coordinates") "coordinates")) eqn:Ha;
    [|rewrite and_then_falsy by done; intros [= <-]; discriminate].
  rewrite and_then_truthy by done. intros [= <-]. done.
Qed.

(** The structure check of a density cell passes exactly on the records
    with a truthy [coordinates], an array under [coordinates.coordinates] and
    truthy [metrics]. *)
Lemma density_accepted_iff item :
  density_accepted item ↔ density_malformed item = false.
Proof.
  unfold density_malformed. split.
  - intros [Hi Hc Ha Hm]. unfold densityHasExpectedStructure.
    rewrite and_then_truthy, !(get_truthy item) by done. cbn [bind].
    rewrite and_then_truthy, get_truthy by done. cbn [bind].
    rewrite and_then_truthy
      by (by destruct (prop (prop item "coordinates") "coordinates")).
    rewrite Ha, and_then_truthy by done. by rewrite Hm.
  - intros Hm. destruct (densityHasExpectedStructure item) as [h|] eqn:Hh.
    + apply negb_false_iff in Hm.
      destruct (density_accepted_full item h Hh Hm) as (? & ? & ? & ? & ->). by split.
    + destruct (densityHasExpectedStructure_ok item) as [h Hh']. congruence.
Qed.

Lemma density_rejected item :
  ¬ density_accepted item → density_malformed item = true.
Proof.
  intros Hnot. destruct (density_malformed item) eqn:Hm; [done|].
  by apply density_accepted_iff in Hm.
Qed.

Lemma metric_ok item name dflt :
  is_nullish item = false → ∃ v, metric item name dflt = Ok v.
Proof.
  intros Hi. unfold metric. rewrite get_ok by done. simpl.
  destruct (prop item "metrics") eqn:E; try rewrite get_ok by done; simpl; eauto.
Qed.

Lemma densityFeatureBody_ok item index :
  ∃ f, densityFeatureBody item index = Ok f.
Proof.
  unfold densityFeatureBody.
  destruct (densityHasExpectedStructure_ok item) as [h Hh]. rewrite Hh. simpl.
  destruct (truthy h) eqn:Ht; simpl; [|eauto].
  destruct (density_accepted_inv _ _ Hh Ht) as [Hi Hc].
  pose proof (truthy_not_nullish _ Hi) as Hn.
  rewrite !(get_truthy item) by done. simpl.
  rewrite get_truthy by done. simpl.
  destruct (metric_ok item "business_count" (JNum 0) Hn) as [? ->].
  destruct (metric_ok item "avg_rating" (JNum 0) Hn) as [? ->].
  destruct (metric_ok item "service_diversity" (JNum 0) Hn) as [? ->].
  destruct (metric_ok item "service_types" (JArr []) Hn) as [? ->].
  simpl. eauto.
Qed.

Lemma densityFeature_some item index : is_Some (densityFeature item index).
Proof.
  unfold densityFeature. destruct (densityFeatureBody_ok item index) as [f ->].
  simpl. eauto.
Qed.

(** A record that fails the structure check of its kind. *)
Lemma densityFeature_malformed item index :
  density_malformed item = true →
  densityFeature item index = Some (densityPlaceholder index).
Proof.
  unfold density_malformed, densityFeature, densityFeatureBody.
  destruct (densityHasExpectedStructure item) as [h|]; [|discriminate].
  simpl. intros ->. reflexivity.
Qed.

Lemma clusterHasExpectedStructure_ok cluster :
  ∃ h, clusterHasExpectedStructure cluster = Ok h.
Proof.
  unfold clusterHasExpectedStructure.
  destruct (truthy cluster) eqn:Hi; [|rewrite and_then_falsy; eauto].
  rewrite and_then_truthy, !(get_truthy cluster) by done. simpl.
  unfold and_then; simpl.
  repeat match goal with |- context [if ?b then _ else _] => destruct b end; eauto.
Qed.

Lemma cluster_accepted_inv cluster :
  cluster_wellformed cluster = true → cluster_accepted cluster.
Proof.
  unfold cluster_wellformed, clusterHasExpectedStructure.
  destruct (truthy cluster) eqn:Hi; [|rewrite and_then_falsy by done; simpl; congruence].
  rewrite and_then_truthy, !(get_truthy cluster) by done. simpl.
  unfold and_then; simpl.
  destruct (is_string _) eqn:?; [|simpl; congruence].
  destruct (is_number (prop cluster "size")) eqn:?; [|simpl; congruence].
  destruct (is_number (prop cluster "avg_rating")) eqn:?; [|simpl; congruence].
  destruct (isArray _) eqn:?; [|simpl; congruence].
  intros Hc. by split.
Qed.

(** The structure check of a cluster passes exactly on the records with a
    string id, a numeric size and rating, an array of categories and a truthy
    center. *)
Lemma cluster_accepted_iff cluster :
  cluster_accepted cluster ↔ cluster_wellformed cluster = true.
Proof.
  split; [|apply cluster_accepted_inv].
  intros [Hi Hid Hsize Hrating Hcats Hcenter].
  unfold cluster_wellformed, clusterHasExpectedStructure.
  rewrite and_then_truthy, !(get_truthy cluster) by done. cbn [bind].
  rewrite Hid, Hsize, Hrating, Hcats.
  rewrite !and_then_truthy by done. by rewrite Hcenter.
Qed.

Lemma cluster_rejected cluster :
  ¬ cluster_accepted cluster → cluster_wellformed cluster = false.
Proof.
  intros Hnot. destruct (cluster_wellformed cluster) eqn:Hw; [|done].
  by apply cluster_accepted_iff in Hw.
Qed.

Lemma clusterCoordinates_ok center :
  is_nullish center = false → ∃ c, clusterCoordinates center = Ok c.
Proof.
  intros Hn. unfold clusterCoordinates.
  destruct (keys_ok center Hn) as [ks Hks].
  destruct (get_all_ok center ks Hn) as [xs Hxs].
  rewrite !(get_ok center), Hks by done. simpl. rewrite Hxs. simpl.
  follow_branches.
Qed.

Lemma clusterFeatureBody_ok cluster index :
  ∃ f, clusterFeatureBody cluster index = Ok f.
Proof.
  unfold clusterFeatureBody.
  destruct (clusterHasExpectedStructure_ok cluster) as [h Hh].
  pose proof (cluster_accepted_inv cluster) as Hacc.
  unfold cluster_wellformed in Hacc. rewrite Hh in *. simpl.
  destruct (truthy h) eqn:Ht; simpl; [|eauto].
  destruct (Hacc eq_refl).
  rewrite !(get_truthy cluster) by done. simpl.
  destruct (clusterCoordinates_ok (prop cluster "center")) as [c ->];
    [by apply truthy_not_nullish|].
  simpl. eauto.
Qed.

Lemma clusterFeature_some cluster index : is_Some (clusterFeature cluster index).
Proof.
  unfold clusterFeature. destruct (clusterFeatureBody_ok cluster index) as [f ->].
  simpl. eauto.
Qed.

Lemma clusterFeature_malformed cluster index :
  cluster_wellformed cluster = false →
  clusterFeature cluster index = Some (clusterPlaceholder index).
Proof.
  unfold cluster_wellformed, clusterFeature, clusterFeatureBody.
  destruct (clusterHasExpectedStructure_ok cluster) as [h ->].
  simpl. intros ->. reflexivity.
Qed.

(** ** The normalisations on concrete payloads *)

(** The center of a cluster in each of the shapes the code recognises, and
    in none of them. *)
Example center_shapes :
  clusterCoordinates (JObj [("type", JStr "Point"); ("coordinates", pt 1 2)]) = Ok (pt 1 2) ∧
  clusterCoordinates (JObj [("x", JNum 1); ("y", JNum 2)]) = Ok (pt 1 2) ∧
  clusterCoordinates (JObj [("longitude", JNum 1); ("latitude", JNum 2)]) = Ok (pt 1 2) ∧
  clusterCoordinates (JObj [("lon", JNum 1); ("lat", JNum 2)]) = Ok (pt 1 2) ∧
  clusterCoordinates (pt 1 2) = Ok (pt 1 2) ∧
  clusterCoordinates (JObj [("lon", JStr "1"); ("lat", JNum 2)]) = Ok defaultCoordinates ∧
  clusterCoordinates (JStr "POINT(1 2)") = Ok defaultCoordinates ∧
  clusterCoordinates (JNum 7) = Ok defaultCoordinates.
Proof. repeat split; reflexivity. Qed.

(** One well-formed density cell gives one feature with its id and its
    business count. *)
Example density_cell :
  let ring := JArr [JArr [pt (-82.45) 27.95; pt (-82.44) 27.95; pt (-82.44) 27.96;
                          pt (-82.45) 27.96; pt (-82.45) 27.95]] in
  let cell := JObj [("grid_id", JStr "g1");
                    ("coordinates", JObj [("coordinates", ring)]);
                    ("metrics", JObj [("business_count", JNum 10); ("avg_rating", JNum 4.2);
                                      ("service_diversity", JNum 3);
                                      ("service_types", JArr [JStr "Restaurant"])])] in
  let api : Api := λ _ _, Ok (mkResponse true 200 (Ok (JArr [cell]))) in
  getDensityGrid api 1 =
    Ok [ {| dg_coordinates := ring; dg_id := JStr "g1"; dg_business_count := JNum 10;
            dg_avg_rating := JNum 4.2; dg_service_diversity := JNum 3;
            dg_service_types := JArr [JStr "Restaurant"] |} ].
Proof. reflexivity. Qed.

(** A neighborhood given by its center: a square of half-side 0.01 around
    it, the score the rounded mean of the three component scores. *)
Example neighborhood_from_center :
  let record := JObj [("area_name", JStr "Ybor City"); ("center", pt (-82.437) 27.96);
                      ("businesses", JNum 104); ("rating", JNum 4.1);
                      ("density_score", JNum 70); ("accessibility_score", JNum 80);
                      ("service_distribution_score", JNum 79)] in
  ∃ f, neighborhoodFeature record 0 = Some f ∧
       nb_name f = JStr "Ybor City" ∧
       nb_geometry f = GeomSquareAround (JNum (-82.437)) (JNum 27.96) ∧
       nb_score f = ScoreAverage (JNum 70) (JNum 80) (JNum 79).
Proof. eexists. repeat split; reflexivity. Qed.

(** ** [data.map(...).filter(...)] when the callback never returns [null] *)

Lemma omap_imap_lookup {A B} (g : nat → A → option B) (l : list A) :
  (∀ i x, is_Some (g i x)) →
  ∀ i, omap id (imap g l) !! i = l !! i ≫= g i.
Proof.
  revert g. induction l as [|x l IH]; intros g Hg i; simpl; [done|].
  destruct (Hg 0 x) as [y Hy]. rewrite Hy. simpl.
  destruct i as [|i]; simpl; [done|].
  apply (IH (g ∘ S)). intros j z. apply Hg.
Qed.

Lemma map_features_lookup {F} (f : JsVal → nat → option F) data i :
  (∀ r j, is_Some (f r j)) →
  map_features f data !! i = elements data !! i ≫= (λ r, f r i).
Proof. intros Hf. unfold map_features. by rewrite omap_imap_lookup. Qed.

Lemma map_features_length {F} (f : JsVal → nat → option F) data :
  (∀ r j, is_Some (f r j)) →
  length (map_features f data) = length (elements data).
Proof.
  intros Hf. unfold map_features.
  generalize (elements data) as l. intros l.
  assert (∀ g : nat → JsVal → option F, (∀ i x, is_Some (g i x)) →
          length (omap id (imap g l)) = length l) as H.
  { induction l as [|x l IH]; intros g Hg; simpl; [done|].
    destruct (Hg 0 x) as [y ->]. simpl. f_equal. apply IH. intros j z. apply Hg. }
  apply H. intros j z. apply Hf.
Qed.

Lemma map_features_elem {F} (f : JsVal → nat → option F) data y :
  y ∈ map_features f data →
  ∃ i r, elements data !! i = Some r ∧ f r i = Some y.
Proof.
  unfold map_features. rewrite list_elem_of_omap.
  intros (o & Ho & Hy). simpl in Hy. subst o.
  apply elem_of_lookup_imap in Ho as (i & r & Heq & Hl). eauto.
Qed.

Lemma no_data_nonempty records : records ≠ [] → no_data (JArr records) = false.
Proof. destruct records; [done|]. reflexivity. Qed.

(** Claim C3.  For every non-empty array response to a density-grid or
    business-clusters fetch, the number of features returned equals the
    number of records, and none is dropped: a record that fails the structure
    check of its kind is replaced, at its own position [i], by a synthesized
    feature near the fallback origin (-82.45, 27.95).  For a density cell
    this is the square of side 0.01 whose first corner lies [i * 0.001] east
    and north of the origin, with the id [grid-i], no businesses and no
    service types; for a cluster it is the point [i * 0.01] east and north of
    the origin, with the id [cluster-i], size 5, rating 3 and the one
    category Restaurant. *)
Theorem C3_density_cluster_count_preserved
    (api : Api) (p : Q) (records : list JsVal) :
  records ≠ [] →
  (safeFetch (api DensityGridEP p) = Ok (JArr records) →
   ∃ fs, getDensityGrid api p = Ok fs ∧ length fs = length records ∧
     ∀ i r, records !! i = Some r → ¬ density_accepted r →
       let x := (-82.45 + idx i * 0.001)%Q in
       let y := (27.95 + idx i * 0.001)%Q in
       fs !! i = Some
         {| dg_coordinates :=
              JArr [JArr [pt x y; pt (x + 0.01) y; pt (x + 0.01) (y + 0.01);
                          pt x (y + 0.01); pt x y]];
            dg_id := JStr ("grid-" +:+ pretty i);
            dg_business_count := JNum 0;
            dg_avg_rating := JNum 0;
            dg_service_diversity := JNum 0;
            dg_service_types := JArr [] |}) ∧
  (safeFetch (api BusinessClustersEP p) = Ok (JArr records) →
   ∃ fs, getBusinessClusters api p = Ok fs ∧ length fs = length records ∧
     ∀ i r, records !! i = Some r → ¬ cluster_accepted r →
       fs !! i = Some
         {| bc_coordinates := pt (-82.45 + idx i * 0.01) (27.95 + idx i * 0.01);
            bc_id := JStr ("cluster-" +:+ pretty i);
            bc_size := JNum 5;
            bc_rating := JNum 3;
            bc_categories := JArr [JStr "Restaurant"] |}).
Proof.
  intros Hne. split; intros Hresp.
  - unfold getDensityGrid. rewrite Hresp. simpl.
    rewrite no_data_nonempty by done. eexists. split; [reflexivity|]. split.
    + apply (map_features_length densityFeature (JArr records)), densityFeature_some.
    + intros i r Hr Hm.
      rewrite map_features_lookup by apply densityFeature_some.
      simpl. rewrite Hr. simpl.
      by rewrite (densityFeature_malformed r i (density_rejected r Hm)).
  - unfold getBusinessClusters. rewrite Hresp. simpl.
    rewrite no_data_nonempty by done. eexists. split; [reflexivity|]. split.
    + apply (map_features_length clusterFeature (JArr records)), clusterFeature_some.
    + intros i r Hr Hm.
      rewrite map_features_lookup by apply clusterFeature_some.
      simpl. rewrite Hr. simpl.
      by rewrite (clusterFeature_malformed r i (cluster_rejected r Hm)).
Qed.

Lemma C3_witness :
  let records := [JNull; JObj [("coordinates", JObj [("coordinates", JStr "x")]);
                               ("metrics", JObj [])]] in
  let api : Api := λ _ _, Ok (mkResponse true 200 (Ok (JArr records))) in
  ¬ density_accepted (JObj [("coordinates", JObj [("coordinates", JStr "x")]);
                            ("metrics", JObj [])]) ∧
  ∃ fs, getDensityGrid api 1 = Ok fs ∧ length fs = 2 ∧
    fs !! 1 = Some
      {| dg_coordinates :=
           JArr [JArr [pt (-82.45 + 1 * 0.001) (27.95 + 1 * 0.001);
                       pt (-82.45 + 1 * 0.001 + 0.01) (27.95 + 1 * 0.001);
                       pt (-82.45 + 1 * 0.001 + 0.01) (27.95 + 1 * 0.001 + 0.01);
                       pt (-82.45 + 1 * 0.001) (27.95 + 1 * 0.001 + 0.01);
                       pt (-82.45 + 1 * 0.001) (27.95 + 1 * 0.001)]];
         dg_id := JStr "grid-1";
         dg_business_count := JNum 0;
         dg_avg_rating := JNum 0;
         dg_service_diversity := JNum 0;
         dg_service_types := JArr [] |}.
Proof.
  intros records api.
  assert (¬ density_accepted (JObj [("coordinates", JObj [("coordinates", JStr "x")]);
                                    ("metrics", JObj [])])) as Hnot.
  { intros [_ _ Hring _]. discriminate Hring. }
  split; [exact Hnot|].
  destruct (C3_density_cluster_count_preserved api 1 records) as [Hd _];
    [discriminate|].
  destruct (Hd eq_refl) as (fs & Hfs & Hlen & Hph).
  exists fs. split; [exact Hfs|]. split; [exact Hlen|].
  exact (Hph 1 _ eq_refl Hnot).
Defined.

(** ** Well-formed cluster records *)

Lemma clusterFeature_wellformed cluster index :
  cluster_wellformed cluster = true →
  ∃ c, clusterCoordinates (prop cluster "center") = Ok c ∧
    clusterFeature cluster index = Some
      {| bc_coordinates := c;
         bc_id := or_else (prop cluster "cluster_id") (JStr ("cluster-" +:+ pretty index));
         bc_size := or_else (prop cluster "size") (JNum 5);
         bc_rating := or_else (prop cluster "avg_rating") (JNum 3);
         bc_categories := or_else (prop cluster "categories") (JArr []) |}.
Proof.
  intros Hw. destruct (cluster_accepted_inv _ Hw).
  destruct (clusterCoordinates_ok (prop cluster "center")) as [c Hc];
    [by apply truthy_not_nullish|].
  exists c. split; [done|].
  unfold clusterFeature, clusterFeatureBody.
  unfold cluster_wellformed in Hw.
  destruct (clusterHasExpectedStructure cluster) as [h|]; [|discriminate].
  simpl. rewrite Hw. simpl.
  rewrite !(get_truthy cluster) by done. simpl. rewrite Hc. reflexivity.
Qed.

Lemma truthy_number_nonzero v :
  truthy v = true → non_zero v.
Proof.
  intros Ht q ->. simpl in Ht. intros Hq.
  apply Qeq_bool_iff in Hq. rewrite Hq in Ht. discriminate.
Qed.

Lemma or_else_non_zero v d :
  truthy d = true → non_zero (or_else v d).
Proof.
  intros Hd. apply truthy_number_nonzero. unfold or_else.
  by destruct (truthy v) eqn:E.
Qed.

Lemma clusterFeature_non_zero cluster index f :
  clusterFeature cluster index = Some f →
  non_zero (bc_size f) ∧ non_zero (bc_rating f).
Proof.
  destruct (cluster_wellformed cluster) eqn:Hw.
  - destruct (clusterFeature_wellformed cluster index Hw) as (c & _ & ->).
    intros [= <-]. simpl. split; by apply or_else_non_zero.
  - rewrite clusterFeature_malformed by done. intros [= <-]. simpl.
    split; by apply truthy_number_nonzero.
Qed.

(** Claim C10.  A cluster record accepted as well-formed yields a feature at its
    position in which falsy attributes are replaced by constants: a size of 0
    gives [properties.size = 5], an avg_rating of 0 gives
    [properties.rating = 3], an empty cluster_id gives the id
    [cluster-<index>]; and no feature returned by [getBusinessClusters] has
    size 0 or rating 0. *)
Theorem C10_cluster_falsy_attributes_replaced
    (api : Api) (p : Q) (records : list JsVal) (index : nat) (cluster : JsVal) :
  safeFetch (api BusinessClustersEP p) = Ok (JArr records) →
  records !! index = Some cluster →
  cluster_wellformed cluster = true →
  ∃ fs f,
    getBusinessClusters api p = Ok fs ∧ fs !! index = Some f ∧
    (∀ q, prop cluster "size" = JNum q → (q == 0)%Q → bc_size f = JNum 5) ∧
    (∀ q, prop cluster "avg_rating" = JNum q → (q == 0)%Q → bc_rating f = JNum 3) ∧
    (prop cluster "cluster_id" = JStr "" →
       bc_id f = JStr ("cluster-" +:+ pretty index)) ∧
    (∀ g, g ∈ fs → non_zero (bc_size g) ∧ non_zero (bc_rating g)).
Proof.
  intros Hresp Hr Hw.
  assert (records ≠ []) as Hne by (intros ->; discriminate).
  destruct (clusterFeature_wellformed cluster index Hw) as (c & _ & Hf).
  unfold getBusinessClusters. rewrite Hresp. simpl.
  rewrite no_data_nonempty by done.
  eexists _, _. split; [reflexivity|]. split.
  { rewrite map_features_lookup by apply clusterFeature_some.
    simpl. rewrite Hr. simpl. exact Hf. }
  simpl. repeat split.
  - intros q -> Hq. unfold or_else. simpl.
    apply Qeq_bool_iff in Hq. by rewrite Hq.
  - intros q -> Hq. unfold or_else. simpl.
    apply Qeq_bool_iff in Hq. by rewrite Hq.
  - intros ->. reflexivity.
  - apply map_features_elem in H as (i & r & _ & Hg).
    by apply (clusterFeature_non_zero r i).
  - apply map_features_elem in H as (i & r & _ & Hg).
    by apply (clusterFeature_non_zero r i).
Qed.

Lemma C10_witness :
  let cluster := JObj [("cluster_id", JStr ""); ("size", JNum 0); ("avg_rating", JNum 0);
                       ("categories", JArr []); ("center", JObj [("x", JNum 1); ("y", JNum 2)])] in
  let api : Api := λ _ _, Ok (mkResponse true 200 (Ok (JArr [JNull; cluster]))) in
  ∃ fs f,
    getBusinessClusters api 5 = Ok fs ∧ fs !! 1 = Some f ∧
    (∀ q, prop cluster "size" = JNum q → (q == 0)%Q → bc_size f = JNum 5) ∧
    (∀ q, prop cluster "avg_rating" = JNum q → (q == 0)%Q → bc_rating f = JNum 3) ∧
    (prop cluster "cluster_id" = JStr "" → bc_id f = JStr ("cluster-" +:+ pretty 1)) ∧
    (∀ g, g ∈ fs → non_zero (bc_size g) ∧ non_zero (bc_rating g)).
Proof.
  intros cluster api.
  apply (C10_cluster_falsy_attributes_replaced api 5 [JNull; cluster] 1 cluster);
    reflexivity.
Defined.

(** ** The coordinates of a well-formed cluster *)

(** Whatever the center is, the coordinates are either the unchecked
    [center.coordinates] array, or a pair of numbers. *)
Lemma clusterCoordinates_shape center c :
  clusterCoordinates center = Ok c →
  (c = prop center "coordinates" ∧ isArray c = true) ∨ is_number_pair c = true.
Proof.
  destruct (is_nullish center) eqn:Hn.
  { destruct (get_nullish center "coordinates" Hn) as [e He].
    unfold clusterCoordinates. rewrite He. discriminate. }
  unfold clusterCoordinates.
  destruct (keys_ok center Hn) as [ks Hks].
  destruct (get_all_ok center ks Hn) as [xs Hxs].
  rewrite !(get_ok center), Hks by done. simpl. rewrite Hxs. simpl.
  destruct (truthy (prop center "coordinates") && isArray (prop center "coordinates")) eqn:E.
  { intros [= <-]. left. apply andb_prop in E. tauto. }
  assert (∀ a b, is_number a = true → is_number b = true →
                 is_number_pair (JArr [a; b]) = true) as Hp.
  { intros [] []; simpl; done. }
  repeat first
    [ match goal with
      | |- Ok _ = Ok _ → _ =>
          intros [= <-]; right;
          first [ reflexivity
                | apply Hp; assumption
                | match goal with
                  | H : _ && _ = true |- _ => apply andb_prop in H; apply Hp; tauto
                  end ]
      end
    | rewrite get_ok by done; simpl
    | match goal with |- context [if ?b then _ else _] => destruct b eqn:?; simpl end ].
Qed.

(** When the center has none of the recognised shapes, the coordinates are
    the default point. *)
Lemma clusterCoordinates_default center :
  is_nullish center = false →
  truthy (prop center "coordinates") && isArray (prop center "coordinates") = false →
  is_number (prop center "x") && is_number (prop center "y") = false →
  is_number (prop center "longitude") && is_number (prop center "latitude") = false →
  (∀ ks xs, typeof center = TObject → keys center = Ok ks → length ks = 2 →
            get_all center ks = Ok xs →
            is_number (nth_or_undef xs 0) && is_number (nth_or_undef xs 1) = false) →
  clusterCoordinates center = Ok defaultCoordinates.
Proof.
  intros Hn Hc Hxy Hll Hk. unfold clusterCoordinates.
  destruct (keys_ok center Hn) as [ks Hks].
  destruct (get_all_ok center ks Hn) as [xs Hxs].
  rewrite !(get_ok center), Hks by done. simpl. rewrite Hxs, Hc. simpl.
  destruct (is_number (prop center "x")) eqn:Hx; simpl in *; rewrite ?Hxy; simpl;
    destruct (is_number (prop center "longitude")) eqn:Hl; simpl in *;
    rewrite ?Hll; simpl;
    repeat case_bool_decide; try done; by rewrite (Hk ks xs).
Qed.

(** Claim C9.  A record accepted as well-formed whose center carries a
    [coordinates] array gets that array as the coordinates of its point,
    whatever the array holds: here two strings, not a pair of numbers. *)
Example C9_center_coordinates_array_unchecked :
  let cluster := JObj [("cluster_id", JStr "c1"); ("size", JNum 10); ("avg_rating", JNum 4);
                       ("categories", JArr []);
                       ("center", JObj [("coordinates", JArr [JStr "a"; JStr "b"])])] in
  cluster_wellformed cluster = true ∧
  ∃ f, clusterFeature cluster 0 = Some f ∧
       bc_coordinates f = JArr [JStr "a"; JStr "b"] ∧
       is_number_pair (bc_coordinates f) = false.
Proof. cbv zeta. split; [reflexivity|]. eexists. split; [reflexivity|]. split; reflexivity. Qed.

(** ** Failed requests *)

Lemma safeFetch_unusable fetched :
  unusable fetched = true →
  (∃ e, safeFetch fetched = Throw e) ∨
  (∃ data, safeFetch fetched = Ok data ∧ no_data data = true).
Proof.
  unfold unusable, safeFetch.
  destruct fetched as [response|e]; simpl.
  - destruct (resp_ok response); simpl.
    + destruct (resp_json response) as [data|e]; simpl.
      * intros Hd. right. by exists data.
      * intros _. left. repeat case_match; eauto.
    + intros _. left. repeat (case_match; simpl); eauto.
  - intros _. left. repeat case_match; eauto.
Qed.

(** Claim C2.  Whatever the network and the server do, for every value of the
    filter parameter, none of [getDensityGrid], [getBusinessClusters] and
    [getNeighborhoodMetrics] raises: each returns a sequence.  When the
    request fails (network, timeout, error status, unparsable body) or the
    payload is not a non-empty array, the density and cluster fetches return
    the empty sequence and the neighborhood fetch returns the built-in
    fallback neighborhoods; an empty array of business clusters gives the
    empty sequence. *)
Theorem C2_fetch_never_raises (api : Api) (p : Q) :
  (∃ fs, getDensityGrid api p = Ok fs) ∧
  (∃ fs, getBusinessClusters api p = Ok fs) ∧
  (∃ fs, getNeighborhoodMetrics api p = Ok fs) ∧
  (unusable (api DensityGridEP p) = true → getDensityGrid api p = Ok []) ∧
  (unusable (api BusinessClustersEP p) = true → getBusinessClusters api p = Ok []) ∧
  (unusable (api NeighborhoodMetricsEP p) = true →
     getNeighborhoodMetrics api p = Ok createFallbackNeighborhoods) ∧
  (safeFetch (api BusinessClustersEP p) = Ok (JArr []) →
     getBusinessClusters api p = Ok []).
Proof.
  unfold getDensityGrid, getBusinessClusters, getNeighborhoodMetrics.
  repeat split.
  - destruct (safeFetch _); simpl; [destruct (no_data _)|]; eauto.
  - destruct (safeFetch _); simpl; [destruct (no_data _)|]; eauto.
  - destruct (safeFetch _); simpl; [destruct (no_data _)|]; eauto.
  - intros [[e ->]|(data & -> & Hd)]%safeFetch_unusable; simpl; by rewrite ?Hd.
  - intros [[e ->]|(data & -> & Hd)]%safeFetch_unusable; simpl; by rewrite ?Hd.
  - intros [[e ->]|(data & -> & Hd)]%safeFetch_unusable; simpl; by rewrite ?Hd.
  - intros ->. reflexivity.
Qed.

Lemma C2_witness :
  let api : Api := λ ep _,
    match ep with
    | DensityGridEP => Throw (mkError "AbortError" "The operation was aborted")
    | BusinessClustersEP => Ok (mkResponse true 200 (Ok (JArr [])))
    | NeighborhoodMetricsEP => Ok (mkResponse false 503 (Ok JNull))
    end in
  getDensityGrid api 1 = Ok [] ∧
  getBusinessClusters api 5 = Ok [] ∧
  getNeighborhoodMetrics api 0 = Ok createFallbackNeighborhoods.
Proof.
  intros api. split; [|split].
  - apply (C2_fetch_never_raises api 1). reflexivity.
  - apply (C2_fetch_never_raises api 5). reflexivity.
  - apply (C2_fetch_never_raises api 0). reflexivity.
Defined.

(** The built-in fallback set: ten named neighborhoods. *)
Example fallback_neighborhood_names :
  nb_name <$> createFallbackNeighborhoods =
  JStr <$> ["Hyde Park"; "Downtown Tampa"; "Ybor City"; "Westshore"; "Channelside";
            "Seminole Heights"; "SoHo"; "Palma Ceia"; "Carrollwood"; "Brandon"].
Proof. reflexivity. Qed.

(** ** Neighborhood records *)

Lemma prop_falsy v : truthy v = false → truthy (prop v "coordinates") = false.
Proof.
  destruct v; try done; simpl.
  intros Hs%negb_false_iff. apply bool_decide_eq_true in Hs as ->. reflexivity.
Qed.

Lemma first_truthy_spec o names dflt v :
  first_truthy o names dflt = Ok v → truthy v = true ∨ v = dflt.
Proof.
  induction names as [|name names IH]; simpl.
  - intros [= <-]. by right.
  - destruct (get o name) as [x|]; [|discriminate]. simpl.
    destruct (truthy x) eqn:Hx; [|done]. intros [= <-]. by left.
Qed.

Lemma number_pair a b :
  is_number a = true → is_number b = true → is_number_pair (JArr [a; b]) = true.
Proof. by destruct a, b. Qed.

Lemma centerFromKeys_shape center point :
  centerFromKeys center = Ok point → is_number_pair point = true.
Proof.
  unfold centerFromKeys. destruct (keys center) as [ks|]; [|discriminate]. cbn [bind].
  case_bool_decide; [|discriminate].
  destruct (get center _) as [v0|]; [|discriminate]. cbn [bind].
  destruct (is_number v0) eqn:H0; [|discriminate].
  destruct (get center _) as [v1|]; [|discriminate]. cbn [bind].
  destruct (is_number v1) eqn:H1; [|discriminate].
  intros [= <-]. by apply number_pair.
Qed.

(** The center point is a pair of numbers, unless the center is itself an
    array or carries a [coordinates] array: these are taken unchecked. *)
Lemma centerPoint_shape center index point :
  centerPoint center index = Ok point →
  isArray center = false →
  truthy (prop center "coordinates") && isArray (prop center "coordinates") = false →
  is_number_pair point = true.
Proof.
  unfold centerPoint. intros Hp Ha Hc. rewrite Ha in Hp.
  destruct (is_nullish center) eqn:Hn.
  { destruct (get_nullish center "coordinates" Hn) as [e He].
    rewrite He in Hp. discriminate. }
  revert Hp. rewrite !(get_ok center) by done. cbn [bind]. rewrite Hc.
  destruct (is_number (prop center "x")) eqn:Hx; cbn [bind andb].
  - destruct (is_number (prop center "y")) eqn:Hy.
    { intros [= <-]. by apply number_pair. }
    destruct (is_number (prop center "longitude")) eqn:Hlo; cbn [bind andb].
    + destruct (is_number (prop center "latitude")) eqn:Hla.
      { intros [= <-]. by apply number_pair. }
      destruct (centerFromKeys center) eqn:Hk; simpl; intros [= <-]; [|done].
      by apply (centerFromKeys_shape center).
    + destruct (centerFromKeys center) eqn:Hk; simpl; intros [= <-]; [|done].
      by apply (centerFromKeys_shape center).
  - destruct (is_number (prop center "longitude")) eqn:Hlo; cbn [bind andb].
    + destruct (is_number (prop center "latitude")) eqn:Hla.
      { intros [= <-]. by apply number_pair. }
      destruct (centerFromKeys center) eqn:Hk; simpl; intros [= <-]; [|done].
      by apply (centerFromKeys_shape center).
    + destruct (centerFromKeys center) eqn:Hk; simpl; intros [= <-]; [|done].
      by apply (centerFromKeys_shape center).
Qed.

Lemma nested_coordinates o outer :
  is_nullish o = false →
  ∃ v, nested o outer "coordinates" = Ok v ∧
       truthy v = truthy (prop (prop o outer) "coordinates") ∧
       (truthy v = true → v = prop (prop o outer) "coordinates").
Proof.
  intros Hn. unfold nested. rewrite get_ok by done. cbn [bind].
  destruct (truthy (prop o outer)) eqn:Ho.
  - rewrite and_then_truthy, get_truthy by done. eauto.
  - rewrite and_then_falsy by done. eexists. split; [done|].
    rewrite (prop_falsy _ Ho). split; [done|]. congruence.
Qed.

Lemma nested_ok o outer inner :
  is_nullish o = false → ∃ v, nested o outer inner = Ok v.
Proof.
  intros Ho. unfold nested. rewrite get_ok by done. simpl.
  unfold and_then. destruct (truthy (prop o outer)) eqn:E; [|eauto].
  rewrite get_truthy by done. eauto.
Qed.

Lemma first_truthy_ok o names dflt :
  is_nullish o = false → ∃ v, first_truthy o names dflt = Ok v.
Proof.
  intros Ho. induction names as [|name names IH]; simpl; [eauto|].
  rewrite get_ok by done. simpl. destruct (truthy _); eauto.
Qed.

Lemma centerPoint_ok center index :
  is_nullish center = false → ∃ point, centerPoint center index = Ok point.
Proof.
  intros Hn. unfold centerPoint.
  destruct (isArray center); [eauto|].
  rewrite !(get_ok center) by done. simpl.
  follow_branches.
Qed.

Lemma first_truthy_fold o names dflt :
  is_nullish o = false →
  first_truthy o names dflt = Ok (foldr (λ name rest, or_else (prop o name) rest) dflt names).
Proof.
  intros Ho. induction names as [|name names IH]; simpl; [done|].
  rewrite get_ok by done. cbn [bind]. unfold or_else at 1.
  by destruct (truthy (prop o name)).
Qed.

Lemma record_center r :
  is_nullish r = false →
  (if truthy (prop r "neighborhood_center") then Ok (prop r "neighborhood_center")
   else get r "center") = Ok (recordCenter r).
Proof.
  intros Hn. unfold recordCenter, or_else.
  destruct (truthy (prop r "neighborhood_center")); [done|]. by rewrite get_ok.
Qed.

(** The center point that is taken unchecked. *)
Lemma centerPoint_array center index :
  isArray center = true → centerPoint center index = Ok center.
Proof. unfold centerPoint. by intros ->. Qed.

Lemma centerPoint_coordinates center index :
  isArray center = false → isArray (prop center "coordinates") = true →
  truthy center = true →
  centerPoint center index = Ok (prop center "coordinates").
Proof.
  intros Ha Hc Ht. unfold centerPoint. rewrite Ha, get_truthy by done. cbn [bind].
  rewrite Hc. by destruct (prop center "coordinates").
Qed.

Lemma number_pair_corners point :
  is_number_pair point = true →
  coercible (nth_or_undef (elements point) 0) &&
  coercible (nth_or_undef (elements point) 1) = true.
Proof. by destruct point as [| | | | |[|[] [|[] []]]|]. Qed.

(** The polygon of a record is built unless one of its operands has no
    primitive value. *)
Lemma neighborhoodGeometry_ok neighborhood index :
  is_nullish neighborhood = false →
  (∃ g, neighborhoodGeometry neighborhood index = Ok g) ↔
  forallb coercible (polygonOperands neighborhood) = true.
Proof.
  intros Hn. unfold neighborhoodGeometry, polygonOperands.
  destruct (nested_coordinates neighborhood "geometry" Hn) as (v & -> & Hv & _).
  cbn [bind]. rewrite Hv.
  destruct (truthy (prop (prop neighborhood "geometry") "coordinates"));
    [split; [done|eauto]|].
  destruct (nested_coordinates neighborhood "area_boundary" Hn) as (w & -> & Hw & _).
  cbn [bind orb]. rewrite Hw.
  destruct (truthy (prop (prop neighborhood "area_boundary") "coordinates"));
    [split; [done|eauto]|].
  rewrite get_ok by done. cbn [bind orb]. rewrite record_center by done. cbn [bind].
  destruct (truthy (recordCenter neighborhood)) eqn:Ht; [|split; [done|eauto]].
  cbn [negb]. destruct (isArray (recordCenter neighborhood)) eqn:Ha.
  { rewrite centerPoint_array by done. cbn [bind forallb].
    rewrite andb_true_r.
    destruct (coercible _ && coercible _);
      [split; [done|eauto] | split; [intros [g Hg]; discriminate|done]]. }
  destruct (isArray (prop (recordCenter neighborhood) "coordinates")) eqn:Hc.
  { rewrite centerPoint_coordinates by done. cbn [bind forallb].
    rewrite andb_true_r.
    destruct (coercible _ && coercible _);
      [split; [done|eauto] | split; [intros [g Hg]; discriminate|done]]. }
  destruct (centerPoint_ok (recordCenter neighborhood) index) as [point Hp];
    [by apply truthy_not_nullish|].
  rewrite Hp. cbn [bind].
  rewrite number_pair_corners; [split; [done|eauto]|].
  apply (centerPoint_shape _ _ _ Hp Ha). by rewrite Hc, andb_false_r.
Qed.

(** The score of a record is built unless one of its operands has no
    primitive value. *)
Lemma neighborhoodScore_ok neighborhood :
  is_nullish neighborhood = false →
  (∃ s, neighborhoodScore neighborhood = Ok s) ↔
  forallb coercible (scoreOperands neighborhood) = true.
Proof.
  intros Hn. unfold neighborhoodScore, scoreOperands.
  rewrite !first_truthy_fold by done. cbn [bind foldr].
  assert (truthy (or_else (prop neighborhood "score")
                    (or_else (prop neighborhood "neighborhood_score") JUndef))
          = truthy (or_else (prop neighborhood "score")
                      (prop neighborhood "neighborhood_score"))) as ->.
  { unfold or_else. destruct (truthy (prop neighborhood "score")); [done|].
    by destruct (truthy (prop neighborhood "neighborhood_score")) eqn:E. }
  destruct (truthy (or_else _ _)); [split; [done|eauto]|].
  cbn [forallb]. rewrite andb_true_r, andb_assoc.
  destruct (coercible _ && coercible _ && coercible _);
    [split; [done|eauto] | split; [intros [g Hg]; discriminate|done]].
Qed.

Lemma neighborhoodFeature_null neighborhood index :
  is_nullish neighborhood = true → neighborhoodFeature neighborhood index = None.
Proof.
  intros Hn. unfold neighborhoodFeature, neighborhoodFeatureBody, neighborhoodGeometry, nested.
  destruct (get_nullish neighborhood "geometry" Hn) as [e ->]. reflexivity.
Qed.

(** The callback answers [null] exactly on the records that cannot be
    processed. *)
Lemma neighborhoodFeature_none_iff neighborhood index :
  neighborhoodFeature neighborhood index = None ↔ unprocessable neighborhood = true.
Proof.
  unfold unprocessable.
  destruct (is_nullish neighborhood) eqn:Hn;
    [split; [done|]; intros _; by apply neighborhoodFeature_null|].
  cbn [orb]. rewrite negb_true_iff, forallb_app.
  pose proof (neighborhoodGeometry_ok neighborhood index Hn) as Hg.
  pose proof (neighborhoodScore_ok neighborhood Hn) as Hs.
  unfold neighborhoodFeature, neighborhoodFeatureBody.
  rewrite !first_truthy_fold by done.
  destruct (neighborhoodGeometry neighborhood index) as [g|e]; cbn [bind].
  - rewrite (proj1 Hg) by eauto. cbn [andb].
    destruct (neighborhoodScore neighborhood) as [s|e]; cbn [bind catch_null].
    + by rewrite (proj1 Hs) by eauto.
    + destruct (forallb coercible (scoreOperands neighborhood)); [|done].
      destruct (proj2 Hs eq_refl) as [s Hs']. discriminate.
  - destruct (forallb coercible (polygonOperands neighborhood)); [|done].
    destruct (proj2 Hg eq_refl) as [g Hg']. discriminate.
Qed.

Lemma neighborhoodFeature_some neighborhood index :
  unprocessable neighborhood = false → is_Some (neighborhoodFeature neighborhood index).
Proof.
  intros Hu. destruct (neighborhoodFeature neighborhood index) eqn:E; [eauto|].
  apply neighborhoodFeature_none_iff in E. congruence.
Qed.

Lemma kept_length {F} (g : nat → JsVal → option F) (d : JsVal → bool) (l : list JsVal) :
  (∀ i r, g i r = None ↔ d r = true) →
  length (omap id (imap g l)) = length (List.filter (λ r, negb (d r)) l).
Proof.
  revert g. induction l as [|x l IH]; intros g Hg; simpl; [done|].
  specialize (IH (g ∘ S) (λ i r, Hg (S i) r)).
  destruct (d x) eqn:Hx; simpl.
  - apply (Hg 0) in Hx. rewrite Hx. simpl. exact IH.
  - destruct (g 0 x) eqn:E; [simpl; by f_equal|].
    apply (Hg 0) in E. congruence.
Qed.

Lemma some_kept (d : JsVal → bool) (l : list JsVal) :
  bool_decide (0 < length (List.filter (λ r, negb (d r)) l)) = negb (forallb d l).
Proof.
  induction l as [|r l IH]; simpl; [done|].
  destruct (d r); simpl; [exact IH|]. case_bool_decide; [done|lia].
Qed.

(** Claim C4.  For every non-empty array response to a neighborhood-metrics
    fetch, the records dropped from the output are exactly those the callback
    throws on: the [null] records, and the records with an operand of the
    arithmetic that has no primitive value (a corner of an unchecked center
    point when the polygon is computed from the center, a component score
    when no score is given).  Every other record, however little of the
    expected shape it has, yields a feature.  The built-in fallback set is
    returned when no record yields a feature, and the features of the records
    themselves otherwise. *)
Theorem C4_neighborhood_unprocessable_records_dropped
    (api : Api) (p : Q) (records : list JsVal) :
  records ≠ [] →
  safeFetch (api NeighborhoodMetricsEP p) = Ok (JArr records) →
  let valid := map_features neighborhoodFeature (JArr records) in
  (∀ i r, records !! i = Some r →
          neighborhoodFeature r i = None ↔ unprocessable r = true) ∧
  length valid = length (List.filter (λ r, negb (unprocessable r)) records) ∧
  getNeighborhoodMetrics api p =
    Ok (if forallb unprocessable records then createFallbackNeighborhoods else valid).
Proof.
  intros Hne Hresp valid.
  assert (length valid = length (List.filter (λ r, negb (unprocessable r)) records))
    as Hlen.
  { apply (kept_length (λ index item, neighborhoodFeature item index)).
    intros i r. apply neighborhoodFeature_none_iff. }
  split; [intros i r _; apply neighborhoodFeature_none_iff|].
  split; [exact Hlen|].
  unfold getNeighborhoodMetrics. rewrite Hresp. simpl.
  rewrite no_data_nonempty by done. f_equal. fold valid.
  rewrite Hlen, some_kept. by destruct (forallb unprocessable records).
Qed.

Lemma C4_witness :
  let records := [ JNull;
                   JObj [("name", JStr "Ybor City")];
                   JObj [("name", JStr "SoHo");
                         ("density_score", JObj [("toString", JNum 1)])];
                   JObj [("name", JStr "Westshore");
                         ("center", JArr [JObj [("toString", JNum 1)]; JNum 27.953])] ] in
  let api : Api := λ _ _, Ok (mkResponse true 200 (Ok (JArr records))) in
  let valid := map_features neighborhoodFeature (JArr records) in
  (∀ i r, records !! i = Some r →
          neighborhoodFeature r i = None ↔ unprocessable r = true) ∧
  length valid = 1 ∧
  getNeighborhoodMetrics api 0 = Ok valid.
Proof.
  intros records api valid.
  apply (C4_neighborhood_unprocessable_records_dropped api 0 records);
    [discriminate | reflexivity].
Defined.

(** The record [{}] has none of the fields of a neighborhood, yet it is not
    dropped: the response [[{}]] yields one feature, named "Area 1", on the
    index-derived fallback square. *)
Lemma C4_malformed_record_kept :
  let api : Api := λ _ _, Ok (mkResponse true 200 (Ok (JArr [JObj []]))) in
  neighborhood_malformed_spec (JObj []) = true ∧
  getNeighborhoodMetrics api 0 =
    Ok [ {| nb_geometry := GeomFallbackSquare (fallbackLng 0) (fallbackLat 0);
            nb_name := JStr "Area 1";
            nb_businesses := JNum 0;
            nb_rating := JNum 0;
            nb_diversity := JNum 0;
            nb_score := ScoreAverage (JNum 0) (JNum 0) (JNum 0) |} ].
Proof. split; reflexivity. Qed.


(** * Properties of the map instance controller *)

Import GeographicView.

(** ** Switching to the layer that is already active *)

Lemma commit_same s : commit s s false = s.
Proof.
  unfold commit, densityDepsChanged, visibilityDepsChanged.
  rewrite !bool_decide_eq_true_2 by done. reflexivity.
Qed.

Lemma densityEffect_transitioning s :
  isLayerTransitioning s = true → densityEffect s = s.
Proof.
  unfold densityEffect. intros ->.
  by destruct (isMapLoaded s), (mapSourcesReady s).
Qed.

Lemma visibilityEffect_transitioning s :
  isLayerTransitioning s = true → visibilityEffect s = s.
Proof.
  unfold visibilityEffect. intros ->.
  destruct (map_current s); [|done].
  by destruct (isMapLoaded s), (showMap s).
Qed.

Lemma commit_transitioning before after b :
  isLayerTransitioning after = true → commit before after b = after.
Proof.
  intros H. unfold commit. rewrite densityEffect_transitioning by done.
  destruct (_ || _), (visibilityDepsChanged _ _);
    by rewrite ?visibilityEffect_transitioning.
Qed.

Lemma onChange_active s : onChange (activeLayer s) s = s.
Proof. unfold onChange. by rewrite bool_decide_eq_true_2. Qed.

Lemma click_result s layer :
  step (LayerClick layer) s = s ∨
  (step (LayerClick layer) s = onChange layer s ∧
   activeLayer (onChange layer s) = layer ∧
   isMapLoaded (onChange layer s) && showMap (onChange layer s) = true).
Proof.
  simpl. destruct (isMapLoaded s && showMap s) eqn:Hr; [|by left].
  destruct (decide (layer = activeLayer s)) as [->|Hne].
  - left. by rewrite onChange_active, commit_same.
  - right. unfold onChange. rewrite bool_decide_eq_false_2 by done.
    rewrite commit_transitioning by done. done.
Qed.

Lemma onChange_twice s k : onChange k (onChange k s) = onChange k s.
Proof.
  destruct (decide (k = activeLayer s)) as [->|Hne].
  - by rewrite !onChange_active.
  - assert (activeLayer (onChange k s) = k) as Ha.
    { unfold onChange. by rewrite bool_decide_eq_false_2. }
    rewrite <- Ha at 1. apply onChange_active.
Qed.

(** Claim C8.  Calling [setActiveLayer(k)] twice in a row with the same [k]: the
    second call changes nothing.  The state after it is the state before it,
    with the same layout, the same transition flag and the same pending
    timers. *)
Theorem C8_setActiveLayer_twice (s : View) (k : MapLayerType) :
  step (LayerClick k) (step (LayerClick k) s) = step (LayerClick k) s ∧
  onChange k (onChange k s) = onChange k s.
Proof.
  split; [|apply onChange_twice].
  destruct (click_result s k) as [Hs|(Hs & Ha & Hr)].
  - by rewrite !Hs.
  - rewrite Hs. simpl. rewrite Hr, onChange_twice. apply commit_same.
Qed.

(** ** Source updates before the sources are ready *)

Lemma tick_no_timers s : timers s = [] → tick s = with_now (S (now s)) s.
Proof. unfold tick. simpl. by intros ->. Qed.

Lemma run_wait_no_timers n s :
  timers s = [] → run (wait n) s = with_now (now s + n) s.
Proof.
  revert s. induction n as [|n IH]; intros s Hs.
  - rewrite Nat.add_0_r. by destruct s.
  - change (run (wait (S n)) s) with (run (wait n) (tick s)).
    rewrite tick_no_timers, IH by done.
    unfold with_now. simpl. f_equal. lia.
Qed.

Lemma run_app es1 es2 s : run (es1 ++ es2) s = run es2 (run es1 s).
Proof. apply foldl_app. Qed.

(** Below SourcesReady the update function refuses and touches nothing. *)
Lemma safelyUpdateMapSource_not_ready loaded ready name data s :
  loaded && ready = false →
  safelyUpdateMapSource loaded ready name data s = (false, s).
Proof.
  unfold safelyUpdateMapSource. intros H.
  destruct (map_current s); [|done].
  by destruct loaded, ready.
Qed.

(** Below SourcesReady the effect returns at its guard: no source is
    written and no timer is set. *)
Lemma densityEffect_not_ready s :
  isMapLoaded s && mapSourcesReady s = false → densityEffect s = s.
Proof.
  unfold densityEffect. intros H.
  by destruct (isMapLoaded s), (mapSourcesReady s).
Qed.

(** The retry timers are set only when the guard of the effect passed and
    the update itself failed. *)
Lemma densityEffect_retry_only_on_failure s :
  timers (densityEffect s) ≠ timers s →
  isMapLoaded s = true ∧ mapSourcesReady s = true ∧
  isLayerTransitioning s = false ∧ isDensityLoading s = false ∧
  ∃ fc, (safelyUpdateMapSource true true "density-grid" fc s).1 = false ∧
    ∃ id, timers (densityEffect s) =
      (timers s ++ [mkTimer id (now s + retryPeriod)
                             (RetryInterval true true false "density-grid" fc);
                    mkTimer (S id) (now s + retryWindow) (RetryGiveUp id)])%list.
Proof.
  unfold densityEffect.
  destruct (negb (isMapLoaded s) || negb (mapSourcesReady s)
            || isLayerTransitioning s || isDensityLoading s) eqn:Hg;
    [intros H; by destruct H|].
  apply orb_false_iff in Hg as [Hg Hd].
  apply orb_false_iff in Hg as [Hg Ht].
  apply orb_false_iff in Hg as [Hl Hr].
  apply negb_false_iff in Hl, Hr. rewrite Hl, Hr, Ht.
  assert (∀ fc, timers (safelyUpdateMapSource true true "density-grid" fc s).2 = timers s) as Hsame.
  { intros fc. unfold safelyUpdateMapSource.
    destruct (map_current s) as [m|]; [|done]. simpl. by destruct (sources m !! _). }
  destruct (densityData s) as [[|f data]|]; try (by rewrite Hsame).
  case_bool_decide; [done|].
  set (fc := DensityF <$> _).
  destruct (safelyUpdateMapSource true true "density-grid" fc s) as [updated s1] eqn:Hu.
  pose proof (Hsame fc) as Hs1. rewrite Hu in Hs1. simpl in Hs1.
  destruct updated; [by rewrite Hs1|].
  intros _. do 4 (split; [done|]). exists fc. rewrite Hu. split; [done|].
  exists (next_timer s1). simpl. rewrite Hs1, <- app_assoc. simpl.
  assert (now s1 = now s) as ->; [|done].
  revert Hu. unfold safelyUpdateMapSource.
  destruct (map_current s) as [m|]; simpl; [|by intros [= <-]].
  destruct (sources m !! _); by intros [= <-].
Qed.

Lemma loadedMap_density_grid : sources loadedMap !! "density-grid" = Some [].
Proof. reflexivity. Qed.

(** Data pushed before the map has loaded, at time [t0], and the map loading
    [n] ms later. *)
Lemma update_applied_on_load (d : list DensityGridFeature) (t0 n : nat) :
  let s0 := run (wait t0) mounted in
  let s1 := step (DensityQuery false (Some d)) s0 in
  let s2 := run (wait n ++ [MapLoad]) s1 in
  safelyUpdateMapSource (isMapLoaded s0) (mapSourcesReady s0)
    "density-grid" (DensityF <$> d) s0 = (false, s0) ∧
  s1 = with_density false (Some d) s0 ∧
  map_current s1 = None ∧ timers s1 = [] ∧
  now s2 = t0 + n ∧
  (map_current s2 ≫= λ m, sources m !! "density-grid")
    = Some (DensityF <$> List.filter validDensityFeature d).
Proof.
  intros s0 s1 s2.
  assert (s0 = with_now t0 mounted) as Hs0.
  { unfold s0. by rewrite run_wait_no_timers. }
  assert (s1 = with_density false (Some d) s0) as Hs1.
  { unfold s1. rewrite Hs0. reflexivity. }
  split; [by rewrite Hs0|]. split; [done|].
  split; [by rewrite Hs1, Hs0|]. split; [by rewrite Hs1, Hs0|].
  unfold s2. rewrite run_app, run_wait_no_timers by (by rewrite Hs1, Hs0).
  rewrite Hs1, Hs0.
  change (run [MapLoad] ?x) with (commit x (onLoad x) false).
  unfold commit.
  change (densityDepsChanged _ _) with true.
  change (visibilityDepsChanged _ _) with true.
  cbn [orb].
  set (s := onLoad _).
  assert (s = mkView (Some loadedMap) true true false false density false (Some d)
                     [mkTimer 0 (t0 + n + 500) ShowMapTimeout] 1 (t0 + n)) as Hs
    by reflexivity.
  clearbody s. subst s.
  unfold densityEffect. cbn [isMapLoaded mapSourcesReady isLayerTransitioning
    isDensityLoading densityData negb orb].
  assert (∀ fc, safelyUpdateMapSource true true "density-grid" fc
            (mkView (Some loadedMap) true true false false density false (Some d)
                    [mkTimer 0 (t0 + n + 500) ShowMapTimeout] 1 (t0 + n))
          = (true, mkView (Some (setData "density-grid" fc loadedMap)) true true false
                     false density false (Some d)
                     [mkTimer 0 (t0 + n + 500) ShowMapTimeout] 1 (t0 + n))) as Hupd.
  { intros fc. unfold safelyUpdateMapSource. cbn [map_current negb orb].
    by rewrite loadedMap_density_grid. }
  assert (∀ v, visibilityEffect v = v ∨ showMap v = true) as Hvis.
  { intros v. unfold visibilityEffect. destruct (map_current v); [|by left].
    destruct (showMap v); [by right|left]. by destruct (isMapLoaded v). }
  destruct d as [|f d].
  { rewrite Hupd. cbn [snd]. destruct (Hvis (mkView (Some (setData "density-grid" [] loadedMap))
      true true false false density false (Some []) [mkTimer 0 (t0 + n + 500) ShowMapTimeout]
      1 (t0 + n))) as [->|?]; [|done].
    split; [reflexivity|]. cbn [map_current mbind option_bind setData sources].
    by rewrite lookup_insert_eq. }
  set (valid := List.filter validDensityFeature (f :: d)).
  case_bool_decide as Hv.
  - apply length_zero_iff_nil in Hv. rewrite Hv.
    match goal with |- context [visibilityEffect ?v] =>
      destruct (Hvis v) as [->|?]; [|done] end.
    split; reflexivity.
  - rewrite Hupd.
    match goal with |- context [visibilityEffect ?v] =>
      destruct (Hvis v) as [->|?]; [|done] end.
    split; [reflexivity|]. cbn [map_current mbind option_bind setData sources].
    by rewrite lookup_insert_eq.
Qed.

(** Claim C5.  A source update made while the map is still initializing does not
    raise, does not touch the map and sets no timer: [safelyUpdateMapSource]
    returns [false] and the density effect returns at its guard, so nothing
    is scheduled and nothing gives up.  The data stays in the state of the
    component, and when the map reaches SourcesReady, however long after,
    the effect runs again and the valid features are set on the source.  The
    bounded retry (every 500 ms, cleared after 5000 ms) is set, in any state
    [s], only when the guard of the effect passed and the update itself
    failed. *)
Theorem C5_update_before_sources_ready
    (d : list DensityGridFeature) (t0 n : nat) (s : View) :
  let s0 := run (wait t0) mounted in
  let s1 := step (DensityQuery false (Some d)) s0 in
  let s2 := run (wait n ++ [MapLoad]) s1 in
  safelyUpdateMapSource (isMapLoaded s0) (mapSourcesReady s0)
    "density-grid" (DensityF <$> d) s0 = (false, s0) ∧
  s1 = with_density false (Some d) s0 ∧
  map_current s1 = None ∧ timers s1 = [] ∧
  now s2 = t0 + n ∧
  (map_current s2 ≫= λ m, sources m !! "density-grid")
    = Some (DensityF <$> List.filter validDensityFeature d) ∧
  (timers (densityEffect s) ≠ timers s →
   isMapLoaded s = true ∧ mapSourcesReady s = true ∧
   ∃ fc id,
     (safelyUpdateMapSource true true "density-grid" fc s).1 = false ∧
     timers (densityEffect s) =
       timers s ++ [mkTimer id (now s + retryPeriod)
                            (RetryInterval true true false "density-grid" fc);
                    mkTimer (S id) (now s + retryWindow) (RetryGiveUp id)]).
Proof.
  intros s0 s1 s2.
  destruct (update_applied_on_load d t0 n) as (H1 & H2 & H3 & H4 & H5 & H6).
  do 6 (split; [done|]).
  intros Hne.
  destruct (densityEffect_retry_only_on_failure s Hne)
    as (? & ? & _ & _ & fc & ? & id & ?).
  split; [done|]. split; [done|]. by exists fc, id.
Qed.

Lemma C5_witness :
  let s := mkView (Some (mkMap (only density) ∅)) true true true false density false
                  (Some [densityPlaceholder 0]) [] 0 0 in
  isMapLoaded s = true ∧ mapSourcesReady s = true ∧
  ∃ fc id,
    (safelyUpdateMapSource true true "density-grid" fc s).1 = false ∧
    timers (densityEffect s) =
      timers s ++ [mkTimer id (now s + retryPeriod)
                           (RetryInterval true true false "density-grid" fc);
                   mkTimer (S id) (now s + retryWindow) (RetryGiveUp id)].
Proof.
  intros s.
  apply (C5_update_before_sources_ready [] 0 0 s). vm_compute. discriminate.
Defined.

(** Data pushed while the map is initializing sets no retry timer, and is
    applied when the map loads 6 seconds later: there is no retry window
    after which the update is given up. *)
Lemma C5_no_retry_scheduled_no_deadline :
  let f := densityPlaceholder 0 in
  let s1 := run [DensityQuery false (Some [f])] mounted in
  let s2 := run (wait 6000 ++ [MapLoad]) s1 in
  map_current s1 = None ∧ timers s1 = [] ∧
  now s2 = 6000 ∧
  (map_current s2 ≫= λ m, sources m !! "density-grid") = Some [DensityF f].
Proof. vm_compute. done. Qed.

(** The bounded retry, on a map that lacks the source: the effect sets the
    interval and the timeout; the interval fires every 500 ms without
    effect; after 5000 ms both are gone and the map is as it was. *)
Example retry_gives_up_after_5000_ms :
  let m := mkMap (only density) ∅ in
  let s := mkView (Some m) true true true false density false
                  (Some [densityPlaceholder 0]) [] 0 0 in
  let s1 := densityEffect s in
  (tm_id <$> timers s1, tm_due <$> timers s1) = ([0; 1], [500; 5000]) ∧
  (tm_id <$> timers (run (wait 4999) s1), tm_due <$> timers (run (wait 4999) s1))
    = ([1; 0], [5000; 5000]) ∧
  timers (run (wait 5000) s1) = [] ∧
  map_current (run (wait 5000) s1) = Some m.
Proof. vm_compute. done. Qed.

(** When the source appears during the retry window, the next firing of the
    interval sets the data and clears the interval. *)
Example retry_succeeds_within_window :
  let f := densityPlaceholder 0 in
  let s := mkView (Some (mkMap (only density) ∅)) true true true false density false
                  (Some [f]) [] 0 0 in
  let s1 := run (wait 700) (densityEffect s) in
  let s2 := run (wait 300) (with_map (Some loadedMap) s1) in
  (map_current s2 ≫= λ m, sources m !! "density-grid") = Some [DensityF f] ∧
  tm_task <$> timers s2 = [RetryGiveUp 0].
Proof. vm_compute. done. Qed.


(** ** At most one layer kind is visible *)

Lemma visibleKinds_only m k : layout m = only k → visibleKinds m = [k].
Proof.
  unfold visibleKinds, kindVisible. intros ->. by destruct k.
Qed.

Lemma visibleKinds_hidden m : layout m = hidden → visibleKinds m = [].
Proof. unfold visibleKinds, kindVisible. by intros ->. Qed.

Lemma layoutOk_at_most_one m : layoutOk (layout m) → length (visibleKinds m) ≤ 1.
Proof.
  intros [H|[k H]].
  - rewrite visibleKinds_hidden by done. simpl. lia.
  - by rewrite (visibleKinds_only m k).
Qed.

Lemma refreshVisibility_layout a m : layout (refreshVisibility a m) = only a.
Proof. destruct m as [[] ?]. by destruct a. Qed.

Lemma refreshVisibility_sources a m : sources (refreshVisibility a m) = sources m.
Proof. reflexivity. Qed.

Lemma hideLayer_sources a m : sources (hideLayer a m) = sources m.
Proof. by destruct a. Qed.

Lemma hideLayer_layout a m :
  layoutOk (layout m) → layoutOk (layout (hideLayer a m)).
Proof.
  intros [H|[k H]]; destruct m as [y src]; simpl in H; subst y.
  - left. by destruct a.
  - destruct a, k; first [by left | by (right; eexists density) | by (right; eexists clusters) | by (right; eexists neighborhoods)].
Qed.

Lemma setData_layout name data m : layout (setData name data m) = layout m.
Proof. reflexivity. Qed.

Lemma setData_sources name data m :
  sourcesRegistered m → sourcesRegistered (setData name data m).
Proof.
  unfold sourcesRegistered, setData. cbn [sources]. intros (H1 & H2 & H3).
  repeat split; rewrite lookup_insert; case_decide; eauto.
Qed.

Lemma loadedMap_ok : sourcesRegistered loadedMap ∧ layout loadedMap = only density.
Proof. repeat split; by eexists. Qed.

(** ** The invariant of the controller *)

Lemma timersOk_core s s' :
  timers s' = timers s → next_timer s' = next_timer s → now s' = now s →
  timersOk s → timersOk s'.
Proof.
  intros Ht Hn Hnow [He Hi]. split; rewrite Ht; [|done].
  eapply Forall_impl; [exact He|]. unfold timerOk. intros t. by rewrite Hn, Hnow.
Qed.

Lemma inv_core s s' : core s' = core s → inv s → inv s'.
Proof.
  unfold core. intros [= Hm Hl Ht Hn Hnow] (Hto & [Hlo Hmap] & Hp).
  split; [by apply (timersOk_core s)|]. split; [split|].
  - rewrite Hl, Hm. exact Hlo.
  - rewrite Hm. exact Hmap.
  - unfold progress, settled. rewrite Hm, Ht. exact Hp.
Qed.

Lemma settled_true s :
  settled s = true ↔ ∀ t, t ∈ timers s → isTransitionTask (tm_task t) = false.
Proof.
  unfold settled. rewrite forallb_forall. split.
  - intros H t Ht. apply list_elem_of_In in Ht. apply negb_true_iff. by apply H.
  - intros H t Ht. apply list_elem_of_In in Ht. apply negb_true_iff. by apply H.
Qed.

Lemma settled_false s t :
  t ∈ timers s → isTransitionTask (tm_task t) = true → settled s = false.
Proof.
  intros Ht Htr. apply not_true_is_false. rewrite settled_true.
  intros H. rewrite (H t Ht) in Htr. discriminate.
Qed.

(** *** Writing the map *)

Lemma inv_with_map m s :
  timersOk s → sourcesRegistered m → layoutOk (layout m) →
  ((∃ k, layout m = only k) ∨ settled s = false) →
  inv (with_map (Some m) s).
Proof.
  intros Hto Hsrc Hlay Hpr. split; [|split].
  - by apply (timersOk_core s).
  - split; [intros _; by eexists|]. intros m' [= <-]. done.
  - intros m' [= <-]. exact Hpr.
Qed.

Lemma inv_setData name data m s :
  inv s → map_current s = Some m →
  inv (with_map (Some (setData name data m)) s).
Proof.
  intros Hi Hm. pose proof Hi as (Hto & [_ Hmap] & Hp).
  destruct (Hmap m Hm) as [Hsrc Hlay].
  apply inv_with_map; [done|by apply setData_sources|done|exact (Hp m Hm)].
Qed.

Lemma inv_refresh a m s :
  timersOk s → mapOk s → map_current s = Some m →
  inv (with_map (Some (refreshVisibility a m)) s).
Proof.
  intros Hto [_ Hmap] Hm.
  destruct (Hmap m Hm) as [Hsrc Hlay].
  apply inv_with_map; [done|done| |]; rewrite refreshVisibility_layout.
  - right. by exists a.
  - left. by exists a.
Qed.

(** *** The two effects *)

Lemma densityEffect_cases s :
  mapOk s →
  densityEffect s = s ∨
  ∃ m fc, map_current s = Some m ∧
          densityEffect s = with_map (Some (setData "density-grid" fc m)) s.
Proof.
  intros [Hlo Hmap]. unfold densityEffect.
  destruct (negb (isMapLoaded s) || negb (mapSourcesReady s)
            || isLayerTransitioning s || isDensityLoading s) eqn:Hg; [by left|].
  apply orb_false_iff in Hg as [Hg _].
  apply orb_false_iff in Hg as [Hg _].
  apply orb_false_iff in Hg as [Hl Hr].
  apply negb_false_iff in Hl, Hr. rewrite Hl, Hr.
  destruct (Hlo Hl) as [m Hm]. destruct (Hmap m Hm) as [([x Hx] & _) _].
  assert (∀ fc, safelyUpdateMapSource true true "density-grid" fc s
                = (true, with_map (Some (setData "density-grid" fc m)) s)) as Hupd.
  { intros fc. unfold safelyUpdateMapSource. by rewrite Hm, Hx. }
  destruct (densityData s) as [[|f d]|].
  - right. exists m, []. by rewrite Hupd.
  - case_bool_decide; [by left|]. right. eexists m, _. by rewrite Hupd.
  - right. exists m, []. by rewrite Hupd.
Qed.

Lemma visibilityEffect_cases s :
  visibilityEffect s = s ∨
  ∃ m, map_current s = Some m ∧
       visibilityEffect s = with_map (Some (refreshVisibility (activeLayer s) m)) s.
Proof.
  unfold visibilityEffect. destruct (map_current s) as [m|]; [|by left].
  destruct (_ || _); [by left|]. right. by exists m.
Qed.

Lemma inv_densityEffect s : inv s → inv (densityEffect s).
Proof.
  intros Hi. pose proof Hi as (_ & Hmo & _).
  destruct (densityEffect_cases s Hmo) as [->|(m & fc & Hm & ->)]; [done|].
  by apply inv_setData.
Qed.

Lemma inv_visibilityEffect s : inv s → inv (visibilityEffect s).
Proof.
  intros Hi. destruct (visibilityEffect_cases s) as [->|(m & Hm & ->)]; [done|].
  destruct Hi as (? & ? & _). by apply inv_refresh.
Qed.

Create HintDb view.
#[local] Hint Resolve inv_densityEffect inv_visibilityEffect : view.

Lemma inv_commit before after b : inv after → inv (commit before after b).
Proof.
  intros Hi. unfold commit.
  destruct (_ || _), (visibilityDepsChanged _ _); auto with view.
Qed.

(** The effects leave the timers, the clock and the loaded flag alone. *)

Lemma frame_trans s1 s2 s3 : frame s1 s2 → frame s2 s3 → frame s1 s3.
Proof. unfold frame. intros (?&?&?&?) (?&?&?&?). repeat split; congruence. Qed.

Lemma frame_densityEffect s : mapOk s → frame s (densityEffect s).
Proof.
  intros Hmo. by destruct (densityEffect_cases s Hmo) as [->|(m & fc & Hm & ->)].
Qed.

Lemma frame_visibilityEffect s : frame s (visibilityEffect s).
Proof. by destruct (visibilityEffect_cases s) as [->|(m & Hm & ->)]. Qed.

Lemma frame_commit before after b : mapOk after → frame after (commit before after b).
Proof.
  intros Hmo. unfold commit.
  destruct (_ || _), (visibilityDepsChanged _ _); try done.
  - eapply frame_trans; [by apply frame_densityEffect|apply frame_visibilityEffect].
  - by apply frame_densityEffect.
  - apply frame_visibilityEffect.
Qed.

(** *** Setting and clearing timers *)

Lemma elem_of_List_filter {A} (f : A → bool) (l : list A) x :
  x ∈ List.filter f l ↔ f x = true ∧ x ∈ l.
Proof. rewrite !list_elem_of_In, filter_In. tauto. Qed.

Lemma NoDup_ids_filter f (l : list Timer) :
  NoDup (tm_id <$> l) → NoDup (tm_id <$> List.filter f l).
Proof.
  induction l as [|t l IH]; simpl; [done|].
  rewrite NoDup_cons. intros [Hnin Hnd].
  destruct (f t); simpl; [|by apply IH].
  apply NoDup_cons. split; [|by apply IH].
  intros Hin. apply Hnin.
  apply list_elem_of_fmap in Hin as (t' & Hid & Ht').
  apply elem_of_List_filter in Ht' as [_ Ht'].
  apply list_elem_of_fmap. by exists t'.
Qed.

Lemma NoDup_ids_inj (l : list Timer) t t' :
  NoDup (tm_id <$> l) → t ∈ l → t' ∈ l → tm_id t = tm_id t' → t = t'.
Proof.
  intros Hnd Ht Ht' Hid.
  apply list_elem_of_lookup in Ht as [i Hi].
  apply list_elem_of_lookup in Ht' as [j Hj].
  assert (i = j) as ->; [|congruence].
  apply (NoDup_lookup (tm_id <$> l) i j (tm_id t)); [done| |].
  - by rewrite list_lookup_fmap, Hi.
  - by rewrite list_lookup_fmap, Hj, Hid.
Qed.

Lemma timersOk_clearTimer id s : timersOk s → timersOk (clearTimer id s).
Proof.
  intros [He Hi]. split; simpl.
  - apply Forall_forall. intros t Ht. apply elem_of_List_filter in Ht as [_ Ht].
    rewrite Forall_forall in He. exact (He t Ht).
  - by apply NoDup_ids_filter.
Qed.

Lemma timersOk_setTimer task delay s :
  timersOk s → admitted task delay → timersOk (setTimer task delay s).
Proof.
  intros [He Hi] Hadm. rewrite Forall_forall in He. split; simpl.
  - apply Forall_forall. intros t. rewrite elem_of_app, list_elem_of_singleton.
    unfold timerOk. simpl. intros [Ht| ->].
    + destruct (He t Ht) as (? & ? & ?). repeat split; [lia|done|done].
    + simpl. repeat split; [lia|lia|]. destruct task; try done.
      destruct Hadm. split; [done|lia].
  - rewrite fmap_app. simpl. apply NoDup_app. split; [done|].
    split; [|apply NoDup_singleton].
    intros i Hin ->%list_elem_of_singleton.
    apply list_elem_of_fmap in Hin as (t & Hid & Ht).
    destruct (He t Ht) as (? & _). lia.
Qed.

(** *** The handlers *)

Lemma progress_pending task delay s :
  isTransitionTask task = true → progress (setTimer task delay s).
Proof.
  intros Htr m _. right.
  apply (settled_false _ (mkTimer (next_timer s) (now s + delay) task)); [|done].
  simpl. apply elem_of_app. right. by left.
Qed.

Lemma progress_setTimer task delay s : progress s → progress (setTimer task delay s).
Proof.
  intros Hp m Hm. destruct (Hp m Hm) as [?|Hs]; [by left|right].
  apply not_true_is_false. rewrite settled_true. intros Hall.
  apply not_true_iff_false in Hs. apply Hs. apply settled_true.
  intros t Ht. apply Hall. simpl. apply elem_of_app. by left.
Qed.

Lemma inv_onLoad s : inv s → inv (onLoad s).
Proof.
  intros Hi. unfold onLoad. destruct (isMapLoaded s); [done|].
  destruct loadedMap_ok as [Hsrc Hlay]. destruct Hi as (Hto & _ & _).
  assert (inv (with_map (Some loadedMap) s)) as (Hto' & [_ Hmap'] & Hp').
  { apply inv_with_map; [done|done| |]; rewrite Hlay; [right|left]; by exists density. }
  split; [|split].
  - apply timersOk_setTimer; [|done]. by apply (timersOk_core (with_map (Some loadedMap) s)).
  - split; [intros _; by eexists|exact Hmap'].
  - apply progress_setTimer. exact Hp'.
Qed.

Lemma inv_onChange layer s : inv s → isMapLoaded s = true → inv (onChange layer s).
Proof.
  intros (Hto & [Hlo Hmap] & Hp) Hl. unfold onChange.
  case_bool_decide; [done|]. rewrite Hl.
  split; [|split].
  - apply timersOk_setTimer; [|done]. by apply (timersOk_core s).
  - destruct (Hlo Hl) as [m Hm]. split; simpl; rewrite Hm; [intros _; by eexists|].
    intros m' [= <-]. destruct (Hmap m Hm) as [Hsrc Hlay].
    split; [|by apply hideLayer_layout].
    unfold sourcesRegistered in *. by rewrite hideLayer_sources.
  - by apply progress_pending.
Qed.

Lemma inv_with_density loading data s : inv s → inv (with_density loading data s).
Proof. by apply inv_core. Qed.

(** *** Firing a timer *)

Lemma forceRefreshSources_cases a s :
  mapOk s →
  (map_current s = None ∧ forceRefreshSources true a s = s) ∨
  ∃ m, map_current s = Some m ∧
       forceRefreshSources true a s = with_map (Some (refreshVisibility a m)) s.
Proof.
  intros [_ Hmap]. unfold forceRefreshSources.
  destruct (map_current s) as [m|]; [|by left]. right. exists m. split; [done|].
  destruct (Hmap m eq_refl) as [([? ->] & [? ->] & [? ->]) _]. done.
Qed.

Lemma find_fired id s t :
  List.find (λ t, Nat.eqb (tm_id t) id && Nat.leb (tm_due t) (now s)) (timers s) = Some t →
  t ∈ timers s ∧ tm_id t = id ∧ tm_due t ≤ now s.
Proof.
  intros H. apply find_some in H as [Hin Hc]. apply andb_prop in Hc as [Hid Hdue].
  apply Nat.eqb_eq in Hid. apply Nat.leb_le in Hdue. by rewrite list_elem_of_In.
Qed.

Lemma find_not_fired id s t :
  List.find (λ t, Nat.eqb (tm_id t) id && Nat.leb (tm_due t) (now s)) (timers s) = None →
  t ∈ timers s → tm_id t = id → now s < tm_due t.
Proof.
  intros H Hin Hid. apply list_elem_of_In in Hin.
  pose proof (find_none _ _ H t Hin) as Hc. simpl in Hc.
  apply andb_false_iff in Hc as [Hc|Hc].
  - apply Nat.eqb_neq in Hc. done.
  - apply Nat.leb_gt in Hc. done.
Qed.

(** The callback of a pending timer, run once the timer is cleared. *)
Lemma runTask_spec t s :
  inv s → t ∈ timers s →
  let s1 := clearTimer (tm_id t) s in
  inv (runTask t s1) ∧ frame s1 (runTask t s1).
Proof.
  intros (Hto & Hmo & Hp) Ht s1.
  assert (timersOk s1) as Hto1 by (by apply timersOk_clearTimer).
  assert (mapOk s1) as Hmo1 by (by destruct Hmo).
  pose proof (to_each s Hto) as He. rewrite Forall_forall in He.
  destruct (He t Ht) as (_ & _ & Htask). unfold runTask.
  destruct (tm_task t) as [|loaded a| | |] eqn:Etask; try done.
  - split; [|done]. apply (inv_core s1); [done|].
    split; [done|]. split; [done|].
    intros m Hm. destruct (Hp m Hm) as [?|Hs]; [by left|right].
    apply not_true_is_false. intros Hs1. apply not_true_iff_false in Hs.
    apply Hs, settled_true. intros t' Ht'.
    destruct (decide (tm_id t' = tm_id t)) as [Heq|Hne].
    + assert (t' = t) as -> by (apply (NoDup_ids_inj (timers s));
        [apply Hto|done|done|congruence]).
      by rewrite Etask.
    + rewrite settled_true in Hs1. apply Hs1.
      apply elem_of_List_filter. split; [|done].
      by apply negb_true_iff, Nat.eqb_neq.
  - destruct Htask as [-> _].
    destruct (forceRefreshSources_cases a s1 Hmo1) as [[Hnone ->]|(m & Hm & ->)].
    + split; [|done]. apply (inv_core s1); [done|].
      split; [done|]. split; [done|]. intros m Hm. congruence.
    + split; [|done].
      apply (inv_core (with_map (Some (refreshVisibility a m)) s1)); [done|].
      by apply inv_refresh.
Qed.

(** Firing a timer removes it, and nothing else, from the pending timers. *)
Lemma fireTimer_spec id s :
  inv s →
  inv (fireTimer id s) ∧
  next_timer (fireTimer id s) = next_timer s ∧
  now (fireTimer id s) = now s ∧
  isMapLoaded (fireTimer id s) = isMapLoaded s ∧
  (∀ t, t ∈ timers (fireTimer id s) → t ∈ timers s) ∧
  (∀ t, t ∈ timers (fireTimer id s) → tm_id t = id → now s < tm_due t).
Proof.
  intros Hi. unfold fireTimer.
  destruct (List.find _ (timers s)) as [t|] eqn:Hfind.
  2:{ do 5 (split; [done|]). intros t Ht Hid. by apply (find_not_fired id s t). }
  apply find_fired in Hfind as (Ht & Hid & Hdue).
  destruct (runTask_spec t s Hi Ht) as [Hi2 Hf2]. rewrite Hid in Hi2, Hf2.
  set (s1 := clearTimer id s) in *.
  assert (∀ t', t' ∈ timers s1 → t' ∈ timers s ∧ tm_id t' ≠ id) as Hsub.
  { intros t' Ht'. apply elem_of_List_filter in Ht' as [Hne Ht'].
    split; [done|]. apply negb_true_iff, Nat.eqb_neq in Hne. done. }
  pose proof (frame_commit s1 (runTask t s1) false (proj1 (proj2 Hi2))) as Hf3.
  destruct (frame_trans _ _ _ Hf2 Hf3) as (Ht3 & Hn3 & Hnow3 & Hl3).
  split; [by apply inv_commit|]. do 3 (split; [done|]). split.
  - intros t'. rewrite Ht3. intros Ht'. by apply Hsub.
  - intros t'. rewrite Ht3. intros Ht' Heq. by destruct (Hsub t' Ht').
Qed.

(** *** A millisecond passes *)

Lemma fire_all ids s :
  inv s → (∀ t, t ∈ timers s → tm_due t ≤ now s → tm_id t ∈ ids) →
  let s' := foldl (λ s id, fireTimer id s) s ids in
  inv s' ∧ quiet s' ∧ now s' = now s ∧ isMapLoaded s' = isMapLoaded s ∧
  (∀ t, t ∈ timers s' → t ∈ timers s).
Proof.
  revert s. induction ids as [|id ids IH]; intros s Hi Hdue; simpl.
  - split; [done|]. split; [|done]. apply Forall_forall. intros t Ht.
    destruct (decide (now s < tm_due t)) as [|Hn]; [done|].
    assert (tm_id t ∈ []) as Habs by (apply Hdue; [done|lia]).
    by apply elem_of_nil in Habs.
  - destruct (fireTimer_spec id s Hi) as (Hi1 & _ & Hnow1 & Hl1 & Hsub1 & Hid1).
    destruct (IH (fireTimer id s) Hi1) as (Hi2 & Hq2 & Hnow2 & Hl2 & Hsub2).
    { intros t Ht Hd. rewrite Hnow1 in Hd.
      specialize (Hdue t (Hsub1 t Ht) Hd). apply elem_of_cons in Hdue as [Heq|?]; [|done].
      specialize (Hid1 t Ht Heq). lia. }
    split; [done|]. split; [done|]. split; [congruence|]. split; [congruence|].
    intros t Ht. by apply Hsub1, Hsub2.
Qed.

Lemma tick_spec s :
  inv s → quiet s →
  inv (tick s) ∧ quiet (tick s) ∧ now (tick s) = S (now s) ∧
  isMapLoaded (tick s) = isMapLoaded s ∧
  (∀ t, t ∈ timers (tick s) → t ∈ timers s).
Proof.
  intros (Hto & Hmo & Hp) Hq. unfold tick.
  set (s1 := with_now (S (now s)) s).
  assert (inv s1) as Hi1.
  { split; [|split]; [|by destruct Hmo|exact Hp].
    destruct Hto as [He Hnd]. split; [|done].
    unfold quiet in Hq. rewrite Forall_forall in He, Hq.
    apply Forall_forall. intros t Ht. specialize (Hq t Ht).
    destruct (He t Ht) as (? & ? & Htask). unfold timerOk. simpl.
    repeat split; [done|lia|]. destruct (tm_task t); try done.
    destruct Htask. split; [done|lia]. }
  apply (fire_all _ s1 Hi1). intros t Ht Hd.
  apply list_elem_of_fmap. exists t. split; [done|].
  apply elem_of_List_filter. split; [|done]. by apply Nat.leb_le.
Qed.

(** *** Every event *)

Lemma quiet_frame s s' : frame s s' → quiet s → quiet s'.
Proof. unfold quiet. intros (-> & _ & -> & _). done. Qed.

Lemma quiet_setTimer task delay s :
  0 < delay → quiet s → quiet (setTimer task delay s).
Proof.
  unfold quiet. simpl. intros Hd Hq. apply Forall_app. split; [done|].
  apply Forall_singleton. simpl. lia.
Qed.

Lemma step_spec e s :
  inv s → quiet s → inv (step e s) ∧ quiet (step e s).
Proof.
  intros Hi Hq. destruct e as [|layer| |loading data|]; simpl.
  - assert (inv (onLoad s)) as Hi1 by (by apply inv_onLoad).
    split; [by apply inv_commit|].
    apply (quiet_frame (onLoad s)); [apply frame_commit, Hi1|].
    unfold onLoad. destruct (isMapLoaded s); [done|]. by apply quiet_setTimer; [lia|].
  - destruct (isMapLoaded s) eqn:Hl; simpl; [|done].
    destruct (showMap s); [|done].
    assert (inv (onChange layer s)) as Hi1 by (by apply inv_onChange).
    split; [by apply inv_commit|].
    apply (quiet_frame (onChange layer s)); [apply frame_commit, Hi1|].
    unfold onChange. case_bool_decide; [done|]. by apply quiet_setTimer; [lia|].
  - destruct (isMapLoaded s) eqn:Hl; simpl; [|done].
    destruct (showMap s); [|done].
    destruct Hi as (Hto & Hmo & Hp).
    assert (inv (forceRefreshSources true (activeLayer s) s) ∧
            frame s (forceRefreshSources true (activeLayer s) s)) as [Hi1 Hf1].
    { destruct (forceRefreshSources_cases (activeLayer s) s Hmo)
        as [[_ ->]|(m & Hm & ->)]; [done|].
      split; [by apply inv_refresh|done]. }
    split; [by apply inv_commit|].
    apply (quiet_frame s); [|done].
    eapply frame_trans; [exact Hf1|apply frame_commit, Hi1].
  - assert (inv (with_density loading data s)) as Hi1 by (by apply inv_with_density).
    split; [by apply inv_commit|].
    by apply (quiet_frame (with_density loading data s)); [apply frame_commit, Hi1|].
  - by destruct (tick_spec s Hi Hq) as (? & ? & _).
Qed.

Lemma inv_mounted : inv mounted ∧ quiet mounted.
Proof.
  split; [|by apply Forall_nil]. split; [|split].
  - split; [by apply Forall_nil|apply NoDup_nil_2].
  - by split.
  - by intros m.
Qed.

Lemma run_spec events s :
  inv s → quiet s → inv (run events s) ∧ quiet (run events s).
Proof.
  revert s. induction events as [|e events IH]; intros s Hi Hq; [done|].
  destruct (step_spec e s Hi Hq) as [Hi1 Hq1]. by apply (IH (step e s)).
Qed.

Lemma wait_spec n s :
  inv s → quiet s →
  now (run (wait n) s) = now s + n ∧
  isMapLoaded (run (wait n) s) = isMapLoaded s ∧
  (∀ t, t ∈ timers (run (wait n) s) → t ∈ timers s).
Proof.
  revert s. induction n as [|n IH]; intros s Hi Hq.
  - split; [by rewrite Nat.add_0_r|done].
  - change (run (wait (S n)) s) with (run (wait n) (tick s)).
    destruct (tick_spec s Hi Hq) as (Hi1 & Hq1 & Hnow1 & Hl1 & Hsub1).
    destruct (IH (tick s) Hi1 Hq1) as (Hnow2 & Hl2 & Hsub2).
    split; [lia|]. split; [congruence|]. intros t Ht. by apply Hsub1, Hsub2.
Qed.

(** Once 300 ms have passed without a click, no transition is pending. *)
Lemma settled_after_300 s :
  inv s → quiet s → settled (run (wait 300) s) = true.
Proof.
  intros Hi Hq. apply settled_true. intros t Ht.
  destruct (wait_spec 300 s Hi Hq) as (Hnow & _ & Hsub).
  destruct (run_spec (wait 300) s Hi Hq) as [_ Hq'].
  unfold quiet in Hq'. rewrite Forall_forall in Hq'. specialize (Hq' t Ht).
  destruct Hi as ([He _] & _ & _). rewrite Forall_forall in He.
  destruct (He t (Hsub t Ht)) as (_ & _ & Htask).
  destruct (tm_task t); try done. destruct Htask. lia.
Qed.

(** Claim C1.  From the mounted component, after any sequence of events (clicks
    on the layer controls at any pace, on the refresh button, the map
    loading, data arriving, time passing): the layers that are visible on the map are of at most one kind;
    and once the transition delays have elapsed (300 ms without a further
    click) no transition is pending and, if the map is loaded, the layers of
    exactly one kind are visible and all others are hidden. *)
Theorem C1_one_layer_kind_visible (events : list Event) :
  let s := run events mounted in
  let s' := run (wait 300) s in
  (∀ m, map_current s = Some m → length (visibleKinds m) ≤ 1) ∧
  settled s' = true ∧
  (isMapLoaded s = true →
   ∃ m k, map_current s' = Some m ∧ layout m = only k ∧ visibleKinds m = [k]).
Proof.
  intros s s'.
  destruct inv_mounted as [Hi0 Hq0].
  destruct (run_spec events mounted Hi0 Hq0) as [Hi Hq]. fold s in Hi, Hq.
  destruct (run_spec (wait 300) s Hi Hq) as [Hi' Hq']. fold s' in Hi', Hq'.
  pose proof (settled_after_300 s Hi Hq) as Hs. fold s' in Hs.
  split; [|split; [done|]].
  - intros m Hm. destruct Hi as (_ & [_ Hmap] & _).
    apply layoutOk_at_most_one. by apply Hmap.
  - intros Hl. destruct (wait_spec 300 s Hi Hq) as (_ & Hl' & _). fold s' in Hl'.
    destruct Hi' as (_ & [Hlo' _] & Hp').
    destruct Hlo' as [m Hm]; [congruence|].
    destruct (Hp' m Hm) as [[k Hk]|?]; [|congruence].
    exists m, k. split; [done|]. split; [done|]. by apply visibleKinds_only.
Qed.

Lemma C1_witness :
  let events := MapLoad :: wait 500 ++ [LayerClick clusters] ++ wait 100
                ++ [LayerClick neighborhoods] in
  let s := run events mounted in
  ∃ m k, map_current (run (wait 300) s) = Some m ∧ layout m = only k ∧
         visibleKinds m = [k].
Proof.
  intros events s.
  apply (C1_one_layer_kind_visible events). vm_compute. reflexivity.
Defined.

(** Every handler, callback and effect, taken alone, keeps the layers of at
    most one kind visible: this also covers the states in between a timer
    callback and the effects that React runs after it. *)
Lemma every_block_keeps_one_kind (events : list Event) :
  let s := run events mounted in
  let oneKind x := ∀ m, map_current x = Some m → length (visibleKinds m) ≤ 1 in
  oneKind (onLoad s) ∧
  (∀ layer, isMapLoaded s = true → oneKind (onChange layer s)) ∧
  (∀ t, t ∈ timers s → oneKind (runTask t (clearTimer (tm_id t) s))) ∧
  oneKind (densityEffect s) ∧ oneKind (visibilityEffect s).
Proof.
  intros s oneKind.
  destruct inv_mounted as [Hi0 Hq0].
  destruct (run_spec events mounted Hi0 Hq0) as [Hi _]. fold s in Hi.
  assert (∀ x, inv x → oneKind x) as Hone.
  { intros x (_ & [_ Hmap] & _) m Hm. apply layoutOk_at_most_one. by apply Hmap. }
  split; [by apply Hone, inv_onLoad|].
  split; [intros layer Hl; by apply Hone, inv_onChange|].
  split; [intros t Ht; by apply Hone, (runTask_spec t s)|].
  split; apply Hone; [by apply inv_densityEffect|by apply inv_visibilityEffect].
Qed.

(** Inside one refresh the six layout properties are written one after the
    other, so between two writes the layout can flag layers of two kinds:
    here the density layer is already set visible while the neighborhood
    layers are not yet hidden.  No event is handled, and the map is not
    painted, between two writes of the same callback. *)
Remark writes_within_a_refresh :
  let m := mkMap (only neighborhoods) ∅ in
  visibleKinds (setLayoutProperty density_grid_layer true m) = [density; neighborhoods] ∧
  visibleKinds (refreshVisibility density m) = [density].
Proof. split; reflexivity. Qed.

(** After two quick switches the timeout of the second click runs the
    [forceRefreshSources] that its render captured, with the layer that was
    active then: the layers of one kind are visible, but of clusters, while
    the active layer is neighborhoods. *)
Example rapid_switch_shows_captured_layer :
  let events := MapLoad :: wait 500 ++ [LayerClick clusters] ++ wait 100
                ++ [LayerClick neighborhoods] ++ wait 300 in
  let s := run events mounted in
  activeLayer s = neighborhoods ∧ isLayerTransitioning s = false ∧ timers s = [] ∧
  (visibleKinds <$> map_current s) = Some [clusters].
Proof. vm_compute. done. Qed.


(** * Properties of the layer data cache *)

Section CacheProperties.

Import UseGeographic.

Context {Data : Type}.
Implicit Types (c : Cache Data) (q : LayerQuery) (f : Fetch) (ev : CacheEvent Data).

(** ** The data of an entry is retained while it is fetched again *)

Lemma retained_issue q q' d c : retained q d c → retained q d (issue q' c).
Proof. by intros (e & ? & ? & ?); exists e. Qed.

Lemma retained_refetch q q' d c : retained q d c → retained q d (refetch q' c).
Proof.
  intros (e & He & Hd & Hs). unfold refetch.
  destruct (decide (q' = q)) as [->|Hne].
  - rewrite He, Hs. by exists e.
  - destruct (entries c !! q') as [e'|]; [destruct (status e')|];
      try (by exists e); apply retained_issue; exists e;
      (split; [|done]); unfold with_entry; simpl; by rewrite lookup_insert_ne.
Qed.

Lemma retained_get q q' d c : retained q d c → retained q d (UseGeographic.get q' c).
Proof.
  intros H. unfold UseGeographic.get.
  destruct (entries c !! q') as [e'|]; [destruct (status e')|];
    try done; try (by apply retained_refetch).
  destruct (isStale _ _); [by apply retained_refetch|done].
Qed.

Lemma retained_step q d ev c :
  resolves q ev = false → retained q d c → retained q d (cacheStep ev c).
Proof.
  intros Hev H. destruct ev as [q'|q'|q'|f outcome|ms]; simpl.
  - by apply retained_get.
  - by apply retained_refetch.
  - destruct H as (e & He & Hd & Hs). unfold retained, invalidate. cbn [entries].
    destruct (decide (q' = q)) as [->|Hne].
    + eexists. rewrite lookup_alter_eq, He. simpl. done.
    + exists e. by rewrite lookup_alter_ne.
  - simpl in Hev. apply bool_decide_eq_false in Hev.
    destruct H as (e & He & Hd & Hs). unfold resolve.
    case_bool_decide; [|by exists e]. simpl.
    destruct (entries c !! f_query f) as [e'|]; [|by exists e].
    destruct outcome as [d'|]; [|case_bool_decide];
      try apply retained_issue; exists e; (split; [|done]);
      unfold with_entry; simpl; by rewrite lookup_insert_ne.
  - destruct H as (e & ? & ? & ?). by exists e.
Qed.

Lemma retained_run q d events c :
  forallb (λ ev, negb (resolves q ev)) events = true →
  retained q d c → retained q d (cacheRun events c).
Proof.
  revert c. induction events as [|ev events IH]; intros c Hev H; [done|].
  simpl in Hev. apply andb_prop in Hev as [Hev1 Hev2].
  apply negb_true_iff in Hev1.
  apply (IH (cacheStep ev c)); [done|]. by apply retained_step.
Qed.

(** Claim C6.  If a Ready entry for [q] holds [d] and [q] is fetched again, then
    whatever else happens before that fetch resolves, a read of [q] returns
    [d], and so does the hook (whatever it returned before): the entry is
    Pending but never without its data. *)
Theorem C6_stale_retention
    (c : Cache Data) (q : LayerQuery) (e : CacheEntry Data) (d : Data)
    (events : list (CacheEvent Data)) (previousData : option Data) :
  entries c !! q = Some e → status e = Ready → data e = Some d →
  forallb (λ ev, negb (resolves q ev)) events = true →
  let c' := cacheRun (Refetch q :: events) c in
  read q c' = Some d ∧
  hookData q previousData c' = Some d ∧
  ∃ e', entries c' !! q = Some e' ∧ status e' = Pending.
Proof.
  intros He Hs Hd Hev c'.
  assert (retained q d c') as (e' & He' & Hd' & Hs').
  { apply (retained_run q d events (refetch q c)); [done|].
    unfold refetch. rewrite He, Hs.
    apply retained_issue. exists (pending e). unfold with_entry.
    cbn [entries]. by rewrite lookup_insert_eq. }
  assert (read q c' = Some d) as Hread.
  { unfold read. by rewrite He'. }
  split; [done|]. split; [|by exists e'].
  unfold hookData. by rewrite Hread.
Qed.

Lemma filter_none {A} (P : A → Prop) `{∀ x, Decision (P x)} (l : list A) :
  (∀ x, x ∈ l → ¬ P x) → filter P l = [].
Proof.
  intros Hl. destruct (filter P l) as [|a k] eqn:E; [done|].
  assert (a ∈ filter P l) as Ha by (rewrite E; left).
  apply list_elem_of_filter in Ha as [HP Ha]. by destruct (Hl a Ha).
Qed.

Lemma length_filter_filter {A} (P R : A → Prop)
    `{∀ x, Decision (P x)} `{∀ x, Decision (R x)} (l : list A) :
  length (filter P (filter R l)) ≤ length (filter P l).
Proof.
  induction l as [|a l IH]; [done|]. rewrite !filter_cons.
  destruct (decide (R a)); [rewrite filter_cons|];
    destruct (decide (P a)); simpl; lia.
Qed.

Lemma two_in_list {A} (x y : A) (l : list A) :
  x ∈ l → y ∈ l → x ≠ y → 2 ≤ length l.
Proof.
  intros Hx Hy Hne. destruct l as [|a [|b l]]; simpl; [|exfalso|lia].
  - by apply elem_of_nil in Hx.
  - apply list_elem_of_singleton in Hx, Hy. congruence.
Qed.

(** ** At most one fetch in flight for a query *)

Lemma dedup_empty : dedup (@emptyCache Data).
Proof.
  split; [intros f Hf; by apply elem_of_nil in Hf|].
  intros q. unfold inflightFor. simpl. lia.
Qed.

Lemma none_in_flight q c :
  dedup c → (∀ e, entries c !! q = Some e → status e ≠ Pending) →
  inflightFor q c = [].
Proof.
  intros [Hp _] Hq. unfold inflightFor. apply filter_none.
  intros f Hf Hfq. destruct (Hp f Hf) as (e & He & Hs). subst q.
  by apply (Hq e).
Qed.

(** Issuing a fetch for a query that has none in flight, with its entry made
    Pending. *)
Lemma dedup_issue q e c :
  dedup c → inflightFor q c = [] → status e = Pending →
  dedup (issue q (with_entry q e c)).
Proof.
  intros [Hp Hs] Hnone He. split.
  - intros f. simpl. rewrite elem_of_app, list_elem_of_singleton.
    intros [Hf| ->]; simpl.
    + destruct (decide (f_query f = q)) as [->|Hne].
      * rewrite lookup_insert_eq. eauto.
      * rewrite lookup_insert_ne by done. by apply Hp.
    + rewrite lookup_insert_eq. eauto.
  - intros q'. unfold inflightFor in *. simpl. rewrite filter_app.
    rewrite length_app. destruct (decide (q = q')) as [<-|Hne].
    + rewrite Hnone. rewrite filter_cons_True by done. simpl. lia.
    + rewrite filter_cons_False by done. simpl. specialize (Hs q'). lia.
Qed.

Lemma dedup_refetch q c : dedup c → dedup (refetch q c).
Proof.
  intros Hd. unfold refetch.
  destruct (entries c !! q) as [e|] eqn:He.
  - destruct (status e) eqn:Hs; [done| |];
      apply dedup_issue; try done; apply none_in_flight; try done;
      intros e' He'; congruence.
  - apply dedup_issue; try done. apply none_in_flight; [done|].
    intros e' He'; congruence.
Qed.

Lemma dedup_get q c : dedup c → dedup (UseGeographic.get q c).
Proof.
  intros Hd. unfold UseGeographic.get.
  destruct (entries c !! q) as [e|]; [destruct (status e)|];
    try done; try (by apply dedup_refetch).
  destruct (isStale _ _); [by apply dedup_refetch|done].
Qed.

Lemma dedup_invalidate q c : dedup c → dedup (invalidate q c).
Proof.
  intros [Hp Hs]. split; [|done].
  intros f Hf. destruct (Hp f Hf) as (e & He & Hst). unfold invalidate. cbn [entries].
  destruct (decide (q = f_query f)) as [->|Hne].
  - eexists. rewrite lookup_alter_eq, He. simpl. done.
  - exists e. by rewrite lookup_alter_ne.
Qed.

Lemma dedup_resolve f outcome c : dedup c → dedup (resolve f outcome c).
Proof.
  intros Hd. unfold resolve. case_bool_decide as Hin; [|done].
  set (c1 := mkCache _ _ _ _ _).
  assert (dedup c1) as Hd1.
  { destruct Hd as [Hp Hs]. split.
    - intros g Hg. apply list_elem_of_filter in Hg as [_ Hg]. by apply Hp.
    - intros q. unfold inflightFor. simpl.
      etrans; [apply length_filter_filter|apply (Hs q)]. }
  assert (inflightFor (f_query f) c1 = []) as Hnone.
  { apply filter_none. intros g Hg Hq. simpl in Hg.
    apply list_elem_of_filter in Hg as [Hne Hg].
    pose proof (dd_single Hd (f_query f)) as Hle.
    assert (2 ≤ length (inflightFor (f_query f) c)); [|lia].
    apply (two_in_list f g); [| |done]; by apply list_elem_of_filter. }
  assert (∀ e, status e ≠ Pending →
               dedup (with_entry (f_query f) e c1)) as Hset.
  { intros e He. destruct Hd1 as [Hp Hs]. split; [|done].
    intros g Hg. simpl. destruct (decide (f_query g = f_query f)) as [Heq|Hne].
    - exfalso. assert (g ∈ inflightFor (f_query f) c1) as Hgin
        by (by apply list_elem_of_filter).
      rewrite Hnone in Hgin. by apply elem_of_nil in Hgin.
    - rewrite lookup_insert_ne by done. by apply Hp. }
  destruct (entries c1 !! f_query f) as [e|]; [|done].
  destruct outcome as [d|]; [by apply Hset|].
  case_bool_decide; [by apply dedup_issue|by apply Hset].
Qed.

Lemma dedup_step ev c : dedup c → dedup (cacheStep ev c).
Proof.
  intros Hd. destruct ev; simpl.
  - by apply dedup_get.
  - by apply dedup_refetch.
  - by apply dedup_invalidate.
  - by apply dedup_resolve.
  - by destruct Hd.
Qed.

Lemma dedup_run events c : dedup c → dedup (cacheRun events c).
Proof.
  revert c. induction events as [|ev events IH]; intros c Hd; [done|].
  apply (IH (cacheStep ev c)). by apply dedup_step.
Qed.

(** A request changes nothing when the entry is Pending, or Ready and
    fresh; otherwise it issues exactly one fetch and leaves the entry
    Pending. *)
Lemma get_cases q c :
  UseGeographic.get q c = c ∨
  (issued (UseGeographic.get q c) = S (issued c) ∧
   inflight (UseGeographic.get q c) = (inflight c ++ [mkFetch q (issued c)])%list ∧
   clock (UseGeographic.get q c) = clock c ∧
   ∃ e, entries (UseGeographic.get q c) !! q = Some e ∧ status e = Pending).
Proof.
  unfold UseGeographic.get, refetch.
  assert (∀ e, status e = Pending →
    issued (issue q (with_entry q e c)) = S (issued c) ∧
    inflight (issue q (with_entry q e c)) = (inflight c ++ [mkFetch q (issued c)])%list ∧
    clock (issue q (with_entry q e c)) = clock c ∧
    ∃ e', entries (issue q (with_entry q e c)) !! q = Some e' ∧ status e' = Pending) as Hi.
  { intros e He. do 3 (split; [done|]). exists e. split; [|done].
    cbn [entries issue with_entry]. apply lookup_insert_eq. }
  destruct (entries c !! q) as [e|] eqn:He.
  - destruct (status e) eqn:Hs; [by left| |].
    + destruct (isStale e (clock c)); [|by left]. right. by apply Hi.
    + right. by apply Hi.
  - right. by apply Hi.
Qed.

Lemma get_pending q c e :
  entries c !! q = Some e → status e = Pending → UseGeographic.get q c = c.
Proof. intros He Hs. unfold UseGeographic.get. by rewrite He, Hs. Qed.

(** Two keys of the hooks are the same layer query exactly when the layer
    kind is the same and the parameters are equal as numbers. *)
Lemma queryKey_same name name' (p p' : Q) :
  queryKey name p = queryKey name' p' ↔ name = name' ∧ (p == p')%Q.
Proof.
  unfold queryKey. split.
  - intros [= -> Hp]. split; [done|].
    by rewrite <- (Qred_correct p), <- (Qred_correct p'), Hp.
  - intros [-> Hp]. do 2 f_equal. by apply Q2Qc_eq_iff.
Qed.

(** Claim C7.  In every state the cache reaches, there is at most one fetch in
    flight for a layer query.  Of two requests in a row for the same query
    (equal layer kind and equal parameters), the second issues no fetch; when
    the query was not yet in the cache the first issues exactly one, to which
    the second attaches. *)
Theorem C7_request_dedup
    (events : list (CacheEvent Data)) (q : LayerQuery) :
  let c := cacheRun events emptyCache in
  length (inflightFor q c) ≤ 1 ∧
  UseGeographic.get q (UseGeographic.get q c) = UseGeographic.get q c ∧
  length (inflightFor q (UseGeographic.get q (UseGeographic.get q c))) ≤ 1 ∧
  (entries c !! q = None →
     issued (UseGeographic.get q (UseGeographic.get q c)) = S (issued c) ∧
     inflightFor q (UseGeographic.get q (UseGeographic.get q c)) = [mkFetch q (issued c)]).
Proof.
  intros c.
  assert (dedup c) as Hd by (apply dedup_run, dedup_empty).
  assert (UseGeographic.get q (UseGeographic.get q c) = UseGeographic.get q c) as Htwice.
  { destruct (get_cases q c) as [Hsame|(_ & _ & _ & e & He & Hs)].
    - by rewrite !Hsame.
    - by apply (get_pending _ _ e). }
  split; [apply Hd|]. split; [done|]. rewrite Htwice.
  split; [apply (dedup_get q c Hd)|].
  intros Hnone. unfold UseGeographic.get, refetch. rewrite Hnone. simpl.
  split; [done|]. unfold inflightFor. simpl. rewrite filter_app.
  rewrite filter_cons_True by done.
  fold (inflightFor q c). rewrite none_in_flight; [done|done|].
  intros e He. congruence.
Qed.

End CacheProperties.

Lemma C6_witness :
  let q := UseGeographic.queryKey UseGeographic.density_grid 1 in
  let c : UseGeographic.Cache nat :=
    UseGeographic.cacheRun
      [UseGeographic.Get q; UseGeographic.Resolve (UseGeographic.mkFetch q 0) (Some 7)]
      UseGeographic.emptyCache in
  let events :=
    [UseGeographic.Get q; UseGeographic.Elapse 1000;
     UseGeographic.Get (UseGeographic.queryKey UseGeographic.business_clusters 5);
     UseGeographic.Invalidate q] in
  let c' := UseGeographic.cacheRun (UseGeographic.Refetch q :: events) c in
  UseGeographic.read q c' = Some 7 ∧
  UseGeographic.hookData q None c' = Some 7 ∧
  ∃ e', UseGeographic.entries c' !! q = Some e' ∧
        UseGeographic.status e' = UseGeographic.Pending.
Proof.
  intros q c events c'.
  apply (C6_stale_retention c q
           (UseGeographic.mkEntry (Some 7) UseGeographic.Ready 0 0 false) 7 events None);
    vm_compute; reflexivity.
Defined.

Lemma C7_witness :
  let q := UseGeographic.queryKey UseGeographic.business_clusters 5 in
  let c : UseGeographic.Cache nat := UseGeographic.emptyCache in
  UseGeographic.issued (UseGeographic.get q (UseGeographic.get q c)) = 1 ∧
  UseGeographic.inflightFor q (UseGeographic.get q (UseGeographic.get q c))
    = [UseGeographic.mkFetch q 0].
Proof.
  intros q c.
  apply (C7_request_dedup (Data := nat) [] q). reflexivity.
Defined.

Import QueryFunctions.
Import GeographicEffects.

(** * Further properties of the data access client *)

(** ** The request helper *)

(** Property X1.  [safeFetch] resolves exactly when [fetch] resolved with a
    response whose [ok] flag is set and whose body parses, and then to the
    parsed body. *)
Theorem safeFetch_resolves_iff (fetched : Exc Response) (v : JsVal) :
  safeFetch fetched = Ok v ↔
  ∃ response, fetched = Ok response ∧ resp_ok response = true ∧
              resp_json response = Ok v.
Proof.
  unfold safeFetch. split.
  - destruct fetched as [response|e]; simpl.
    + destruct (resp_ok response) eqn:Hok; simpl.
      * destruct (resp_json response) as [data|e] eqn:Hj; simpl.
        -- intros [= ->]. by exists response.
        -- repeat case_match; discriminate.
      * repeat (case_match; simpl); discriminate.
    + repeat case_match; discriminate.
  - intros (response & -> & Hok & Hj). simpl. by rewrite Hok, Hj.
Qed.

Lemma try_catch_throws {A} (body : Exc A) handler e :
  try_catch body handler = Throw e → ∃ e1, body = Throw e1 ∧ handler e1 = Throw e.
Proof. destruct body as [a|e1]; simpl; [discriminate|]. eauto. Qed.

Lemma relabel_spec (error e : JsError) :
  (if bool_decide (err_name error = "AbortError") then
     Throw (NewError "Request timed out")
   else if includes "NetworkError" (err_message error) then
     Throw (NewError "Network error - check API connection")
   else Throw error) = @Throw JsVal e →
  err_name e ≠ "AbortError" ∧ includes "NetworkError" (err_message e) = false ∧
  (err_name error = "AbortError" → e = NewError "Request timed out") ∧
  (err_name error ≠ "AbortError" → includes "NetworkError" (err_message error) = true →
   e = NewError "Network error - check API connection") ∧
  (err_name error ≠ "AbortError" → includes "NetworkError" (err_message error) = false →
   e = error).
Proof.
  case_bool_decide as Hn.
  - intros [= <-]. repeat split; try done.
  - destruct (includes "NetworkError" (err_message error)) eqn:Hi.
    + intros [= <-]. repeat split; try done.
    + intros [= <-]. repeat split; try done.
Qed.

(** Property X2.  An error that leaves [safeFetch] is never the AbortError of
    the timeout and never carries a message with [NetworkError] in it: the
    abort is rethrown as [Request timed out], a rejection of [fetch] whose
    message contains [NetworkError] as [Network error - check API connection],
    and any other rejection of [fetch] is rethrown as it is. *)
Theorem safeFetch_errors_relabelled (fetched : Exc Response) (e : JsError) :
  safeFetch fetched = Throw e →
  err_name e ≠ "AbortError" ∧ includes "NetworkError" (err_message e) = false ∧
  ∀ e0, fetched = Throw e0 →
    (err_name e0 = "AbortError" → e = NewError "Request timed out") ∧
    (err_name e0 ≠ "AbortError" → includes "NetworkError" (err_message e0) = true →
     e = NewError "Network error - check API connection") ∧
    (err_name e0 ≠ "AbortError" → includes "NetworkError" (err_message e0) = false →
     e = e0).
Proof.
  unfold safeFetch. intros (e1 & Hb & Hr)%try_catch_throws.
  cbv beta in Hr. apply relabel_spec in Hr.
  split; [tauto|]. split; [tauto|].
  intros e0 ->. simpl in Hb. injection Hb as <-. tauto.
Qed.

Lemma safeFetch_errors_relabelled_witness :
  err_name (NewError "Request timed out") ≠ "AbortError" ∧
  includes "NetworkError" (err_message (NewError "Request timed out")) = false ∧
  ∀ e0, Throw (mkError "AbortError" "The operation was aborted") = @Throw Response e0 →
    (err_name e0 = "AbortError" → NewError "Request timed out" = NewError "Request timed out") ∧
    (err_name e0 ≠ "AbortError" → includes "NetworkError" (err_message e0) = true →
     NewError "Request timed out" = NewError "Network error - check API connection") ∧
    (err_name e0 ≠ "AbortError" → includes "NetworkError" (err_message e0) = false →
     NewError "Request timed out" = e0).
Proof.
  apply (safeFetch_errors_relabelled
           (Throw (mkError "AbortError" "The operation was aborted"))).
  reflexivity.
Defined.

(** ** Well-formed density records *)

Lemma metric_truthy item name dflt :
  is_nullish item = false → truthy (prop item "metrics") = true →
  metric item name dflt = Ok (or_else (prop (prop item "metrics") name) dflt).
Proof.
  intros Hi Hm. unfold metric. rewrite get_ok by done. simpl.
  pose proof (get_truthy _ name Hm) as Hg.
  destruct (prop item "metrics"); try discriminate; by rewrite Hg.
Qed.

Lemma densityFeature_accepted item index :
  density_malformed item = false →
  isArray (prop (prop item "coordinates") "coordinates") = true ∧
  densityFeature item index = Some
    {| dg_coordinates := prop (prop item "coordinates") "coordinates";
       dg_id := or_else (prop item "grid_id") (JStr ("grid-" +:+ pretty index));
       dg_business_count :=
         or_else (prop (prop item "metrics") "business_count") (JNum 0);
       dg_avg_rating := or_else (prop (prop item "metrics") "avg_rating") (JNum 0);
       dg_service_diversity :=
         or_else (prop (prop item "metrics") "service_diversity") (JNum 0);
       dg_service_types :=
         or_else (prop (prop item "metrics") "service_types") (JArr []) |}.
Proof.
  unfold density_malformed, densityFeature, densityFeatureBody.
  destruct (densityHasExpectedStructure_ok item) as [h Hh]. rewrite Hh.
  intros Ht%negb_false_iff.
  destruct (density_accepted_full _ _ Hh Ht) as (Hi & Hc & Hn & Ha & ->).
  split; [done|]. cbn [bind]. rewrite Ht. cbn [negb].
  pose proof (truthy_not_nullish _ Hi) as Hni.
  rewrite !(get_truthy item) by done. cbn [bind].
  rewrite get_truthy by done. cbn [bind].
  rewrite !metric_truthy by done. reflexivity.
Qed.

(** Property X3.  A density record that passes the structure check gives, at
    its position, a feature with the ring of the record as its geometry (an
    array, not looked into), the [grid_id] of the record or else
    [grid-<index>], and each metric of the record or else 0 (no service types:
    the empty array). *)
Theorem density_record_passes_through
    (api : Api) (p : Q) (records : list JsVal) (index : nat) (item : JsVal) :
  safeFetch (api DensityGridEP p) = Ok (JArr records) →
  records !! index = Some item →
  density_malformed item = false →
  ∃ fs f,
    getDensityGrid api p = Ok fs ∧ fs !! index = Some f ∧
    dg_coordinates f = prop (prop item "coordinates") "coordinates" ∧
    isArray (dg_coordinates f) = true ∧
    dg_id f = or_else (prop item "grid_id") (JStr ("grid-" +:+ pretty index)) ∧
    dg_business_count f = or_else (prop (prop item "metrics") "business_count") (JNum 0) ∧
    dg_avg_rating f = or_else (prop (prop item "metrics") "avg_rating") (JNum 0) ∧
    dg_service_diversity f =
      or_else (prop (prop item "metrics") "service_diversity") (JNum 0) ∧
    dg_service_types f = or_else (prop (prop item "metrics") "service_types") (JArr []).
Proof.
  intros Hresp Hr Hw.
  assert (records ≠ []) as Hne by (intros ->; discriminate).
  destruct (densityFeature_accepted item index Hw) as [Ha Hf].
  unfold getDensityGrid. rewrite Hresp. simpl.
  rewrite no_data_nonempty by done.
  eexists _, _. split; [reflexivity|]. split.
  { rewrite map_features_lookup by apply densityFeature_some.
    simpl. rewrite Hr. simpl. exact Hf. }
  simpl. done.
Qed.

Lemma density_record_passes_through_witness :
  let item := JObj [("grid_id", JStr "");
                    ("coordinates", JObj [("coordinates", JArr [JArr [pt 1 2]])]);
                    ("metrics", JObj [("business_count", JNum 7); ("avg_rating", JNull)])] in
  let api : Api := λ _ _, Ok (mkResponse true 200 (Ok (JArr [JNull; item]))) in
  ∃ fs f,
    getDensityGrid api 1 = Ok fs ∧ fs !! 1 = Some f ∧
    dg_coordinates f = JArr [JArr [pt 1 2]] ∧
    isArray (dg_coordinates f) = true ∧
    dg_id f = JStr "grid-1" ∧
    dg_business_count f = JNum 7 ∧
    dg_avg_rating f = JNum 0 ∧
    dg_service_diversity f = JNum 0 ∧
    dg_service_types f = JArr [].
Proof.
  intros item api.
  apply (density_record_passes_through api 1 [JNull; item] 1 item); reflexivity.
Defined.

(** ** What the fetches return passes the checks of the view *)

Lemma densityFeature_valid item index f :
  densityFeature item index = Some f → validDensityFeature f = true.
Proof.
  destruct (density_malformed item) eqn:Hm.
  - rewrite densityFeature_malformed by done. by intros [= <-].
  - destruct (densityFeature_accepted item index Hm) as [Ha ->].
    intros [= <-]. unfold validDensityFeature. simpl. rewrite Ha.
    by destruct (prop (prop item "coordinates") "coordinates").
Qed.

Lemma clusterFeature_valid cluster index f :
  clusterFeature cluster index = Some f → validClusterFeature f = true.
Proof.
  assert (∀ c, isArray c = true → truthy c && isArray c = true) as Harr
    by (by intros []).
  destruct (cluster_wellformed cluster) eqn:Hw.
  - destruct (clusterFeature_wellformed cluster index Hw) as (c & Hc & ->).
    intros [= <-]. unfold validClusterFeature. simpl. apply Harr.
    destruct (clusterCoordinates_shape _ _ Hc) as [[_ Ha]|Hp]; [done|].
    by destruct c as [| | | | |[|[] [|[] []]]|].
  - rewrite clusterFeature_malformed by done. by intros [= <-].
Qed.

Lemma getDensityGrid_elem api p fs f :
  getDensityGrid api p = Ok fs → f ∈ fs → ∃ item index, densityFeature item index = Some f.
Proof.
  unfold getDensityGrid. destruct (safeFetch _) as [data|e]; simpl.
  - destruct (no_data data); intros [= <-].
    + by intros ?%elem_of_nil.
    + intros (i & r & _ & Hf)%map_features_elem. eauto.
  - intros [= <-]. by intros ?%elem_of_nil.
Qed.

Lemma getBusinessClusters_elem api p fs f :
  getBusinessClusters api p = Ok fs → f ∈ fs →
  ∃ cluster index, clusterFeature cluster index = Some f.
Proof.
  unfold getBusinessClusters. destruct (safeFetch _) as [data|e]; simpl.
  - destruct (no_data data); intros [= <-].
    + by intros ?%elem_of_nil.
    + intros (i & r & _ & Hf)%map_features_elem. eauto.
  - intros [= <-]. by intros ?%elem_of_nil.
Qed.

Lemma filter_all {A} (f : A → bool) (l : list A) :
  (∀ x, x ∈ l → f x = true) → List.filter f l = l.
Proof.
  induction l as [|x l IH]; intros H; simpl; [done|].
  rewrite (H x) by left. f_equal. apply IH. intros y Hy. apply H. by right.
Qed.

Lemma getDensityGrid_returns api p : ∃ fs, getDensityGrid api p = Ok fs.
Proof.
  unfold getDensityGrid. destruct (safeFetch _); simpl; [destruct (no_data _)|]; eauto.
Qed.

Lemma getBusinessClusters_returns api p : ∃ fs, getBusinessClusters api p = Ok fs.
Proof.
  unfold getBusinessClusters. destruct (safeFetch _); simpl; [destruct (no_data _)|]; eauto.
Qed.

Lemma getDensityGrid_valid api p fs :
  getDensityGrid api p = Ok fs → List.filter validDensityFeature fs = fs.
Proof.
  intros Hfs. apply filter_all. intros f Hf.
  destruct (getDensityGrid_elem _ _ _ _ Hfs Hf) as (item & index & H).
  by apply (densityFeature_valid item index).
Qed.

Lemma getBusinessClusters_valid api p fs :
  getBusinessClusters api p = Ok fs → List.filter validClusterFeature fs = fs.
Proof.
  intros Hfs. apply filter_all. intros f Hf.
  destruct (getBusinessClusters_elem _ _ _ _ Hfs Hf) as (item & index & H).
  by apply (clusterFeature_valid item index).
Qed.

(** Property X4.  Whatever the server sent, every feature that
    [getDensityGrid] returns passes the structure check of the density effect,
    and every feature that [getBusinessClusters] returns passes that of the
    cluster effect: the filters of the view drop none of them. *)
Theorem fetched_features_pass_the_view_checks (api : Api) (p : Q) :
  (∃ fs, getDensityGrid api p = Ok fs ∧
         List.filter validDensityFeature fs = fs) ∧
  (∃ fs, getBusinessClusters api p = Ok fs ∧
         List.filter validClusterFeature fs = fs).
Proof.
  split.
  - destruct (getDensityGrid_returns api p) as [fs Hfs].
    exists fs. split; [done|]. by apply (getDensityGrid_valid api p).
  - destruct (getBusinessClusters_returns api p) as [fs Hfs].
    exists fs. split; [done|]. by apply (getBusinessClusters_valid api p).
Qed.

(** * Further properties of the map instance controller *)

(** ** Source updates on a ready map *)

Lemma update_ok name data s m :
  isMapLoaded s = true → mapSourcesReady s = true →
  map_current s = Some m → is_Some (sources m !! name) →
  safelyUpdateMapSource (isMapLoaded s) (mapSourcesReady s) name data s
  = (true, with_map (Some (setData name data m)) s).
Proof.
  intros -> -> Hm [old Hold]. unfold safelyUpdateMapSource.
  rewrite Hm. simpl. by rewrite Hold.
Qed.

Lemma updateWithRetry_ok name data s m :
  isMapLoaded s = true → mapSourcesReady s = true →
  map_current s = Some m → is_Some (sources m !! name) →
  updateWithRetry name data s = with_map (Some (setData name data m)) s.
Proof.
  intros Hl Hr Hm Hs. unfold updateWithRetry.
  by rewrite (update_ok name data s m).
Qed.

Lemma clearSource_ok name s m :
  isMapLoaded s = true → mapSourcesReady s = true →
  map_current s = Some m → is_Some (sources m !! name) →
  clearSource name s = with_map (Some (setData name [] m)) s.
Proof.
  intros Hl Hr Hm Hs. unfold clearSource.
  by rewrite (update_ok name [] s m).
Qed.

(** The end of the density effect is the update with retry. *)
Lemma densityEffect_updateWithRetry s :
  densityEffect s =
  if negb (isMapLoaded s) || negb (mapSourcesReady s) || isLayerTransitioning s
     || isDensityLoading s
  then s
  else
    match densityData s with
    | None | Some [] => clearSource "density-grid" s
    | Some data =>
        let validFeatures := List.filter validDensityFeature data in
        if bool_decide (length validFeatures = 0) then s
        else updateWithRetry "density-grid" (DensityF <$> validFeatures) s
    end.
Proof. reflexivity. Qed.

(** Property X5.  When the density query gives its result to a view whose map
    is ready (loaded, sources registered, no transition under way), the
    density-grid source holds, in order, a feature for every feature that
    [getDensityGrid] returned, none is filtered out, and no retry is
    scheduled. *)
Theorem density_grid_shown_in_full (api : Api) (p : Q) (s : View) (m : MapboxMap) :
  isMapLoaded s = true → mapSourcesReady s = true → isLayerTransitioning s = false →
  map_current s = Some m → is_Some (sources m !! "density-grid") →
  ∃ fs, densityQueryFn api p = Ok fs ∧
    step (DensityQuery false (Some fs)) s =
      with_map (Some (setData "density-grid" (DensityF <$> fs) m))
               (with_density false (Some fs) s).
Proof.
  intros Hl Hr Ht Hm Hs.
  destruct (getDensityGrid_returns api p) as [fs Hfs].
  exists fs. split; [unfold densityQueryFn; by rewrite Hfs|].
  unfold step, commit.
  replace (visibilityDepsChanged s (with_density false (Some fs) s)) with false
    by (unfold visibilityDepsChanged; simpl; by rewrite !bool_decide_eq_true_2).
  simpl. rewrite densityEffect_updateWithRetry. simpl. rewrite Hl, Hr, Ht. simpl.
  pose proof (getDensityGrid_valid api p fs Hfs) as Hv.
  destruct fs as [|f fs].
  - by apply clearSource_ok.
  - rewrite Hv. simpl. by apply updateWithRetry_ok.
Qed.

Lemma density_grid_shown_in_full_witness :
  let item := JObj [("grid_id", JStr "g1");
                    ("coordinates", JObj [("coordinates", JArr [JArr [pt 1 2]])]);
                    ("metrics", JObj [("business_count", JNum 7)])] in
  let api : Api := λ _ _, Ok (mkResponse true 200 (Ok (JArr [item; JNull]))) in
  let s := mkView (Some loadedMap) true true true false density true None [] 0 0 in
  ∃ fs, densityQueryFn api 1 = Ok fs ∧
    step (DensityQuery false (Some fs)) s =
      with_map (Some (setData "density-grid" (DensityF <$> fs) loadedMap))
               (with_density false (Some fs) s).
Proof.
  intros item api s.
  apply (density_grid_shown_in_full api 1 s loadedMap); try reflexivity.
  by eexists.
Defined.

(** ** The cluster effect *)

Lemma List_filter_sublist {A} (f : A → bool) (l : list A) : sublist (List.filter f l) l.
Proof.
  induction l as [|x l IH]; simpl; [constructor|].
  destruct (f x); by constructor.
Qed.

Lemma includesString_elem l s : includesString l s = true ↔ JStr s ∈ l.
Proof.
  unfold includesString. rewrite existsb_exists. split.
  - intros (v & Hin & Hv). destruct v; try discriminate.
    apply bool_decide_eq_true in Hv as ->. by apply list_elem_of_In.
  - intros Hin. exists (JStr s). split; [by apply list_elem_of_In|].
    by apply bool_decide_eq_true.
Qed.

Lemma clusterEffect_ready
    (data : option (list BusinessClusterFeature)) (category : string)
    (s : View) (m : MapboxMap) :
  isMapLoaded s = true → mapSourcesReady s = true → isLayerTransitioning s = false →
  map_current s = Some m → is_Some (sources m !! "business-clusters") →
  clusterEffect false data category s =
    with_map (Some (setData "business-clusters"
      (ClusterF <$> List.filter validClusterFeature
         (List.filter (λ f, bool_decide (category = "") || hasCategory category f)
                      (default [] data))) m)) s.
Proof.
  intros Hl Hr Ht Hm Hs.
  set (chosen := λ f, bool_decide (category = "") || hasCategory category f).
  assert (∀ l, (if negb (bool_decide (category = ""))
                then List.filter (hasCategory category) l else l)
               = List.filter chosen l) as Hchosen.
  { intros l. unfold chosen. case_bool_decide; simpl; [|done].
    symmetry. by apply filter_all. }
  unfold clusterEffect. rewrite Hl, Hr, Ht. simpl.
  destruct data as [[|f data]|]; [by apply clearSource_ok| |by apply clearSource_ok].
  cbv beta iota zeta. rewrite Hchosen. cbn [default from_option id].
  destruct (List.filter validClusterFeature (List.filter chosen (f :: data)))
    as [|g shown] eqn:Hshown.
  - by apply clearSource_ok.
  - by apply updateWithRetry_ok.
Qed.

(** Property X6.  On a ready map the cluster effect always writes the
    business-clusters source, and schedules no retry: the source then holds,
    in the order of the data, the clusters that pass the structure check and,
    when a category is selected, whose categories array contains that very
    string.  Without data, or when no cluster is left, the source is cleared. *)
Theorem clusterEffect_shows_selected_category
    (data : option (list BusinessClusterFeature)) (category : string)
    (s : View) (m : MapboxMap) :
  isMapLoaded s = true → mapSourcesReady s = true → isLayerTransitioning s = false →
  map_current s = Some m → is_Some (sources m !! "business-clusters") →
  ∃ shown,
    clusterEffect false data category s =
      with_map (Some (setData "business-clusters" (ClusterF <$> shown) m)) s ∧
    sublist shown (default [] data) ∧
    ∀ f, f ∈ shown ↔
         f ∈ default [] data ∧ validClusterFeature f = true ∧
         (category = "" ∨
          (isArray (bc_categories f) = true ∧
           JStr category ∈ elements (bc_categories f))).
Proof.
  intros Hl Hr Ht Hm Hs.
  eexists. split; [by apply clusterEffect_ready|]. split.
  - etrans; apply List_filter_sublist.
  - intros f. rewrite !elem_of_List_filter. unfold hasCategory.
    rewrite orb_true_iff, andb_true_iff, bool_decide_eq_true, includesString_elem.
    tauto.
Qed.

Lemma clusterEffect_shows_selected_category_witness :
  let a := mkCluster (pt 1 2) (JStr "a") (JNum 5) (JNum 3) (JArr [JStr "Bar"; JStr "Cafe"]) in
  let b := mkCluster (pt 3 4) (JStr "b") (JNum 9) (JNum 4) (JArr [JStr "Bars"]) in
  let s := mkView (Some loadedMap) true true true false clusters false None [] 0 0 in
  ∃ shown,
    clusterEffect false (Some [a; b]) "Bar" s =
      with_map (Some (setData "business-clusters" (ClusterF <$> shown) loadedMap)) s ∧
    sublist shown [a; b] ∧
    ∀ f, f ∈ shown ↔
         f ∈ [a; b] ∧ validClusterFeature f = true ∧
         ("Bar" = "" ∨
          (isArray (bc_categories f) = true ∧ JStr "Bar" ∈ elements (bc_categories f))).
Proof.
  intros a b s.
  apply (clusterEffect_shows_selected_category (Some [a; b]) "Bar" s loadedMap);
    try reflexivity.
  by eexists.
Defined.



(** ** The neighborhood effect *)

Lemma forEach_ok {A} (callback : A → Exc ()) (l : list A) :
  (∀ x, x ∈ l → callback x = Ok ()) → forEach callback l = Ok ().
Proof.
  induction l as [|x l IH]; intros H; simpl; [done|].
  rewrite (H x) by left. simpl. apply IH. intros y Hy. apply H. by right.
Qed.

Lemma forEach_throws {A} (callback : A → Exc ()) (l : list A) i x e :
  l !! i = Some x → callback x = Throw e → ∃ e', forEach callback l = Throw e'.
Proof.
  revert i. induction l as [|y l IH]; intros i Hi Hx; [done|]. simpl.
  destruct (callback y) as [[]|e'] eqn:Hy; simpl; [|eauto].
  destruct i as [|i]; simpl in Hi; [congruence|]. by apply (IH i).
Qed.

Lemma loggable_ok n : loggable n = true → logCoordinates n = Ok ().
Proof. unfold loggable. by destruct (logCoordinates n) as [[]|]. Qed.

Lemma logged_ok data :
  forallb loggable (take 3 data) = true → forEach logCoordinates (take 3 data) = Ok ().
Proof.
  intros H. apply forEach_ok. intros n Hn. apply loggable_ok.
  rewrite forallb_forall in H. apply H. by apply list_elem_of_In.
Qed.

Lemma neighborhoodEffect_ready
    (data : option (list NeighborhoodFeature)) (s : View) (m : MapboxMap) :
  isMapLoaded s = true → mapSourcesReady s = true → isLayerTransitioning s = false →
  map_current s = Some m → is_Some (sources m !! "neighborhoods") →
  forallb loggable (take 3 (default [] data)) = true →
  neighborhoodEffect false data s =
    with_map (Some (setData "neighborhoods"
      (NeighborhoodF <$>
         (if nothing data then fallbackNeighborhoods
          else List.filter validNeighborhoodFeature (default [] data))) m)) s.
Proof.
  intros Hl Hr Ht Hm Hs Hlog.
  unfold neighborhoodEffect. rewrite Hl, Hr, Ht. cbn [negb orb].
  destruct data as [[|n data]|]; try by apply updateWithRetry_ok.
  cbn [default from_option id] in Hlog. rewrite (logged_ok _ Hlog).
  cbn [bind nothing length].
  rewrite (bool_decide_eq_false_2 (S (length data) = 0)) by done.
  cbn [default from_option id].
  destruct (List.filter validNeighborhoodFeature (n :: data)) as [|g shown].
  - by apply clearSource_ok.
  - by apply updateWithRetry_ok.
Qed.

(** Property X8.  On a ready map, when the debug log of the first three
    neighborhoods does not throw (each name has a primitive value, and the
    first element of truthy provided coordinates is an array or a string), the
    neighborhood effect always writes the neighborhoods source and schedules
    no retry: the source then holds, in order, the features of the data that
    pass the structure check, or, when the hook gave no data or an empty list,
    the five neighborhoods built into the effect. *)
Theorem neighborhoodEffect_shows_valid_features
    (data : option (list NeighborhoodFeature)) (s : View) (m : MapboxMap) :
  isMapLoaded s = true → mapSourcesReady s = true → isLayerTransitioning s = false →
  map_current s = Some m → is_Some (sources m !! "neighborhoods") →
  forallb loggable (take 3 (default [] data)) = true →
  neighborhoodEffect false data s =
    with_map (Some (setData "neighborhoods"
      (NeighborhoodF <$>
         (if nothing data then fallbackNeighborhoods
          else List.filter validNeighborhoodFeature (default [] data))) m)) s ∧
  (nothing data = true →
   (sources <$> map_current (neighborhoodEffect false data s)) ≫= (.!! "neighborhoods")
   = Some (NeighborhoodF <$> fallbackNeighborhoods)).
Proof.
  intros Hl Hr Ht Hm Hs Hlog.
  rewrite (neighborhoodEffect_ready data s m) by done.
  split; [done|]. intros ->. simpl. by rewrite lookup_insert_eq.
Qed.

Lemma neighborhoodEffect_shows_valid_features_witness :
  let a := mkNeighborhood (GeomFallbackSquare (fallbackLng 0) (fallbackLat 0))
             (JStr "Area 1") (JNum 0) (JNum 0) (JNum 0) (ScoreGiven (JNum 50)) in
  let b := mkNeighborhood (GeomSquareAround (JStr "x") (JNum 1))
             (JStr "Area 2") (JNum 0) (JNum 0) (JNum 0) (ScoreGiven (JNum 50)) in
  let s := mkView (Some loadedMap) true true true false neighborhoods false None [] 0 0 in
  neighborhoodEffect false (Some [a; b]) s =
    with_map (Some (setData "neighborhoods" [NeighborhoodF a] loadedMap)) s.
Proof.
  intros a b s.
  apply (neighborhoodEffect_shows_valid_features (Some [a; b]) s loadedMap);
    try reflexivity.
  by eexists.
Defined.

(** ** A neighborhood geometry that cannot be logged *)

Lemma neighborhoodFeature_geometry r index f :
  neighborhoodFeature r index = Some f →
  neighborhoodGeometry r index = Ok (nb_geometry f).
Proof.
  unfold neighborhoodFeature, neighborhoodFeatureBody.
  destruct (neighborhoodGeometry r index) as [g|]; [|discriminate].
  cbn [bind].
  repeat match goal with
  | |- context [first_truthy r ?ns ?d] =>
      destruct (first_truthy r ns d); [cbn [bind]|discriminate]
  end.
  destruct (neighborhoodScore r); [|discriminate].
  intros [= <-]. reflexivity.
Qed.

Lemma neighborhoodGeometry_provided r index :
  truthy (prop (prop r "geometry") "coordinates") = true →
  is_nullish r = false ∧
  neighborhoodGeometry r index = Ok (GeomProvided (prop (prop r "geometry") "coordinates")).
Proof.
  intros Hc.
  assert (is_nullish r = false) as Hn by (by destruct r).
  split; [done|].
  unfold neighborhoodGeometry, nested. rewrite get_ok by done. cbn [bind].
  destruct (truthy (prop r "geometry")) eqn:Hg.
  - rewrite and_then_truthy, get_truthy by done. cbn [bind]. by rewrite Hc.
  - apply prop_falsy in Hg. congruence.
Qed.

Lemma map_features_head {F} (f : JsVal → nat → option F) r rest x :
  f r 0 = Some x → ∃ tl, map_features f (JArr (r :: rest)) = x :: tl.
Proof. intros H. unfold map_features. simpl. rewrite H. simpl. eauto. Qed.

(** Property X9.  A single record can keep the whole neighborhoods layer from
    updating.  When the first record of the payload is one the client can
    process (the arithmetic of its score does not throw) and has a truthy
    [geometry.coordinates] whose first element is neither an array nor a
    string (a number, an object, an empty array, ...), the client passes it on
    unchecked, and in the view the debug log of the first three neighborhoods
    throws on it before the structure check that would have dropped the
    feature: the effect is left through its [catch], and the state and the map
    stay as they were, whatever the other records are. *)
Theorem neighborhoodEffect_aborted_by_unchecked_geometry
    (api : Api) (p : Q) (r : JsVal) (rest : list JsVal) :
  safeFetch (api NeighborhoodMetricsEP p) = Ok (JArr (r :: rest)) →
  unprocessable r = false →
  truthy (prop (prop r "geometry") "coordinates") = true →
  iterable (prop (prop (prop r "geometry") "coordinates") "0") = false →
  ∃ fs, neighborhoodQueryFn api p = Ok (Some fs) ∧
    (∀ f, fs !! 0 = Some f →
          nb_geometry f = GeomProvided (prop (prop r "geometry") "coordinates")) ∧
    0 < length fs ∧
    ∀ loading s, neighborhoodEffect loading (Some fs) s = s.
Proof.
  intros Hresp Hu Hc Hit.
  destruct (neighborhoodGeometry_provided r 0 Hc) as [Hn Hg].
  destruct (neighborhoodFeature_some r 0 Hu) as [f Hf].
  pose proof (neighborhoodFeature_geometry _ _ _ Hf) as Hgf.
  rewrite Hg in Hgf. injection Hgf as Hgf.
  unfold neighborhoodQueryFn, getNeighborhoodMetrics. rewrite Hresp.
  cbn [bind try_catch]. rewrite no_data_nonempty by done.
  destruct (map_features_head neighborhoodFeature r rest f Hf) as [tl ->].
  rewrite bool_decide_eq_true_2 by (simpl; lia).
  cbn [bind try_catch]. eexists. split; [reflexivity|].
  split; [by intros ? [= <-]|]. split; [simpl; lia|].
  intros loading s. unfold neighborhoodEffect.
  destruct (_ || _); [done|].
  assert (∃ e, logCoordinates f = Throw e) as [e Hthrow].
  { unfold logCoordinates. destruct (coercible (nb_name f)); [|by eexists].
    cbn [negb]. rewrite <- Hgf, Hc, get_truthy by done.
    cbn [bind]. rewrite Hit. by eexists. }
  cbn [take forEach]. rewrite Hthrow. reflexivity.
Qed.

Lemma neighborhoodEffect_aborted_by_unchecked_geometry_witness :
  let bad := JObj [("name", JStr "Ybor City");
                   ("geometry", JObj [("type", JStr "Polygon"); ("coordinates", JNum 5)])] in
  let good := JObj [("name", JStr "Hyde Park"); ("center", pt (-82.4633) 27.938)] in
  let api : Api := λ _ _, Ok (mkResponse true 200 (Ok (JArr [bad; good]))) in
  ∃ fs, neighborhoodQueryFn api 0 = Ok (Some fs) ∧
    (∀ f, fs !! 0 = Some f → nb_geometry f = GeomProvided (JNum 5)) ∧
    0 < length fs ∧
    ∀ loading s, neighborhoodEffect loading (Some fs) s = s.
Proof.
  intros bad good api.
  apply (neighborhoodEffect_aborted_by_unchecked_geometry api 0 bad [good]); reflexivity.
Defined.

(** ** The neighborhoods when the server gives nothing *)

Lemma getNeighborhoodMetrics_unusable api p :
  unusable (api NeighborhoodMetricsEP p) = true →
  getNeighborhoodMetrics api p = Ok createFallbackNeighborhoods.
Proof.
  unfold getNeighborhoodMetrics.
  intros [[e ->]|(data & -> & Hd)]%safeFetch_unusable; simpl; by rewrite ?Hd.
Qed.

(** Property X10.  When the neighborhood request fails or its payload is not a
    non-empty array, the query of the hook resolves to the ten neighborhoods
    built into the client, and on a ready map the effect puts all ten of them
    in the neighborhoods source: each passes the log and the structure check. *)
Theorem fallback_neighborhoods_are_shown
    (api : Api) (p : Q) (s : View) (m : MapboxMap) :
  unusable (api NeighborhoodMetricsEP p) = true →
  isMapLoaded s = true → mapSourcesReady s = true → isLayerTransitioning s = false →
  map_current s = Some m → is_Some (sources m !! "neighborhoods") →
  neighborhoodQueryFn api p = Ok (Some createFallbackNeighborhoods) ∧
  neighborhoodEffect false (Some createFallbackNeighborhoods) s =
    with_map (Some (setData "neighborhoods"
                      (NeighborhoodF <$> createFallbackNeighborhoods) m)) s ∧
  length createFallbackNeighborhoods = 10.
Proof.
  intros Hu Hl Hr Ht Hm Hs. split; [|split; [|reflexivity]].
  - unfold neighborhoodQueryFn. by rewrite getNeighborhoodMetrics_unusable.
  - by rewrite (neighborhoodEffect_ready (Some createFallbackNeighborhoods) s m).
Qed.

Lemma fallback_neighborhoods_are_shown_witness :
  let api : Api := λ _ _, Throw (mkError "TypeError" "Failed to fetch") in
  let s := mkView (Some loadedMap) true true true false neighborhoods false None [] 0 0 in
  neighborhoodQueryFn api 0 = Ok (Some createFallbackNeighborhoods) ∧
  neighborhoodEffect false (Some createFallbackNeighborhoods) s =
    with_map (Some (setData "neighborhoods"
                      (NeighborhoodF <$> createFallbackNeighborhoods) loadedMap)) s ∧
  length createFallbackNeighborhoods = 10.
Proof.
  intros api s.
  apply (fallback_neighborhoods_are_shown api 0 s loadedMap); try reflexivity.
  by eexists.
Defined.

(** ** The error state *)

Lemma getNeighborhoodMetrics_nonempty api p :
  ∃ n fs, getNeighborhoodMetrics api p = Ok (n :: fs).
Proof.
  unfold getNeighborhoodMetrics.
  destruct (safeFetch _) as [data|e]; simpl; [|by eexists _, _].
  destruct (no_data data); [by eexists _, _|].
  destruct (map_features neighborhoodFeature data) as [|n fs]; simpl; by eexists _, _.
Qed.

(** Property X11.  Whatever the network and the server do, the query of
    [useNeighborhoodMetrics] resolves to a list that is neither [null] nor
    empty.  So the effect never falls back to its own five neighborhoods on a
    result of the query, and once the three queries have settled the error
    state is set to false whatever the density and cluster data are: the "no
    data" condition cannot hold. *)
Theorem neighborhood_query_never_empty (api : Api) (p : Q) :
  ∃ fs, neighborhoodQueryFn api p = Ok (Some fs) ∧ fs ≠ [] ∧
    nothing (Some fs) = false ∧
    ∀ densityData clusterData apiError,
      apiErrorEffect false false false densityData clusterData (Some fs) apiError = false.
Proof.
  destruct (getNeighborhoodMetrics_nonempty api p) as (n & fs & Hfs).
  exists (n :: fs). unfold neighborhoodQueryFn. rewrite Hfs.
  split; [done|]. split; [done|]. split; [done|].
  intros d c e. unfold apiErrorEffect. simpl. by rewrite !andb_false_r.
Qed.

(** ** What the data effects leave alone *)

Lemma touchesOnly_refl name s : touchesOnly name s s.
Proof. unfold touchesOnly. by destruct (map_current s). Qed.

Lemma touchesOnly_setTimer name task delay s s' :
  touchesOnly name s s' → touchesOnly name s (setTimer task delay s').
Proof. done. Qed.

Lemma touchesOnly_update loaded ready name data s :
  touchesOnly name s (safelyUpdateMapSource loaded ready name data s).2.
Proof.
  unfold safelyUpdateMapSource.
  destruct (map_current s) as [m|] eqn:Hm; [|apply touchesOnly_refl].
  destruct (negb loaded || negb ready); [apply touchesOnly_refl|].
  destruct (sources m !! name) as [old|] eqn:Hold; [|apply touchesOnly_refl].
  unfold touchesOnly. rewrite Hm. simpl. repeat split; try done.
  - destruct (decide (k = name)) as [->|Hk].
    + rewrite Hold. by eexists.
    + by rewrite lookup_insert_ne.
  - destruct (decide (k = name)) as [->|Hk].
    + rewrite lookup_insert_eq. by eexists.
    + by rewrite lookup_insert_ne.
  - intros k Hk. by rewrite lookup_insert_ne.
Qed.

Lemma touchesOnly_updateWithRetry name data s :
  touchesOnly name s (updateWithRetry name data s).
Proof.
  unfold updateWithRetry.
  pose proof (touchesOnly_update (isMapLoaded s) (mapSourcesReady s) name data s) as H.
  destruct (safelyUpdateMapSource _ _ _ _ _) as [[] s1]; simpl in H; [done|].
  by do 2 apply touchesOnly_setTimer.
Qed.

Lemma touchesOnly_clearSource name s : touchesOnly name s (clearSource name s).
Proof. apply touchesOnly_update. Qed.

(** Property X12.  Each data effect changes at most the data of the source of
    its own kind and the pending timers.  None of them changes the visibility
    of a layer, registers or removes a source, writes the data of another
    source, or changes the flags and the active layer; an effect without a map
    leaves it so. *)
Theorem data_effects_touch_only_their_source
    (s : View) (loading : bool)
    (clusterData : option (list BusinessClusterFeature)) (category : string)
    (neighborhoodData : option (list NeighborhoodFeature)) :
  touchesOnly "density-grid" s (densityEffect s) ∧
  touchesOnly "business-clusters" s (clusterEffect loading clusterData category s) ∧
  touchesOnly "neighborhoods" s (neighborhoodEffect loading neighborhoodData s).
Proof.
  split; [|split].
  - rewrite densityEffect_updateWithRetry.
    destruct (_ || _); [apply touchesOnly_refl|].
    destruct (densityData s) as [[|f data]|]; try apply touchesOnly_clearSource.
    cbv zeta. case_bool_decide; [apply touchesOnly_refl|].
    apply touchesOnly_updateWithRetry.
  - unfold clusterEffect.
    destruct (_ || _); [apply touchesOnly_refl|].
    destruct clusterData as [[|f data]|]; try apply touchesOnly_clearSource.
    cbv zeta. case_bool_decide; [apply touchesOnly_clearSource|].
    apply touchesOnly_updateWithRetry.
  - unfold neighborhoodEffect.
    destruct (_ || _); [apply touchesOnly_refl|].
    match goal with |- context [bind ?d _] => destruct d as [dataToUse|e] end;
      [|apply touchesOnly_refl].
    cbn [bind]. cbv zeta. case_bool_decide; [apply touchesOnly_clearSource|].
    apply touchesOnly_updateWithRetry.
Qed.

(** ** The bounding box test *)

Lemma some_true_elim {A} (callback : A → Exc bool) (l : list A) :
  some callback l = Ok true →
  ∃ i x, l !! i = Some x ∧ callback x = Ok true ∧
         ∀ j y, j < i → l !! j = Some y → callback y = Ok false.
Proof.
  induction l as [|x l IH]; simpl; [discriminate|].
  destruct (callback x) as [[]|e] eqn:Hx; simpl; [| |discriminate].
  - intros _. exists 0, x. repeat split; [done|]. intros j y Hj. lia.
  - intros (i & y & Hi & Hy & Hbefore)%IH. exists (S i), y. repeat split; [done..|].
    intros [|j] z Hj Hz; simpl in Hz; [congruence|]. apply (Hbefore j); [lia|done].
Qed.

Lemma some_true_intro {A} (callback : A → Exc bool) (l : list A) i x :
  l !! i = Some x → callback x = Ok true →
  (∀ j y, j < i → l !! j = Some y → ∃ b, callback y = Ok b) →
  some callback l = Ok true.
Proof.
  revert i. induction l as [|y l IH]; intros i Hi Hx Hbefore; [done|]. simpl.
  destruct i as [|i]; simpl in Hi.
  - injection Hi as ->. by rewrite Hx.
  - destruct (Hbefore 0 y) as [[] ->]; [lia|done| |]; simpl; [done|].
    apply (IH i); [done..|]. intros j z Hj Hz. apply (Hbefore (S j)); [lia|done].
Qed.

Lemma withinBounds_true b lon lat :
  withinBounds b lon lat = true ↔
  ∃ x y, lon = JNum x ∧ lat = JNum y ∧
         (west b <= x)%Q ∧ (x <= east b)%Q ∧ (south b <= y)%Q ∧ (y <= north b)%Q.
Proof.
  unfold withinBounds. split.
  - destruct lon as [| | |x| | |], lat as [| | |y| | |]; try discriminate.
    rewrite !andb_true_iff, !Qle_bool_iff. intros. exists x, y. tauto.
  - intros (x & y & -> & -> & H). rewrite !andb_true_iff, !Qle_bool_iff. tauto.
Qed.

Lemma destructurePair_iterable point :
  (∀ p, destructurePair point = Ok p → iterable point = true) ∧
  (iterable point = true → ∃ p, destructurePair point = Ok p).
Proof. destruct point; simpl; split; try done; eauto. Qed.

Lemma point_within b point :
  (p ←! destructurePair point; Ok (withinBounds b p.1 p.2)) = Ok true ↔
  ∃ x y more, point = JArr (JNum x :: JNum y :: more) ∧
         (west b <= x)%Q ∧ (x <= east b)%Q ∧ (south b <= y)%Q ∧ (y <= north b)%Q.
Proof.
  split.
  - destruct point as [| | | |s|l|]; simpl; try discriminate.
    + intros [= (x & y & Hx & Hy & _)%withinBounds_true].
      unfold char_at in Hx. by destruct (String.get 0 s).
    + intros [= (x & y & Hx & Hy & H)%withinBounds_true].
      destruct l as [|a [|c more]]; try discriminate.
      unfold nth_or_undef in *. simpl in *. subst. by exists x, y, more.
  - intros (x & y & more & -> & H). simpl. f_equal.
    rewrite !andb_true_iff, !Qle_bool_iff. tauto.
Qed.

(** Property X13.  [isInTampaBounds] is true exactly for a non-empty array
    whose first element is an array (the first ring) that has, at some
    position, an array starting with two numbers [lon] and [lat] inside the
    box [-83.0 <= lon <= -82.0], [27.5 <= lat <= 28.2] (bounds included), with
    only arrays and strings before that position.  Any other value in front of
    the point cannot be destructured: the exception is caught and the result
    is false, and so it is for every other input; further rings are not looked
    at. *)
Theorem isInTampaBounds_iff (coordinates : JsVal) :
  isInTampaBounds coordinates = true ↔
  ∃ ring rest i lon lat more,
    coordinates = JArr (JArr ring :: rest) ∧
    ring !! i = Some (JArr (JNum lon :: JNum lat :: more)) ∧
    (-83.0 <= lon)%Q ∧ (lon <= -82.0)%Q ∧ (27.5 <= lat)%Q ∧ (lat <= 28.2)%Q ∧
    ∀ j point, j < i → ring !! j = Some point → iterable point = true.
Proof.
  unfold isInTampaBounds. split.
  - destruct coordinates as [| | | | |[|first rest]|];
      try (simpl; rewrite ?orb_true_r; simpl; discriminate).
    cbn [truthy isArray elements negb orb length nth_or_undef lookup list_lookup
         default from_option id].
    rewrite bool_decide_eq_false_2 by done.
    destruct first as [| | | | |ring|]; try discriminate.
    cbn [isArray elements negb orb]. case_bool_decide; [discriminate|].
    destruct (some _ ring) as [[]|e] eqn:Hsome; try discriminate.
    intros _. apply some_true_elim in Hsome as (i & point & Hi & Hp & Hbefore).
    apply point_within in Hp as (x & y & more & -> & Hb).
    exists ring, rest, i, x, y, more. repeat split; try done; try apply Hb.
    intros j q Hj Hq. specialize (Hbefore j q Hj Hq).
    destruct (destructurePair q) as [p|] eqn:Hd; [|discriminate].
    by apply (destructurePair_iterable q) in Hd.
  - intros (ring & rest & i & x & y & more & -> & Hi & H1 & H2 & H3 & H4 & Hbefore).
    cbn [truthy isArray elements negb orb length nth_or_undef lookup list_lookup
         default from_option id].
    rewrite bool_decide_eq_false_2 by done.
    cbn [isArray elements negb orb].
    rewrite bool_decide_eq_false_2 by (by destruct ring).
    rewrite (some_true_intro _ ring i (JArr (JNum x :: JNum y :: more))); [done..| |].
    + apply point_within. by exists x, y, more.
    + intros j q Hj Hq. apply (Hbefore j) in Hq; [|done].
      apply (destructurePair_iterable q) in Hq as [p ->]. simpl. eauto.
Qed.

(** ** The refresh button *)

Lemma commit_with_map before m :
  commit before (with_map m before) false = with_map m before.
Proof.
  unfold commit, densityDepsChanged, visibilityDepsChanged. simpl.
  by rewrite !bool_decide_eq_true_2.
Qed.

(** Property X14.  In every state the component can reach, once the controls
    are rendered ([isMapLoaded] and [showMap]), a click on the refresh button
    leaves exactly the layers of the active kind visible, whatever was visible
    before, and changes neither the active layer nor the timers. *)
Theorem refresh_shows_the_active_layer (events : list Event) :
  let s := run events mounted in
  isMapLoaded s = true → showMap s = true →
  ∃ m, map_current (step RefreshClick s) = Some m ∧
       layout m = only (activeLayer s) ∧
       visibleKinds m = [activeLayer s] ∧
       activeLayer (step RefreshClick s) = activeLayer s ∧
       timers (step RefreshClick s) = timers s.
Proof.
  intros s Hl Hshow.
  destruct (run_spec events mounted) as [(_ & Hmap & _) _]; try apply inv_mounted.
  fold s in Hmap. unfold step. rewrite Hl, Hshow. simpl.
  destruct (forceRefreshSources_cases (activeLayer s) s Hmap)
    as [[Hnone _]|(m & Hm & ->)].
  { destruct (mo_loaded s Hmap Hl) as [m Hm]. congruence. }
  rewrite commit_with_map. eexists. split; [reflexivity|].
  split; [apply refreshVisibility_layout|].
  split; [apply visibleKinds_only, refreshVisibility_layout|done].
Qed.

Lemma refresh_shows_the_active_layer_witness :
  let events := MapLoad :: wait 500 ++ [LayerClick clusters] ++ wait 100
                ++ [LayerClick neighborhoods] ++ wait 300 in
  let s := run events mounted in
  ∃ m, map_current (step RefreshClick s) = Some m ∧
       layout m = only (activeLayer s) ∧
       visibleKinds m = [activeLayer s] ∧
       activeLayer (step RefreshClick s) = activeLayer s ∧
       timers (step RefreshClick s) = timers s.
Proof.
  intros events s.
  apply (refresh_shows_the_active_layer events); reflexivity.
Defined.

(** ** A switch of layer that is left to complete *)

Lemma tick_idle s :
  Forall (λ t, S (now s) < tm_due t) (timers s) → tick s = with_now (S (now s)) s.
Proof.
  intros Hq. unfold tick. cbv zeta.
  replace (List.filter _ (timers (with_now (S (now s)) s))) with (@nil Timer); [done|].
  symmetry. simpl. induction Hq as [|t ts Ht _ IH]; simpl; [done|].
  rewrite IH. by rewrite (proj2 (Nat.leb_gt _ _)) by lia.
Qed.

Lemma wait_idle n s :
  Forall (λ t, now s + n < tm_due t) (timers s) →
  run (wait n) s = with_now (now s + n) s.
Proof.
  revert s. induction n as [|n IH]; intros s Hq.
  - simpl. rewrite Nat.add_0_r. by destruct s.
  - change (run (wait (S n)) s) with (run (wait n) (tick s)).
    rewrite tick_idle by (eapply Forall_impl; [exact Hq|]; simpl; intros; lia).
    rewrite IH by (simpl; eapply Forall_impl; [exact Hq|]; simpl; intros; lia).
    simpl. unfold with_now. simpl. f_equal. lia.
Qed.

Lemma run_click_wait k n s :
  run (LayerClick k :: wait (S n)) s = tick (run (wait n) (step (LayerClick k) s)).
Proof.
  unfold wait. rewrite replicate_S_end.
  change (LayerClick k :: replicate n Tick ++ [Tick])
    with ((LayerClick k :: replicate n Tick) ++ [Tick]).
  by rewrite run_app.
Qed.

(** Property X15.  From a state with rendered controls, registered sources and
    no pending timer, a click on another layer kind followed by 300 ms without
    further events ends the transition with the clicked kind active and
    exactly its layers visible, and no timer pending. *)
Theorem switch_completes (s : View) (m : MapboxMap) (k : MapLayerType) :
  map_current s = Some m → sourcesRegistered m →
  isMapLoaded s = true → showMap s = true → timers s = [] →
  k ≠ activeLayer s →
  let s' := run (LayerClick k :: wait 300) s in
  activeLayer s' = k ∧ isLayerTransitioning s' = false ∧ timers s' = [] ∧
  now s' = now s + 300 ∧
  ∃ m', map_current s' = Some m' ∧ layout m' = only k ∧ visibleKinds m' = [k].
Proof.
  intros Hm Hreg Hl Hshow Htimers Hk s'.
  assert (∃ m', map_current s' = Some m' ∧ layout m' = only k ∧
            activeLayer s' = k ∧ isLayerTransitioning s' = false ∧ timers s' = [] ∧
            now s' = now s + 300) as (m' & ? & ? & ? & ? & ? & ?).
  2:{ repeat split; try done. exists m'. repeat split; try done.
      by apply visibleKinds_only. }
  subst s'. rewrite (run_click_wait k 299 s).
  assert (step (LayerClick k) s = onChange k s) as ->.
  { unfold step. rewrite Hl, Hshow. simpl. apply commit_transitioning.
    unfold onChange. by rewrite bool_decide_eq_false_2. }
  unfold onChange. rewrite bool_decide_eq_false_2 by done. cbv zeta.
  remember 299 as d' eqn:Hd'. remember 300 as d eqn:Hd.
  assert (d = S d') as Hdd by (subst; reflexivity). clear Hd Hd'.
  destruct s as [mc l r sh tr a dl dd ts nt t0]. simpl in *. subst.
  rewrite wait_idle by (simpl; repeat constructor; simpl; lia).
  cbn -[Nat.add Nat.leb hideLayer tick].
  unfold tick. cbn -[Nat.add Nat.leb hideLayer fireTimer].
  replace (t0 + S d' <=? S (t0 + d')) with true by (symmetry; apply Nat.leb_le; lia).
  cbn -[Nat.add Nat.leb hideLayer fireTimer].
  unfold fireTimer. cbn -[Nat.add Nat.leb hideLayer commit runTask clearTimer].
  replace (nt =? nt) with true by (symmetry; apply Nat.eqb_refl).
  replace (t0 + S d' <=? S (t0 + d')) with true by (symmetry; apply Nat.leb_le; lia).
  cbn -[Nat.add Nat.leb hideLayer commit forceRefreshSources].
  match goal with |- context [commit ?x _ false] =>
    assert (x = mkView (Some (hideLayer a m)) true r true true k dl dd []
                       (S nt) (S (t0 + d'))) as ->
  end.
  { unfold clearTimer. cbn -[Nat.add hideLayer]. by rewrite Nat.eqb_refl. }
  set (s3 := mkView _ _ _ _ _ _ _ _ _ _ _).
  assert (forceRefreshSources true a s3
          = with_map (Some (refreshVisibility a (hideLayer a m))) s3) as ->.
  { destruct Hreg as ([d Hd] & [c Hc] & [n Hn]).
    unfold forceRefreshSources. cbn -[hideLayer refreshVisibility].
    by rewrite !hideLayer_sources, Hd, Hc, Hn. }
  set (s4 := setIsLayerTransitioning false _).
  assert (commit s3 s4 false = visibilityEffect (densityEffect s4)) as ->.
  { unfold commit, densityDepsChanged, visibilityDepsChanged.
    cbn -[densityEffect visibilityEffect]. by rewrite !orb_true_r. }
  assert (mapOk s4) as Hok.
  { split; [by eexists|]. intros m4 [= <-]. split.
    - destruct Hreg as (Hd & Hc & Hn). unfold sourcesRegistered.
      by rewrite !refreshVisibility_sources, !hideLayer_sources.
    - right. exists a. apply refreshVisibility_layout. }
  assert (∃ m5, densityEffect s4 = with_map (Some m5) s4) as [m5 ->].
  { destruct (densityEffect_cases s4 Hok) as [->|(m4 & fc & _ & ->)]; by eexists. }
  exists (refreshVisibility k m5). simpl.
  repeat split; try done; first [apply refreshVisibility_layout | lia].
Qed.

Lemma switch_completes_witness :
  let s := mkView (Some loadedMap) true true true false density false None [] 1 500 in
  let s' := run (LayerClick neighborhoods :: wait 300) s in
  activeLayer s' = neighborhoods ∧ isLayerTransitioning s' = false ∧ timers s' = [] ∧
  now s' = now s + 300 ∧
  ∃ m', map_current s' = Some m' ∧ layout m' = only neighborhoods ∧
        visibleKinds m' = [neighborhoods].
Proof.
  intros s.
  apply (switch_completes s loadedMap neighborhoods); done.
Defined.

(** * Further properties of the neighborhood normalisation *)

Lemma neighborhoodScore_spec r sc :
  neighborhoodScore r = Ok sc →
  match sc with
  | ScoreGiven v => truthy v = true
  | ScoreAverage d a s =>
      (truthy d = true ∨ d = JNum 0) ∧ (truthy a = true ∨ a = JNum 0) ∧
      (truthy s = true ∨ s = JNum 0)
  end.
Proof.
  unfold neighborhoodScore.
  destruct (first_truthy r ["score"; "neighborhood_score"] JUndef) as [given|];
    [|discriminate]. cbn [bind].
  destruct (truthy given) eqn:Hg; [by intros [= <-]|].
  destruct (first_truthy r ["density_score"] (JNum 0)) as [d|] eqn:Hd; [|discriminate].
  destruct (first_truthy r ["accessibility_score"] (JNum 0)) as [a|] eqn:Ha;
    [|discriminate].
  destruct (first_truthy r ["service_distribution_score"] (JNum 0)) as [s|] eqn:Hs;
    [|discriminate].
  cbn [bind]. destruct (coercible d && coercible a && coercible s); [|discriminate].
  intros [= <-].
  apply first_truthy_spec in Hd, Ha, Hs. done.
Qed.

(** Property X16.  No feature that the neighborhood normalisation builds lacks
    a property: the name is truthy (a name of the record, or [Area <index +
    1>]), the business count, the rating and the diversity are truthy values
    of the record or else the number 0, and the score is a truthy value of the
    record or else the rounded mean of three component scores, each a truthy
    value of the record or else 0.  Truthy values are taken as they are:
    nothing checks that they are numbers or strings. *)
Theorem neighborhood_properties_are_defaulted
    (r : JsVal) (index : nat) (f : NeighborhoodFeature) :
  neighborhoodFeature r index = Some f →
  truthy (nb_name f) = true ∧
  (truthy (prop r "name") = false → truthy (prop r "area_name") = false →
   truthy (prop r "neighborhood_name") = false →
   nb_name f = JStr ("Area " +:+ pretty (index + 1))) ∧
  (truthy (nb_businesses f) = true ∨ nb_businesses f = JNum 0) ∧
  (truthy (nb_rating f) = true ∨ nb_rating f = JNum 0) ∧
  (truthy (nb_diversity f) = true ∨ nb_diversity f = JNum 0) ∧
  match nb_score f with
  | ScoreGiven v => truthy v = true
  | ScoreAverage d a s =>
      (truthy d = true ∨ d = JNum 0) ∧ (truthy a = true ∨ a = JNum 0) ∧
      (truthy s = true ∨ s = JNum 0)
  end.
Proof.
  intros Hf.
  assert (is_nullish r = false) as Hn.
  { destruct (is_nullish r) eqn:E; [|done].
    apply (neighborhoodFeature_null r index) in E. congruence. }
  revert Hf. unfold neighborhoodFeature, neighborhoodFeatureBody.
  destruct (neighborhoodGeometry r index) as [g|]; [|discriminate]. cbn [bind].
  destruct (first_truthy r ["name"; "area_name"; "neighborhood_name"] _)
    as [name|] eqn:Hname; [|discriminate]. cbn [bind].
  destruct (first_truthy r ["total_businesses"; "businesses"; "business_count"] _)
    as [businesses|] eqn:Hb; [|discriminate]. cbn [bind].
  destruct (first_truthy r ["avg_rating"; "rating"] _) as [rating|] eqn:Hr;
    [|discriminate]. cbn [bind].
  destruct (first_truthy r ["service_diversity"; "diversity"] _) as [diversity|] eqn:Hd;
    [|discriminate]. cbn [bind].
  destruct (neighborhoodScore r) as [sc|] eqn:Hs; [|discriminate].
  intros [= <-]. cbn [nb_name nb_businesses nb_rating nb_diversity nb_score].
  apply first_truthy_spec in Hb, Hr, Hd. apply neighborhoodScore_spec in Hs.
  repeat split; try done.
  - by destruct (first_truthy_spec _ _ _ _ Hname) as [?| ->].
  - intros H1 H2 H3. revert Hname. simpl.
    rewrite !(get_ok r) by done. simpl. rewrite H1, H2, H3. by intros [= <-].
Qed.

Lemma neighborhood_properties_are_defaulted_witness :
  let f := mkNeighborhood (GeomFallbackSquare (fallbackLng 3) (fallbackLat 3))
             (JStr "Area 4") (JNum 0) (JStr "n/a") (JNum 0)
             (ScoreAverage (JNum 0) (JNum 60) (JNum 0)) in
  truthy (nb_name f) = true ∧
  (truthy (JStr "") = false → truthy JUndef = false → truthy JUndef = false →
   nb_name f = JStr ("Area " +:+ pretty (3 + 1))) ∧
  (truthy (nb_businesses f) = true ∨ nb_businesses f = JNum 0) ∧
  (truthy (nb_rating f) = true ∨ nb_rating f = JNum 0) ∧
  (truthy (nb_diversity f) = true ∨ nb_diversity f = JNum 0) ∧
  match nb_score f with
  | ScoreGiven v => truthy v = true
  | ScoreAverage d a s =>
      (truthy d = true ∨ d = JNum 0) ∧ (truthy a = true ∨ a = JNum 0) ∧
      (truthy s = true ∨ s = JNum 0)
  end.
Proof.
  intros f.
  apply (neighborhood_properties_are_defaulted
           (JObj [("name", JStr ""); ("rating", JStr "n/a");
                  ("accessibility_score", JNum 60)]) 3 f).
  reflexivity.
Defined.

(** ** Polygons computed by the client *)

(** Property X17.  A record without geometry or boundary coordinates, whose
    center is not an array and carries no [coordinates] array, always gets a
    polygon whose corners are numbers: the square around the two numbers of
    the center ([x]/[y], [longitude]/[latitude], or exactly two numeric
    properties), around the position derived from the index when the center
    gives no numbers, or the fallback square at that position when there is no
    center.  Such a feature passes the structure check of the neighborhood
    effect, and its geometry never makes the debug log of the effect throw:
    the log throws on it only when its name has no primitive value. *)
Theorem computed_polygons_have_numeric_corners
    (r : JsVal) (index : nat) (f : NeighborhoodFeature) :
  neighborhoodFeature r index = Some f →
  truthy (prop (prop r "geometry") "coordinates") = false →
  truthy (prop (prop r "area_boundary") "coordinates") = false →
  let center := or_else (prop r "neighborhood_center") (prop r "center") in
  isArray center = false →
  truthy (prop center "coordinates") && isArray (prop center "coordinates") = false →
  (if truthy center
   then ∃ cx cy, nb_geometry f = GeomSquareAround (JNum cx) (JNum cy)
   else nb_geometry f = GeomFallbackSquare (fallbackLng index) (fallbackLat index)) ∧
  validNeighborhoodFeature f = true ∧ loggable f = coercible (nb_name f).
Proof.
  intros Hf Hg Hb center Ha Hc.
  assert (is_nullish r = false) as Hn.
  { destruct (is_nullish r) eqn:E; [|done].
    apply (neighborhoodFeature_null r index) in E. congruence. }
  apply neighborhoodFeature_geometry in Hf. revert Hf.
  unfold neighborhoodGeometry.
  destruct (nested_coordinates r "geometry" Hn) as (v & -> & Hv & _).
  cbn [bind]. rewrite Hv, Hg.
  destruct (nested_coordinates r "area_boundary" Hn) as (w & -> & Hw & _).
  cbn [bind]. rewrite Hw, Hb.
  rewrite get_ok by done. cbn [bind].
  assert ((if truthy (prop r "neighborhood_center")
           then Ok (prop r "neighborhood_center") else get r "center") = Ok center)
    as ->.
  { unfold center, or_else.
    destruct (truthy (prop r "neighborhood_center")); [done|]. by rewrite get_ok. }
  cbn [bind]. destruct (truthy center) eqn:Ht.
  - destruct (centerPoint center index) as [point|] eqn:Hp; [|discriminate].
    cbn [bind].
    apply centerPoint_shape in Hp; [|done..].
    destruct point as [| | | | |[|[] [|[] []]]|]; try discriminate.
    simpl. intros [= Hgeo].
    unfold validNeighborhoodFeature, loggable, logCoordinates.
    rewrite <- Hgeo. simpl. split; [eauto|]. split; [done|].
    by destruct (coercible (nb_name f)).
  - intros [= Hgeo]. unfold validNeighborhoodFeature, loggable, logCoordinates.
    rewrite <- Hgeo. split; [done|]. split; [done|].
    by destruct (coercible (nb_name f)).
Qed.

Lemma computed_polygons_have_numeric_corners_witness :
  let r := JObj [("name", JStr "Ybor City");
                 ("center", JObj [("lon", JNum (-82.437)); ("lat", JNum 27.96)])] in
  let f := mkNeighborhood (GeomSquareAround (JNum (-82.437)) (JNum 27.96))
             (JStr "Ybor City") (JNum 0) (JNum 0) (JNum 0)
             (ScoreAverage (JNum 0) (JNum 0) (JNum 0)) in
  (if truthy (or_else (prop r "neighborhood_center") (prop r "center"))
   then ∃ cx cy, nb_geometry f = GeomSquareAround (JNum cx) (JNum cy)
   else nb_geometry f = GeomFallbackSquare (fallbackLng 2) (fallbackLat 2)) ∧
  validNeighborhoodFeature f = true ∧ loggable f = coercible (nb_name f).
Proof.
  intros r f.
  apply (computed_polygons_have_numeric_corners r 2 f); reflexivity.
Defined.

(** ** Where the index-derived squares lie *)

Lemma fallbackLat_range index :
  (27.94 <= fallbackLat index)%Q ∧ (fallbackLat index <= 28.02)%Q.
Proof.
  unfold fallbackLat, idx.
  assert (0 ≤ Z.of_nat (index mod 5) ≤ 4)%Z as [H0 H4]
    by (pose proof (Nat.mod_upper_bound index 5); lia).
  rewrite Zle_Qle in H0, H4.
  change (inject_Z 0) with 0%Q in H0. change (inject_Z 4) with 4%Q in H4.
  split; lra.
Qed.

Lemma fallbackLng_west index : (-82.48 <= fallbackLng index)%Q.
Proof.
  unfold fallbackLng, idx.
  assert (0 ≤ Z.of_nat (index / 5))%Z as H0 by lia.
  rewrite Zle_Qle in H0. change (inject_Z 0) with 0%Q in H0. lra.
Qed.

Lemma fallbackLng_east index : (fallbackLng index <= -82.0)%Q ↔ index < 85.
Proof.
  unfold fallbackLng, idx. split.
  - intros H. destruct (decide (index < 85)) as [|Hge]; [done|].
    assert (17 ≤ Z.of_nat (index / 5))%Z as H17.
    { assert (17 ≤ index / 5); [|lia]. apply Nat.div_le_lower_bound; lia. }
    rewrite Zle_Qle in H17. change (inject_Z 17) with 17%Q in H17. lra.
  - intros H.
    assert (Z.of_nat (index / 5) ≤ 16)%Z as H16.
    { assert (index / 5 < 17); [|lia]. apply Nat.Div0.div_lt_upper_bound; lia. }
    rewrite Zle_Qle in H16. change (inject_Z 16) with 16%Q in H16. lra.
Qed.

(** Property X19.  The square that a record without any geometry gets from its
    index has a corner inside the Tampa bounding box exactly when the index is
    below 85: the squares move 0.03 degrees east with every fifth record, and
    from record 85 on they lie east of the box. *)
Theorem fallback_square_in_bounds_iff (index : nat) (coordinates : JsVal) :
  ring (GeomFallbackSquare (fallbackLng index) (fallbackLat index)) = Some coordinates →
  isInTampaBounds coordinates = true ↔ index < 85.
Proof.
  intros [= <-].
  pose proof (fallbackLat_range index) as [Hlat0 Hlat1].
  pose proof (fallbackLng_west index) as Hw.
  pose proof (fallbackLng_east index) as He.
  set (lng := fallbackLng index) in *. set (lat := fallbackLat index) in *.
  unfold isInTampaBounds.
  cbn [truthy isArray elements negb orb length nth_or_undef lookup list_lookup
       default from_option id].
  rewrite !bool_decide_eq_false_2 by done.
  assert (∀ x y, Qle_bool x y = false → ¬ (x <= y)%Q) as Hnle.
  { intros x y E H%Qle_bool_iff. congruence. }
  split.
  - intros Hin. apply He. apply Qnot_lt_le. intros Hlt.
    revert Hin. simpl.
    repeat match goal with
    | |- context [Qle_bool ?x ?y] =>
        let E := fresh "E" in
        destruct (Qle_bool x y) eqn:E;
        [apply Qle_bool_iff in E|apply Hnle in E]; simpl
    end; try discriminate; simpl in *; lra.
  - intros Hlt%He.
    assert (withinBounds TAMPA_BOUNDS (JNum lng) (JNum lat) = true) as Hin.
    { apply withinBounds_true. exists lng, lat. simpl. repeat split; try done; lra. }
    clearbody lng lat. cbn -[withinBounds Qplus]. by rewrite Hin.
Qed.

Lemma fallback_square_in_bounds_iff_witness :
  isInTampaBounds
    (JArr [JArr [pt (fallbackLng 84) (fallbackLat 84);
                 pt (fallbackLng 84 + 0.02) (fallbackLat 84);
                 pt (fallbackLng 84 + 0.02) (fallbackLat 84 + 0.02);
                 pt (fallbackLng 84) (fallbackLat 84 + 0.02);
                 pt (fallbackLng 84) (fallbackLat 84)]]) = true ↔ 84 < 85.
Proof. apply (fallback_square_in_bounds_iff 84). reflexivity. Defined.

(** * Further properties of the controller over time *)

(** ** The retry is never needed *)

Lemma push_keeps_timers name fc s :
  mapOk s → isMapLoaded s = true → mapSourcesReady s = true →
  name ∈ ["density-grid"; "business-clusters"; "neighborhoods"] →
  timers (updateWithRetry name fc s) = timers s ∧
  timers (clearSource name s) = timers s.
Proof.
  intros Hok Hl Hr Hname.
  destruct (mo_loaded s Hok Hl) as [m Hm].
  destruct (mo_map s Hok m Hm) as [(Hd & Hc & Hn) _].
  assert (is_Some (sources m !! name)) as Hs.
  { repeat (apply elem_of_cons in Hname as [->|Hname]; [done|]).
    by apply elem_of_nil in Hname. }
  by rewrite (updateWithRetry_ok name fc s m), (clearSource_ok name s m).
Qed.

Lemma guard_passed s loading :
  negb (isMapLoaded s) || negb (mapSourcesReady s) || isLayerTransitioning s || loading
  = false →
  isMapLoaded s = true ∧ mapSourcesReady s = true.
Proof. destruct (isMapLoaded s), (mapSourcesReady s); simpl; try done. Qed.

(** Property X20.  From the mounted component, whatever the events, no retry
    of a source update is pending: every pending timer is the timeout that
    shows the map or the timeout of a layer transition.  And in every such
    state each of the three data effects leaves the timers as they are: when
    its guard lets it through, the map and its three sources exist and the
    update succeeds at once. *)
Theorem no_retry_is_ever_scheduled
    (events : list Event) (loading : bool)
    (clusterData : option (list BusinessClusterFeature)) (category : string)
    (neighborhoodData : option (list NeighborhoodFeature)) :
  let s := run events mounted in
  Forall (λ t, tm_task t = ShowMapTimeout ∨ ∃ a, tm_task t = TransitionTimeout true a)
         (timers s) ∧
  timers (densityEffect s) = timers s ∧
  timers (clusterEffect loading clusterData category s) = timers s ∧
  timers (neighborhoodEffect loading neighborhoodData s) = timers s.
Proof.
  intros s.
  destruct (run_spec events mounted) as [(Htimers & Hok & _) _]; try apply inv_mounted.
  fold s in Htimers, Hok. split; [|split; [|split]].
  - eapply Forall_impl; [apply (to_each s Htimers)|].
    intros t (_ & _ & Ht). destruct (tm_task t); try done.
    + by left.
    + right. destruct Ht as [-> _]. by eexists.
  - by destruct (frame_densityEffect s Hok) as (-> & _).
  - unfold clusterEffect. destruct (_ || _) eqn:Hg; [done|].
    apply guard_passed in Hg as [Hl Hr].
    destruct clusterData as [[|f data]|];
      try by apply (push_keeps_timers "business-clusters" [] s);
             [..|set_solver].
    cbv zeta. case_bool_decide.
    + apply (push_keeps_timers "business-clusters" [] s); [done..|set_solver].
    + apply push_keeps_timers; [done..|set_solver].
  - unfold neighborhoodEffect. destruct (_ || _) eqn:Hg; [done|].
    apply guard_passed in Hg as [Hl Hr].
    match goal with |- context [bind ?d _] => destruct d as [dataToUse|e] end;
      [|done].
    cbn [bind]. cbv zeta. case_bool_decide; cbn [catch_return].
    + apply (push_keeps_timers "neighborhoods" [] s); [done..|set_solver].
    + apply push_keeps_timers; [done..|set_solver].
Qed.

(** ** The map during a transition *)

(** Property X21.  When exactly the layers of the active kind are visible and
    no timer is pending, a click on another kind hides them at once: for the
    next 300 ms (less one) no layer of any kind is visible, the clicked kind
    is already the active one and the transition flag is set. *)
Theorem nothing_visible_during_transition
    (s : View) (m : MapboxMap) (k : MapLayerType) (n : nat) :
  map_current s = Some m → layout m = only (activeLayer s) →
  isMapLoaded s = true → showMap s = true → timers s = [] →
  k ≠ activeLayer s → n < 300 →
  let s' := run (LayerClick k :: wait n) s in
  activeLayer s' = k ∧ isLayerTransitioning s' = true ∧
  ∃ m', map_current s' = Some m' ∧ visibleKinds m' = [] ∧ sources m' = sources m.
Proof.
  intros Hm Hlay Hl Hshow Htimers Hk Hn s'. subst s'.
  change (run (LayerClick k :: wait n) s) with (run (wait n) (step (LayerClick k) s)).
  assert (step (LayerClick k) s = onChange k s) as ->.
  { unfold step. rewrite Hl, Hshow. simpl. apply commit_transitioning.
    unfold onChange. by rewrite bool_decide_eq_false_2. }
  unfold onChange. rewrite bool_decide_eq_false_2 by done. cbv zeta.
  rewrite wait_idle.
  2:{ simpl. rewrite Htimers. repeat constructor. simpl. lia. }
  simpl. rewrite Hm. simpl. repeat split; try done.
  eexists. split; [reflexivity|]. split; [|apply hideLayer_sources].
  apply visibleKinds_hidden.
  destruct m as [y srcs]. simpl in Hlay. subst y.
  by destruct (activeLayer s).
Qed.

Lemma nothing_visible_during_transition_witness :
  let s := mkView (Some loadedMap) true true true false density false None [] 1 500 in
  let s' := run (LayerClick clusters :: wait 299) s in
  activeLayer s' = clusters ∧ isLayerTransitioning s' = true ∧
  ∃ m', map_current s' = Some m' ∧ visibleKinds m' = [] ∧ sources m' = sources loadedMap.
Proof.
  intros s.
  apply (nothing_visible_during_transition s loadedMap clusters 299); try done. lia.
Defined.

(** ** The debug log *)

Lemma clusterFeature_categories cluster index f :
  clusterFeature cluster index = Some f → isArray (bc_categories f) = true.
Proof.
  destruct (cluster_wellformed cluster) eqn:Hw.
  - destruct (clusterFeature_wellformed cluster index Hw) as (c & _ & ->).
    intros [= <-]. simpl. destruct (cluster_accepted_inv _ Hw).
    unfold or_else. by destruct (prop cluster "categories").
  - rewrite clusterFeature_malformed by done. by intros [= <-].
Qed.

(** Property X22.  Every feature that [getBusinessClusters] returns carries an
    array of categories, whatever the server sent.  So the effect that logs
    the structure of the data, which is not inside a [try], does not throw on
    the result of the cluster query, and the category filter never skips a
    cluster for want of an array. *)
Theorem fetched_clusters_have_category_arrays (api : Api) (p : Q) :
  ∃ fs, clusterQueryFn api p = Ok fs ∧
    Forall (λ f, isArray (bc_categories f) = true) fs ∧
    (∀ neighborhoodData, debugEffect (Some fs) neighborhoodData = Ok ()) ∧
    ∀ category f, f ∈ fs →
      (hasCategory category f = true ↔ JStr category ∈ elements (bc_categories f)).
Proof.
  destruct (getBusinessClusters_returns api p) as [fs Hfs].
  exists fs. split; [unfold clusterQueryFn; by rewrite Hfs|].
  assert (Forall (λ f, isArray (bc_categories f) = true) fs) as Hall.
  { apply Forall_forall. intros f Hf.
    destruct (getBusinessClusters_elem _ _ _ _ Hfs Hf) as (c & i & Hc).
    by apply (clusterFeature_categories c i). }
  split; [done|]. split.
  - intros nd. destruct Hall as [|f fs Hf _]; [done|]. simpl.
    unfold optionalSlice. by destruct (bc_categories f).
  - intros category f Hf. rewrite Forall_forall in Hall.
    unfold hasCategory. rewrite (Hall f Hf). simpl. apply includesString_elem.
Qed.

(** ** Transition timeouts *)

Lemma tick_fires_head s t ts :
  timers s = t :: ts → tm_due t = S (now s) →
  Forall (λ t', S (now s) < tm_due t' ∧ tm_id t' ≠ tm_id t) ts →
  tick s = let s1 := with_timers ts (with_now (S (now s)) s) in
           commit s1 (runTask t s1) false.
Proof.
  intros Hts Hdue Hrest.
  assert (List.filter (λ t', tm_due t' <=? S (now s)) ts = []) as Hnone.
  { clear Hts. induction Hrest as [|t' ts' [Hlt _] _ IH]; cbn [List.filter]; [done|].
    rewrite (proj2 (Nat.leb_gt (tm_due t') (S (now s)))) by lia. exact IH. }
  assert (List.filter (λ t', negb (tm_id t' =? tm_id t)) ts = ts) as Hkeep.
  { apply filter_all. intros t' Ht'. rewrite Forall_forall in Hrest.
    destruct (Hrest t' Ht') as [_ Hne]. by apply negb_true_iff, Nat.eqb_neq. }
  unfold tick. cbv zeta. simpl. rewrite Hts. simpl.
  rewrite Hdue, Nat.leb_refl, Hnone. simpl.
  unfold fireTimer. simpl. rewrite Hts. simpl.
  rewrite Hdue, Nat.eqb_refl, Nat.leb_refl. simpl.
  unfold clearTimer. simpl. rewrite Hts. simpl.
  by rewrite Nat.eqb_refl, Hkeep.
Qed.

Lemma transition_fires s m t ts a :
  timers s = t :: ts → tm_task t = TransitionTimeout true a → tm_due t = S (now s) →
  Forall (λ t', S (now s) < tm_due t' ∧ tm_id t' ≠ tm_id t) ts →
  map_current s = Some m → sourcesRegistered m →
  tick s = let s1 := with_timers ts (with_now (S (now s)) s) in
           commit s1 (setIsLayerTransitioning false
                        (with_map (Some (refreshVisibility a m)) s1)) false.
Proof.
  intros Hts Htask Hdue Hrest Hm ([d Hd] & [c Hc] & [n Hn]).
  rewrite (tick_fires_head s t ts) by done. cbv zeta.
  unfold runTask. rewrite Htask. unfold forceRefreshSources. simpl.
  by rewrite Hm, Hd, Hc, Hn.
Qed.

Lemma click_starts_transition s k :
  isMapLoaded s = true → showMap s = true → k ≠ activeLayer s →
  step (LayerClick k) s =
    setTimer (TransitionTimeout true (activeLayer s)) 300
      (setActiveLayer k
         (with_map (hideLayer (activeLayer s) <$> map_current s)
            (setIsLayerTransitioning true s))).
Proof.
  intros Hl Hshow Hk. unfold step. rewrite Hl, Hshow. simpl.
  rewrite commit_transitioning by (unfold onChange; by rewrite bool_decide_eq_false_2).
  unfold onChange. rewrite bool_decide_eq_false_2 by done. cbv zeta. simpl.
  by rewrite Hl.
Qed.

Lemma hideLayer_registered a m : sourcesRegistered m → sourcesRegistered (hideLayer a m).
Proof. unfold sourcesRegistered. by rewrite hideLayer_sources. Qed.

Lemma refreshVisibility_registered a m :
  sourcesRegistered m → sourcesRegistered (refreshVisibility a m).
Proof. unfold sourcesRegistered. by rewrite refreshVisibility_sources. Qed.

(** The end of a transition on a state whose flags are set: the density
    effect runs, then the visibility effect shows the active kind. *)
Lemma transition_ends s m :
  map_current s = Some m → sourcesRegistered m →
  isMapLoaded s = true → showMap s = true → isLayerTransitioning s = true →
  let s4 := setIsLayerTransitioning false s in
  commit s s4 false = visibilityEffect (densityEffect s4) ∧
  ∃ m5, densityEffect s4 = with_map (Some m5) s4 ∧ sourcesRegistered m5 ∧
        visibilityEffect (densityEffect s4)
        = with_map (Some (refreshVisibility (activeLayer s) m5)) s4 ∧
        (mapSourcesReady s = true → isDensityLoading s = false →
         ∀ fs, densityData s = Some fs → List.filter validDensityFeature fs = fs →
               m5 = setData "density-grid" (DensityF <$> fs) m).
Proof.
  intros Hm Hreg Hl Hshow Ht s4. split.
  { unfold commit, densityDepsChanged, visibilityDepsChanged.
    cbn -[densityEffect visibilityEffect]. rewrite Ht.
    cbn -[densityEffect visibilityEffect]. by rewrite !orb_true_r. }
  assert (is_Some (sources m !! "density-grid")) as Hd by apply Hreg.
  assert (∀ m5, visibilityEffect (with_map (Some m5) s4)
                = with_map (Some (refreshVisibility (activeLayer s) m5)) s4) as Hvis.
  { intros m5. unfold visibilityEffect. simpl. by rewrite Hl, Hshow. }
  rewrite densityEffect_updateWithRetry. simpl. rewrite Hl. simpl.
  destruct (mapSourcesReady s) eqn:Hr; simpl.
  2:{ exists m. split; [by destruct s; simpl in *; subst|]. split; [done|].
      split; [|done]. rewrite <- (Hvis m). f_equal. by destruct s; simpl in *; subst. }
  destruct (isDensityLoading s) eqn:Hload; simpl.
  { exists m. split; [by destruct s; simpl in *; subst|]. split; [done|].
    split; [|done]. rewrite <- (Hvis m). f_equal. by destruct s; simpl in *; subst. }
  destruct (densityData s) as [[|f fs]|] eqn:Hdata.
  - rewrite (clearSource_ok "density-grid" s4 m) by done.
    eexists. split; [done|]. split; [by apply setData_sources|]. split; [apply Hvis|].
    by intros _ _ fs' [= <-] _.
  - cbv zeta. case_bool_decide as Hlen.
    + exists m. split; [by destruct s; simpl in *; subst|]. split; [done|].
      split. { rewrite <- (Hvis m). f_equal. by destruct s; simpl in *; subst. }
      intros _ _ fs' [= <-] Hv. rewrite Hv in Hlen. discriminate.
    + rewrite (updateWithRetry_ok "density-grid" _ s4 m) by done.
      eexists. split; [done|]. split; [by apply setData_sources|]. split; [apply Hvis|].
      intros _ _ fs' [= <-] Hv. by rewrite Hv.
  - rewrite (clearSource_ok "density-grid" s4 m) by done.
    eexists. split; [done|]. split; [by apply setData_sources|]. split; [apply Hvis|].
    by intros _ _ fs' [=].
Qed.

Lemma commit_before_map x before after b :
  commit (with_map x before) after b = commit before after b.
Proof. reflexivity. Qed.

Lemma wait_S n : wait (S n) = wait n ++ [Tick].
Proof. unfold wait. apply replicate_S_end. Qed.

(** Property X23.  Density data that arrives during a layer transition is
    not lost.  From a ready state without pending timers, when the result of
    the density query arrives some time after a click on another kind and
    before the transition timeout, nothing is written while the transition
    lasts, and when the timeout fires the density-grid source receives every
    feature of the result, while exactly the layers of the clicked kind
    become visible. *)
Theorem data_arriving_during_transition_is_applied
    (api : Api) (p : Q) (s : View) (m : MapboxMap) (k : MapLayerType) (n : nat) :
  map_current s = Some m → sourcesRegistered m →
  isMapLoaded s = true → mapSourcesReady s = true → showMap s = true →
  timers s = [] → k ≠ activeLayer s → n < 300 →
  ∃ fs, densityQueryFn api p = Ok fs ∧
    let during := run (LayerClick k :: wait n ++ [DensityQuery false (Some fs)]) s in
    let after := run (wait (300 - n)) during in
    map_current during = Some (hideLayer (activeLayer s) m) ∧
    isLayerTransitioning during = true ∧
    ∃ m', map_current after = Some m' ∧
          sources m' !! "density-grid" = Some (DensityF <$> fs) ∧
          layout m' = only k ∧ isLayerTransitioning after = false ∧
          timers after = [].
Proof.
  intros Hm Hreg Hl Hr Hshow Htimers Hk Hn.
  destruct (getDensityGrid_returns api p) as [fs Hfs].
  pose proof (getDensityGrid_valid api p fs Hfs) as Hv.
  exists fs. split; [unfold densityQueryFn; by rewrite Hfs|].
  cbv zeta.
  change (run (LayerClick k :: wait n ++ [DensityQuery false (Some fs)]) s)
    with (run (wait n ++ [DensityQuery false (Some fs)]) (step (LayerClick k) s)).
  rewrite run_app, click_starts_transition by done.
  destruct s as [mc l r sh tr a dl dd ts nt t0]. simpl in Hm, Hl, Hr, Hshow, Htimers, Hk.
  subst. remember 300 as d eqn:Hd.
  cbn -[Nat.add Nat.sub hideLayer run wait].
  rewrite wait_idle by (simpl; repeat constructor; simpl; lia).
  cbn -[Nat.add Nat.sub hideLayer run wait].
  change (run [DensityQuery false (Some fs)] ?x) with (step (DensityQuery false (Some fs)) x).
  unfold step. rewrite commit_transitioning by done.
  cbn -[Nat.add Nat.sub hideLayer run wait].
  split; [done|]. split; [done|].
  replace (d - n) with (S (d - 1 - n)) by lia.
  rewrite wait_S, run_app.
  rewrite wait_idle by (simpl; repeat constructor; simpl; lia).
  cbn -[Nat.add Nat.sub hideLayer run wait].
  change (run [Tick] ?x) with (tick x).
  match goal with |- context [tick ?x] =>
    assert (x = mkView (Some (hideLayer a m)) true true true true k false (Some fs)
                  [mkTimer nt (t0 + d) (TransitionTimeout true a)] (S nt)
                  (t0 + n + (d - 1 - n))) as -> by reflexivity
  end.
  replace (t0 + d) with (S (t0 + n + (d - 1 - n))) by lia.
  set (t1 := t0 + n + (d - 1 - n)).
  erewrite (transition_fires _ (hideLayer a m) _ []);
    [|reflexivity|reflexivity|reflexivity|constructor|reflexivity
     |by apply hideLayer_registered].
  cbv zeta.
  rewrite <- commit_before_map
    with (x := Some (refreshVisibility a (hideLayer a m))).
  match goal with |- context [commit ?x _ false] => set (s3 := x) end.
  destruct (transition_ends s3 (refreshVisibility a (hideLayer a m)))
    as (Hcommit & m5 & _ & _ & Hvis & Hm5); try done.
  { by apply refreshVisibility_registered, hideLayer_registered. }
  cbv zeta in Hcommit, Hvis. rewrite Hcommit, Hvis.
  rewrite (Hm5 eq_refl eq_refl fs eq_refl Hv).
  eexists. split; [reflexivity|]. split.
  { rewrite refreshVisibility_sources. simpl. by rewrite lookup_insert_eq. }
  split; [apply refreshVisibility_layout|]. done.
Qed.

Lemma data_arriving_during_transition_is_applied_witness :
  let item := JObj [("grid_id", JStr "g1");
                    ("coordinates", JObj [("coordinates", JArr [JArr [pt 1 2]])]);
                    ("metrics", JObj [("business_count", JNum 7)])] in
  let api : Api := λ _ _, Ok (mkResponse true 200 (Ok (JArr [item]))) in
  let s := mkView (Some loadedMap) true true true false density false None [] 1 500 in
  ∃ fs, densityQueryFn api 1 = Ok fs ∧
    let during := run (LayerClick clusters :: wait 100 ++ [DensityQuery false (Some fs)]) s in
    let after := run (wait (300 - 100)) during in
    map_current during = Some (hideLayer (activeLayer s) loadedMap) ∧
    isLayerTransitioning during = true ∧
    ∃ m', map_current after = Some m' ∧
          sources m' !! "density-grid" = Some (DensityF <$> fs) ∧
          layout m' = only clusters ∧ isLayerTransitioning after = false ∧
          timers after = [].
Proof.
  intros item api s.
  apply (data_arriving_during_transition_is_applied api 1 s loadedMap clusters 100);
    try done. lia.
Defined.

Lemma commit_settled before x :
  isLayerTransitioning before = false →
  commit before (setIsLayerTransitioning false (with_map x before)) false
  = setIsLayerTransitioning false (with_map x before).
Proof.
  intros Ht. unfold commit, densityDepsChanged, visibilityDepsChanged. simpl.
  by rewrite Ht, !bool_decide_eq_true_2.
Qed.

Lemma run_tick s : run [Tick] s = tick s.
Proof. reflexivity. Qed.

Lemma run_tick_cons es s : run (Tick :: es) s = run es (tick s).
Proof. reflexivity. Qed.

Lemma run_cons e es s : run (e :: es) s = run es (step e s).
Proof. reflexivity. Qed.

Lemma wait_add a b : wait (a + b) = wait a ++ wait b.
Proof. unfold wait. apply replicate_add. Qed.

(** Property X24.  A second click during a transition leaves the wrong kind
    on the map.  From a state with rendered controls, registered sources and
    no pending timer, a click on a kind [k1], then within less than 300 ms a
    click on another kind [k2], then 300 ms without events, end with [k2]
    active, no transition and no timer pending, but with exactly the layers of
    [k1] visible: the second timeout refreshes the visibility with the active
    layer its closure captured, and no effect runs after it. *)
Theorem second_click_leaves_first_kind_visible
    (s : View) (m : MapboxMap) (k1 k2 : MapLayerType) (n : nat) :
  map_current s = Some m → sourcesRegistered m →
  isMapLoaded s = true → showMap s = true → timers s = [] →
  k1 ≠ activeLayer s → k2 ≠ k1 → 0 < n → n < 300 →
  let s' := run (LayerClick k1 :: wait n ++ LayerClick k2 :: wait 300) s in
  activeLayer s' = k2 ∧ isLayerTransitioning s' = false ∧ timers s' = [] ∧
  ∃ m', map_current s' = Some m' ∧ layout m' = only k1 ∧ visibleKinds m' = [k1].
Proof.
  intros Hm Hreg Hl Hshow Htimers Hk1 Hk2 Hn0 Hn s'.
  assert (∃ m', map_current s' = Some m' ∧ layout m' = only k1 ∧
            activeLayer s' = k2 ∧ isLayerTransitioning s' = false ∧ timers s' = [])
    as (m' & ? & ? & ? & ? & ?).
  2:{ repeat split; try done. exists m'. repeat split; try done.
      by apply visibleKinds_only. }
  subst s'.
  rewrite run_cons, run_app, (click_starts_transition s k1) by done.
  destruct s as [mc l r sh tr a dl dd ts nt t0].
  simpl in Hm, Hl, Hshow, Htimers, Hk1. subst.
  remember 300 as d eqn:Hd.
  match goal with |- context [run (wait n) ?x] =>
    assert (x = mkView (Some (hideLayer a m)) true r true true k1 dl dd
                  [mkTimer nt (t0 + d) (TransitionTimeout true a)] (S nt) t0)
      as -> by reflexivity
  end.
  rewrite wait_idle by (simpl; repeat constructor; simpl; lia).
  rewrite run_cons, click_starts_transition by done. rewrite <- Hd.
  match goal with |- context [run (wait d) ?x] =>
    assert (x = mkView (Some (hideLayer k1 (hideLayer a m))) true r true true k2 dl dd
                  [mkTimer nt (t0 + d) (TransitionTimeout true a);
                   mkTimer (S nt) (t0 + n + d) (TransitionTimeout true k1)]
                  (S (S nt)) (t0 + n))
      as -> by reflexivity
  end.
  assert (wait d = wait (d - 1 - n) ++ Tick :: wait (n - 1) ++ [Tick]) as ->.
  { change (Tick :: wait (n - 1) ++ [Tick]) with (wait 1 ++ wait (n - 1) ++ wait 1).
    rewrite <- !wait_add. f_equal. lia. }
  rewrite run_app, run_tick_cons, run_app, run_tick.
  rewrite (wait_idle (d - 1 - n)) by (simpl; repeat constructor; simpl; lia).
  match goal with |- context [run (wait (n - 1)) (tick ?x)] =>
    assert (x = mkView (Some (hideLayer k1 (hideLayer a m))) true r true true k2 dl dd
                  [mkTimer nt (t0 + d) (TransitionTimeout true a);
                   mkTimer (S nt) (t0 + n + d) (TransitionTimeout true k1)]
                  (S (S nt)) (t0 + n + (d - 1 - n)))
      as -> by reflexivity
  end.
  replace (t0 + d) with (S (t0 + n + (d - 1 - n))) by lia.
  set (t1 := t0 + n + (d - 1 - n)).
  match goal with |- context [run (wait (n - 1)) (tick ?x)] =>
    erewrite (transition_fires x (hideLayer k1 (hideLayer a m)) _ [_]);
      [|reflexivity|reflexivity|reflexivity
       |repeat constructor; simpl; lia|reflexivity
       |by do 2 apply hideLayer_registered]
  end.
  cbv zeta.
  rewrite <- commit_before_map
    with (x := Some (refreshVisibility a (hideLayer k1 (hideLayer a m)))).
  match goal with |- context [commit ?x _ false] => set (s3 := x) end.
  destruct (transition_ends s3 (refreshVisibility a (hideLayer k1 (hideLayer a m))))
    as (Hcommit & m5 & _ & Hreg5 & Hvis & _); try done.
  { by apply refreshVisibility_registered; do 2 apply hideLayer_registered. }
  cbv zeta in Hcommit, Hvis. rewrite Hcommit, Hvis.
  match goal with |- context [run (wait (n - 1)) ?x] =>
    assert (x = mkView (Some (refreshVisibility k2 m5)) true r true false k2 dl dd
                  [mkTimer (S nt) (t0 + n + d) (TransitionTimeout true k1)]
                  (S (S nt)) (S t1))
      as -> by reflexivity
  end.
  rewrite (wait_idle (n - 1)) by (simpl; repeat constructor; simpl; lia).
  match goal with |- context [tick ?x] =>
    assert (x = mkView (Some (refreshVisibility k2 m5)) true r true false k2 dl dd
                  [mkTimer (S nt) (t0 + n + d) (TransitionTimeout true k1)]
                  (S (S nt)) (S t1 + (n - 1)))
      as -> by reflexivity
  end.
  replace (t0 + n + d) with (S (S t1 + (n - 1))) by lia.
  erewrite (transition_fires _ (refreshVisibility k2 m5) _ []);
    [|reflexivity|reflexivity|reflexivity|constructor|reflexivity
     |by apply refreshVisibility_registered].
  cbv zeta. rewrite commit_settled by done.
  eexists. split; [reflexivity|]. split; [apply refreshVisibility_layout|done].
Qed.

Lemma second_click_leaves_first_kind_visible_witness :
  let s := mkView (Some loadedMap) true true true false density false None [] 1 500 in
  let s' := run (LayerClick clusters :: wait 100 ++ LayerClick neighborhoods :: wait 300) s in
  activeLayer s' = neighborhoods ∧ isLayerTransitioning s' = false ∧ timers s' = [] ∧
  ∃ m', map_current s' = Some m' ∧ layout m' = only clusters ∧
        visibleKinds m' = [clusters].
Proof.
  intros s.
  apply (second_click_leaves_first_kind_visible s loadedMap clusters neighborhoods 100);
    try done; lia.
Defined.
